(** * hr_hiring: token sessions and role/permission authorization

    A shallow embedding of the FastAPI authentication backend
    (app/auth/dependencies.py, app/routers/auth.py, app/routers/admin.py,
    app/routers/users.py, app/models/*.py) and the properties its
    specification states about it.

    Tables are lists of rows in primary-key order, a request handler is a
    function from the database to an outcome and a new database, and a
    FastAPI dependency is a read-only function of the database. *)

From Stdlib Require Import ZArith List Bool Ascii.
From stdpp Require Import base strings list gmap.

Local Open Scope string_scope.
Local Open Scope Z_scope.

(** ** Data model (app/models/database_models.py, app/models/schemas.py) *)

(** [class UserRole(str, enum.Enum)]; [role_value] is the enum's string value. *)
Inductive UserRole : Type := USER | ADMIN | HR | CANDIDATE.

Definition role_value (r : UserRole) : string :=
  match r with
  | USER => "user"
  | ADMIN => "admin"
  | HR => "hr"
  | CANDIDATE => "candidate"
  end.

#[global] Instance UserRole_eq_dec : EqDecision UserRole.
Proof. solve_decision. Defined.

(** The role is a str-mixin enum, so [role == "admin"] compares its value. *)
Definition role_is (r : UserRole) (s : string) : bool := String.eqb (role_value r) s.

Module Permission.
Record t : Type := mk {
  id : Z;
  name : string;
  description : string
}.
End Permission.

Module User.
Record t : Type := mk {
  id : Z;
  email : string;
  name : string;
  phone : option string;
  hashed_password : string;
  role : UserRole;
  is_active : bool;
  is_email_verified : bool;
  firebase_uid : option string;
  created_at : Z;
  updated_at : Z;
  last_login : option Z;
  email_verification_token : option string;
  email_verification_expire : option Z;
  reset_password_token : option string;
  reset_password_expire : option Z;
  permissions : list Permission.t
}.

(** Attribute assignments [user.x = v]. *)
Definition set_hashed_password (v : string) (u : t) : t :=
  mk (id u) (email u) (name u) (phone u) v (role u) (is_active u)
     (is_email_verified u) (firebase_uid u) (created_at u) (updated_at u)
     (last_login u) (email_verification_token u) (email_verification_expire u)
     (reset_password_token u) (reset_password_expire u) (permissions u).

Definition set_role (v : UserRole) (u : t) : t :=
  mk (id u) (email u) (name u) (phone u) (hashed_password u) v (is_active u)
     (is_email_verified u) (firebase_uid u) (created_at u) (updated_at u)
     (last_login u) (email_verification_token u) (email_verification_expire u)
     (reset_password_token u) (reset_password_expire u) (permissions u).

Definition set_is_active (v : bool) (u : t) : t :=
  mk (id u) (email u) (name u) (phone u) (hashed_password u) (role u) v
     (is_email_verified u) (firebase_uid u) (created_at u) (updated_at u)
     (last_login u) (email_verification_token u) (email_verification_expire u)
     (reset_password_token u) (reset_password_expire u) (permissions u).

Definition set_firebase_uid (v : option string) (u : t) : t :=
  mk (id u) (email u) (name u) (phone u) (hashed_password u) (role u)
     (is_active u) (is_email_verified u) v (created_at u) (updated_at u)
     (last_login u) (email_verification_token u) (email_verification_expire u)
     (reset_password_token u) (reset_password_expire u) (permissions u).

Definition set_updated_at (v : Z) (u : t) : t :=
  mk (id u) (email u) (name u) (phone u) (hashed_password u) (role u)
     (is_active u) (is_email_verified u) (firebase_uid u) (created_at u) v
     (last_login u) (email_verification_token u) (email_verification_expire u)
     (reset_password_token u) (reset_password_expire u) (permissions u).

Definition set_last_login (v : option Z) (u : t) : t :=
  mk (id u) (email u) (name u) (phone u) (hashed_password u) (role u)
     (is_active u) (is_email_verified u) (firebase_uid u) (created_at u)
     (updated_at u) v (email_verification_token u)
     (email_verification_expire u) (reset_password_token u)
     (reset_password_expire u) (permissions u).

Definition set_reset_password_token (v : option string) (u : t) : t :=
  mk (id u) (email u) (name u) (phone u) (hashed_password u) (role u)
     (is_active u) (is_email_verified u) (firebase_uid u) (created_at u)
     (updated_at u) (last_login u) (email_verification_token u)
     (email_verification_expire u) v (reset_password_expire u)
     (permissions u).

Definition set_reset_password_expire (v : option Z) (u : t) : t :=
  mk (id u) (email u) (name u) (phone u) (hashed_password u) (role u)
     (is_active u) (is_email_verified u) (firebase_uid u) (created_at u)
     (updated_at u) (last_login u) (email_verification_token u)
     (email_verification_expire u) (reset_password_token u) v
     (permissions u).

Definition set_name (v : string) (u : t) : t :=
  mk (id u) (email u) v (phone u) (hashed_password u) (role u) (is_active u)
     (is_email_verified u) (firebase_uid u) (created_at u) (updated_at u)
     (last_login u) (email_verification_token u) (email_verification_expire u)
     (reset_password_token u) (reset_password_expire u) (permissions u).

Definition set_phone (v : option string) (u : t) : t :=
  mk (id u) (email u) (name u) v (hashed_password u) (role u) (is_active u)
     (is_email_verified u) (firebase_uid u) (created_at u) (updated_at u)
     (last_login u) (email_verification_token u) (email_verification_expire u)
     (reset_password_token u) (reset_password_expire u) (permissions u).

Definition set_is_email_verified (v : bool) (u : t) : t :=
  mk (id u) (email u) (name u) (phone u) (hashed_password u) (role u)
     (is_active u) v (firebase_uid u) (created_at u) (updated_at u)
     (last_login u) (email_verification_token u) (email_verification_expire u)
     (reset_password_token u) (reset_password_expire u) (permissions u).

Definition set_email_verification_token (v : option string) (u : t) : t :=
  mk (id u) (email u) (name u) (phone u) (hashed_password u) (role u)
     (is_active u) (is_email_verified u) (firebase_uid u) (created_at u)
     (updated_at u) (last_login u) v (email_verification_expire u)
     (reset_password_token u) (reset_password_expire u) (permissions u).

Definition set_email_verification_expire (v : option Z) (u : t) : t :=
  mk (id u) (email u) (name u) (phone u) (hashed_password u) (role u)
     (is_active u) (is_email_verified u) (firebase_uid u) (created_at u)
     (updated_at u) (last_login u) (email_verification_token u) v
     (reset_password_token u) (reset_password_expire u) (permissions u).

Definition set_permissions (v : list Permission.t) (u : t) : t :=
  mk (id u) (email u) (name u) (phone u) (hashed_password u) (role u)
     (is_active u) (is_email_verified u) (firebase_uid u) (created_at u)
     (updated_at u) (last_login u) (email_verification_token u)
     (email_verification_expire u) (reset_password_token u)
     (reset_password_expire u) v.
End User.

Module UserSession.
Record t : Type := mk {
  id : Z;
  user_id : Z;
  refresh_token : string;
  expires_at : Z;
  created_at : Z;
  ip_address : option string;
  user_agent : option string
}.
End UserSession.

(** [class Token(BaseModel)]: [refresh_token] is optional, [token_type]
    defaults to "bearer". *)
Module Token.
Record t : Type := mk {
  access_token : string;
  refresh_token : option string;
  token_type : string
}.
End Token.

(** [class UserCreate(UserBase)], as the signup handler receives it. *)
Module UserCreate.
Record t : Type := mk {
  email : string;
  name : string;
  phone : option string;
  role : UserRole;
  password : string
}.
End UserCreate.

(** ** Token claims *)

(** A value of a decoded token's claim dictionary. [CNone] is Python's
    [None], which [dict.get] also returns for a key that is absent. *)
Inductive Claim : Type :=
  | CNone
  | CStr (s : string)
  | CInt (z : Z).

#[global] Instance Claim_eq_dec : EqDecision Claim.
Proof. solve_decision. Defined.

(** [payload.get(key)] *)
Definition dict_get (payload : gmap string Claim) (key : string) : Claim :=
  default CNone (payload !! key).

(** [Column == value] in a query filter, for a string and for an integer
    column. A claim of another type than the column matches no row. *)
Definition str_column_eq (col : string) (v : Claim) : bool :=
  match v with
  | CStr s => String.eqb col s
  | _ => false
  end.

Definition int_column_eq (col : Z) (v : Claim) : bool :=
  match v with
  | CInt z => Z.eqb col z
  | _ => false
  end.

(** ** app.auth.security *)

(** app/auth/security.py is not among the sources, so its functions are
    parameters of the development. [decode_token] yields the claims of a
    token or nothing (it reads the clock for the expiry, hence the first
    argument), the two constructors sign a claim dictionary, and the last
    three are the password hasher and the digest of one-time tokens. No
    property of them is assumed. *)
Class Security : Type := {
  decode_token : Z → string → option (gmap string Claim);
  create_access_token : Z → gmap string Claim → string;
  create_refresh_token : Z → gmap string Claim → string;
  get_password_hash : string → string;
  verify_password : string → string → bool;
  hash_token : string → string
}.

(** ** The database session *)

(** The three tables, each with its AUTO_INCREMENT counter. Rows are kept in
    insertion order, which is primary-key order. *)
Record DB : Type := mkDB {
  users : list User.t;
  permissions : list Permission.t;
  user_sessions : list UserSession.t;
  users_autoinc : Z;
  permissions_autoinc : Z;
  user_sessions_autoinc : Z
}.

(** [db.query(T).filter(P).first()] and [db.query(T).filter(P).all()] *)
Definition first {A : Type} (P : A → bool) (rows : list A) : option A :=
  List.find P rows.

Definition all {A : Type} (P : A → bool) (rows : list A) : list A :=
  List.filter P rows.

(** [Permission.name.in_(names)] *)
Definition name_in (names : list string) (p : Permission.t) : bool :=
  existsb (String.eqb (Permission.name p)) names.

(** Flushing a modified [User] object: UPDATE users SET ... WHERE id = pk. *)
Definition update_user (u : User.t) (db : DB) : DB :=
  mkDB (map (λ r, if User.id r =? User.id u then u else r) (users db))
       (permissions db) (user_sessions db)
       (users_autoinc db) (permissions_autoinc db) (user_sessions_autoinc db).

(** [db.add(User(...))]: the row gets the next primary key. *)
Definition add_user (mk_row : Z → User.t) (db : DB) : DB :=
  mkDB (users db ++ [mk_row (users_autoinc db)])
       (permissions db) (user_sessions db)
       (users_autoinc db + 1) (permissions_autoinc db) (user_sessions_autoinc db).

Definition add_permission (name description : string) (db : DB) : DB :=
  mkDB (users db)
       (permissions db ++ [Permission.mk (permissions_autoinc db) name description])
       (user_sessions db)
       (users_autoinc db) (permissions_autoinc db + 1) (user_sessions_autoinc db).

Definition add_session (mk_row : Z → UserSession.t) (db : DB) : DB :=
  mkDB (users db) (permissions db)
       (user_sessions db ++ [mk_row (user_sessions_autoinc db)])
       (users_autoinc db) (permissions_autoinc db) (user_sessions_autoinc db + 1).

(** [db.query(UserSession).filter(UserSession.user_id == uid).delete()] *)
Definition delete_sessions_of (uid : Z) (db : DB) : DB :=
  mkDB (users db) (permissions db)
       (all (λ s, negb (UserSession.user_id s =? uid)) (user_sessions db))
       (users_autoinc db) (permissions_autoinc db) (user_sessions_autoinc db).

(** [db.delete(user)]: the relationship [sessions] is declared with
    cascade="all, delete-orphan", so the user's sessions go with the row. *)
Definition delete_user_row (u : User.t) (db : DB) : DB :=
  mkDB (all (λ r, negb (User.id r =? User.id u)) (users db))
       (permissions db)
       (all (λ s, negb (UserSession.user_id s =? User.id u)) (user_sessions db))
       (users_autoinc db) (permissions_autoinc db) (user_sessions_autoinc db).

(** The unique index on [users.firebase_uid]: a row cannot be flushed with a
    uid that one of [rows] holds already. NULL is no duplicate of NULL. *)
Definition firebase_uid_taken (uid : option string) (rows : list User.t) : bool :=
  match uid with
  | Some v => existsb (λ r, bool_decide (User.firebase_uid r = Some v)) rows
  | None => false
  end.

(** The database driver words its own exceptions: [IntegrityError_str row]
    is [str(e)] of the IntegrityError that the flush of [row] raises. *)
Class Engine : Type := {
  IntegrityError_str : User.t → string
}.

(** [session.user]: the relationship through the foreign key. *)
Definition session_user (s : UserSession.t) (db : DB) : option User.t :=
  first (λ u, User.id u =? UserSession.user_id s) (users db).

(** ** Request handlers *)

Record HTTPException : Type := mkHTTPException {
  status_code : Z;
  detail : string
}.

Definition HTTP_400_BAD_REQUEST : Z := 400.
Definition HTTP_401_UNAUTHORIZED : Z := 401.
Definition HTTP_403_FORBIDDEN : Z := 403.
Definition HTTP_404_NOT_FOUND : Z := 404.

Inductive Outcome (A : Type) : Type :=
  | Return (a : A)
  | Raise (e : HTTPException).
Arguments Return {A} a.
Arguments Raise {A} e.

(** A handler runs on the database session and leaves the committed state.
    Every handler below commits before it can raise again, so the state at a
    [Raise] is the state reached so far. *)
Definition Handler (A : Type) : Type := DB → Outcome A * DB.

Definition ret {A : Type} (a : A) : Handler A := λ db, (Return a, db).

Definition raise {A : Type} (e : HTTPException) : Handler A := λ db, (Raise e, db).

Definition bind {A B : Type} (c : Handler A) (k : A → Handler B) : Handler B :=
  λ db, match c db with
        | (Return a, db') => k a db'
        | (Raise e, db') => (Raise e, db')
        end.

(** A read of the session, and a write followed by [db.commit()]. *)
Definition query {A : Type} (q : DB → A) : Handler A := λ db, (Return (q db), db).

Definition commit (f : DB → DB) : Handler unit := λ db, (Return tt, f db).

(** [x = Depends(dep)]: the dependency reads the database; if it raises,
    the handler body does not run. *)
Definition Depends {A : Type} (dep : DB → Outcome A) : Handler A :=
  λ db, (dep db, db).

Notation "'do' x ← c ; k" := (bind c (λ x, k))
  (at level 20, x name, c at level 100, k at level 200, only parsing).

(** *** app/auth/dependencies.py *)

Module Dependencies.
Section WithSecurity.
Context {sec : Security}.

Definition credentials_exception : HTTPException :=
  mkHTTPException HTTP_401_UNAUTHORIZED "Could not validate credentials".

Definition get_current_user (now : Z) (token : string) (db : DB) : Outcome User.t :=
  match decode_token now token with
  | None => Raise credentials_exception
  | Some payload =>
    if negb (bool_decide (dict_get payload "type" = CStr "access"))
    then Raise credentials_exception
    else
      match dict_get payload "sub" with
      | CNone => Raise credentials_exception
      | email =>
        match first (λ u, str_column_eq (User.email u) email) (users db) with
        | None => Raise credentials_exception
        | Some user =>
          if negb (User.is_active user)
          then Raise (mkHTTPException HTTP_403_FORBIDDEN "User account is disabled")
          else Return user
        end
      end
  end.

(** The e-mail verification check is commented out in the source. *)
Definition get_current_active_user (now : Z) (token : string) (db : DB)
  : Outcome User.t :=
  get_current_user now token db.

Definition require_role (allowed_roles : list UserRole)
    (now : Z) (token : string) (db : DB) : Outcome User.t :=
  match get_current_active_user now token db with
  | Raise e => Raise e
  | Return current_user =>
    if negb (bool_decide (User.role current_user ∈ allowed_roles))
    then Raise (mkHTTPException HTTP_403_FORBIDDEN
                  ("User role '" +:+ role_value (User.role current_user)
                   +:+ "' is not authorized for this action"))
    else Return current_user
  end.

Definition require_permission (required_permissions : list string)
    (now : Z) (token : string) (db : DB) : Outcome User.t :=
  match get_current_active_user now token db with
  | Raise e => Raise e
  | Return current_user =>
    let user_permissions := map Permission.name (User.permissions current_user) in
    let has_permission :=
      existsb (λ perm, bool_decide (perm ∈ user_permissions)) required_permissions in
    if negb has_permission
    then Raise (mkHTTPException HTTP_403_FORBIDDEN
                  "You don't have permission to perform this action")
    else Return current_user
  end.
End WithSecurity.
End Dependencies.

(** *** app/firebase_config.py *)

(** The claims of a verified Firebase ID token that the login handler reads. *)
Module FirebaseToken.
Record t : Type := mk {
  email : option string;
  uid : option string;
  name : option string
}.
End FirebaseToken.

(** The Firebase SDK is an external collaborator: [firebase_app] is the module
    global set by [initialize_firebase] (here: whether it is set),
    [firebase_auth_create_user] is the SDK call, [None] when it raises, and
    [firebase_auth_verify_id_token] gives the claims or the message of the
    exception it raises. *)
Class Firebase : Type := {
  firebase_app : bool;
  firebase_auth_create_user : string → string → string → option string;
  firebase_auth_verify_id_token : string → string + FirebaseToken.t
}.

Definition verify_firebase_token {fb : Firebase} (id_token : string)
  : string + FirebaseToken.t :=
  if negb firebase_app then inl "Firebase is not initialized"
  else firebase_auth_verify_id_token id_token.

(** The uid comes from the account that [create_user] has just created in
    Firebase, which is why the insert of the signup handler is taken not to
    meet the unique index on [users.firebase_uid]. *)
Definition create_firebase_user {fb : Firebase} (email password display_name : string)
  : option string :=
  if negb firebase_app then None
  else firebase_auth_create_user email password display_name.

(** *** Time and claim dictionaries *)

(** Timestamps count seconds; [datetime.utcnow()] is the handler's [now]. *)
Definition hours (n : Z) : Z := n * 3600.
Definition days (n : Z) : Z := n * 86400.

(** [{"sub": user.email, "role": user.role, "user_id": user.id}] *)
Definition access_claims (user : User.t) : gmap string Claim :=
  <["sub" := CStr (User.email user)]>
    (<["role" := CStr (role_value (User.role user))]>
       (<["user_id" := CInt (User.id user)]> ∅)).

(** [{"sub": user.email, "user_id": user.id}] *)
Definition refresh_claims (user : User.t) : gmap string Claim :=
  <["sub" := CStr (User.email user)]> (<["user_id" := CInt (User.id user)]> ∅).

(** *** app/routers/auth.py *)

Module Auth.
Section WithSecurity.
Context {sec : Security} {fb : Firebase} {eng : Engine}.

Definition default_permissions : list (string * string) :=
  [ ("read", "Can read data");
    ("write", "Can write data");
    ("delete", "Can delete data");
    ("manage_users", "Can manage users");
    ("manage_roles", "Can manage roles") ].

(** One turn of the seeding loop. *)
Definition seed_permission (db : DB) (perm_data : string * string) : DB :=
  match first (λ p, String.eqb (Permission.name p) (fst perm_data)) (permissions db) with
  | Some _ => db
  | None => add_permission (fst perm_data) (snd perm_data) db
  end.

Definition init_default_permissions : Handler unit :=
  commit (λ db, fold_left seed_permission default_permissions db).

(** The session row every login path stores with the refresh token. *)
Definition new_session (user : User.t) (refresh_token : string) (now : Z)
    (ip_address user_agent : option string) (id : Z) : UserSession.t :=
  UserSession.mk id (User.id user) refresh_token (now + days 7) now
                 ip_address user_agent.

Definition signup (user_data : UserCreate.t) (now : Z) (verification_token : string)
  : Handler Token.t :=
  do _ ← init_default_permissions;
  do existing_user ← query (λ db,
       first (λ u, String.eqb (User.email u) (UserCreate.email user_data)) (users db));
  match existing_user with
  | Some _ => raise (mkHTTPException HTTP_400_BAD_REQUEST "Email already registered")
  | None =>
    let user := λ id,
      User.mk id (UserCreate.email user_data) (UserCreate.name user_data)
              (UserCreate.phone user_data)
              (get_password_hash (UserCreate.password user_data))
              (UserCreate.role user_data) true false None now now None
              (Some (hash_token verification_token)) (Some (now + hours 24))
              None None [] in
    do granted ← query (λ db,
         if role_is (UserCreate.role user_data) "admin" then permissions db
         else if role_is (UserCreate.role user_data) "hr"
         then all (name_in ["read"; "write"; "manage_users"]) (permissions db)
         else match first (λ p, String.eqb (Permission.name p) "read") (permissions db) with
              | Some permission => [permission]
              | None => []
              end);
    let user := λ id, User.set_permissions granted (user id) in
    let user := λ id,
      match create_firebase_user (UserCreate.email user_data)
              (UserCreate.password user_data) (UserCreate.name user_data) with
      | Some firebase_uid =>
        if String.eqb firebase_uid "" then user id
        else User.set_firebase_uid (Some firebase_uid) (user id)
      | None => user id
      end in
    do user ← (λ db, (Return (user (users_autoinc db)), add_user user db));
    (* the verification mail is sent here; a failure to send is only logged *)
    let access_token := create_access_token now (access_claims user) in
    let refresh_token := create_refresh_token now (refresh_claims user) in
    do _ ← commit (add_session (new_session user refresh_token now None None));
    ret (Token.mk access_token (Some refresh_token) "bearer")
  end.

Definition login (ip_address user_agent : option string)
    (username password : string) (now : Z) : Handler Token.t :=
  do user ← query (λ db, first (λ u, String.eqb (User.email u) username) (users db));
  match user with
  | None =>
    raise (mkHTTPException HTTP_401_UNAUTHORIZED "Incorrect email or password")
  | Some user =>
    if negb (verify_password password (User.hashed_password user))
    then raise (mkHTTPException HTTP_401_UNAUTHORIZED "Incorrect email or password")
    else if negb (User.is_active user)
    then raise (mkHTTPException HTTP_403_FORBIDDEN "Account is disabled")
    else
      (* the UPDATE also fires the column's onupdate=datetime.utcnow *)
      let user := User.set_updated_at now (User.set_last_login (Some now) user) in
      do _ ← commit (update_user user);
      let access_token := create_access_token now (access_claims user) in
      let refresh_token := create_refresh_token now (refresh_claims user) in
      do _ ← commit (add_session
                       (new_session user refresh_token now ip_address user_agent));
      ret (Token.mk access_token (Some refresh_token) "bearer")
  end.

(** Truthiness of an optional string: [None] and the empty string are false. *)
Definition truthy (v : option string) : bool :=
  match v with
  | Some s => negb (String.eqb s "")
  | None => false
  end.

(** The whole body runs in [try ... except Exception], so every failure,
    the 400 for a missing e-mail and the IntegrityError of a flush included,
    reaches the caller as a 401. The token's uid is stored in two places, the
    insert of a new account and the update of an account without uid; either
    flush fails, and nothing is stored, when another row holds that uid. *)
Definition firebase_failed (message : string) : HTTPException :=
  mkHTTPException HTTP_401_UNAUTHORIZED ("Firebase authentication failed: " +:+ message).

Definition firebase_login (id_token : string) (now : Z) : Handler Token.t :=
  match verify_firebase_token id_token with
  | inl message => raise (firebase_failed message)
  | inr decoded_token =>
    let firebase_uid := FirebaseToken.uid decoded_token in
    if negb (truthy (FirebaseToken.email decoded_token))
    then raise (firebase_failed "400: Email not found in Firebase token")
    else
      let email := default "" (FirebaseToken.email decoded_token) in
      do found ← query (λ db, first (λ u, String.eqb (User.email u) email) (users db));
      do user ← match found with
                | None =>
                  let user := λ id,
                    User.mk id email (default "" (FirebaseToken.name decoded_token))
                            None "" USER true true firebase_uid now now None
                            None None None None [] in
                  (λ db,
                     if firebase_uid_taken firebase_uid (users db)
                     then (Raise (firebase_failed
                                    (IntegrityError_str (user (users_autoinc db)))),
                           db)
                     else (Return (user (users_autoinc db)), add_user user db))
                | Some user =>
                  if negb (truthy (User.firebase_uid user))
                  then
                    let user := User.set_updated_at now
                                  (User.set_firebase_uid firebase_uid user) in
                    do taken ← query (λ db,
                                 firebase_uid_taken firebase_uid
                                   (all (λ r, negb (User.id r =? User.id user))
                                        (users db)));
                    if (taken : bool)
                    then raise (firebase_failed (IntegrityError_str user))
                    else
                      do _ ← commit (update_user user);
                      ret user
                  else ret user
                end;
      let user := User.set_updated_at now (User.set_last_login (Some now) user) in
      do _ ← commit (update_user user);
      let access_token := create_access_token now (access_claims user) in
      let refresh_token := create_refresh_token now (refresh_claims user) in
      do _ ← commit (add_session (new_session user refresh_token now None None));
      ret (Token.mk access_token (Some refresh_token) "bearer")
  end.

(** The filter of the two one-time-token lookups: the stored hash equals
    the presented one and the expiry lies in the future. *)
Definition token_matches (stored : option string) (expire : option Z)
    (hashed_token : string) (now : Z) : bool :=
  bool_decide (stored = Some hashed_token)
  && match expire with
     | Some e => now <? e
     | None => false
     end.

Definition verify_email (token : string) (now : Z) : Handler string :=
  let hashed_token := hash_token token in
  do user ← query (λ db,
       first (λ u, token_matches (User.email_verification_token u)
                     (User.email_verification_expire u) hashed_token now) (users db));
  match user with
  | None =>
    raise (mkHTTPException HTTP_400_BAD_REQUEST "Invalid or expired verification token")
  | Some user =>
    let user := User.set_is_email_verified true user in
    let user := User.set_email_verification_token None user in
    let user := User.set_email_verification_expire None user in
    (* updated_at: the column's onupdate=datetime.utcnow *)
    do _ ← commit (update_user (User.set_updated_at now user));
    ret "Email verified successfully"
  end.

Definition forgot_password (email : string) (now : Z) (reset_token : string)
  : Handler string :=
  do user ← query (λ db, first (λ u, String.eqb (User.email u) email) (users db));
  match user with
  | None => ret "If the email exists, a reset link has been sent"
  | Some user =>
    let user := User.set_reset_password_token (Some (hash_token reset_token)) user in
    let user := User.set_reset_password_expire (Some (now + hours 1)) user in
    do _ ← commit (update_user (User.set_updated_at now user));
    ret "If the email exists, a reset link has been sent"
  end.

Definition reset_password (token new_password : string) (now : Z) : Handler string :=
  let hashed_token := hash_token token in
  do user ← query (λ db,
       first (λ u, token_matches (User.reset_password_token u)
                     (User.reset_password_expire u) hashed_token now) (users db));
  match user with
  | None =>
    raise (mkHTTPException HTTP_400_BAD_REQUEST "Invalid or expired reset token")
  | Some user =>
    let user := User.set_hashed_password (get_password_hash new_password) user in
    let user := User.set_reset_password_token None user in
    let user := User.set_reset_password_expire None user in
    do _ ← commit (update_user (User.set_updated_at now user));
    ret "Password reset successfully"
  end.

(** The session lookup of the refresh endpoint ([find_valid] in the
    specification's words). *)
Definition find_valid (refresh_token : string) (user_id : Claim) (now : Z) (db : DB)
  : option UserSession.t :=
  first (λ s, String.eqb (UserSession.refresh_token s) refresh_token
              && int_column_eq (UserSession.user_id s) user_id
              && (now <? UserSession.expires_at s))
        (user_sessions db).

Definition refresh_token (refresh_token : string) (now : Z) : Handler Token.t :=
  match decode_token now refresh_token with
  | None => raise (mkHTTPException HTTP_401_UNAUTHORIZED "Invalid refresh token")
  | Some payload =>
    (* [not payload] also holds of an empty dictionary *)
    if bool_decide (payload = ∅)
       || negb (bool_decide (dict_get payload "type" = CStr "refresh"))
    then raise (mkHTTPException HTTP_401_UNAUTHORIZED "Invalid refresh token")
    else
      let user_id := dict_get payload "user_id" in
      do session ← query (find_valid refresh_token user_id now);
      match session with
      | None =>
        raise (mkHTTPException HTTP_401_UNAUTHORIZED "Invalid or expired refresh token")
      | Some session =>
        do user ← query (session_user session);
        match user with
        (* [session.user] is None: the attribute access fails, a server fault *)
        | None => raise (mkHTTPException 500 "Internal Server Error")
        | Some user =>
          let access_token := create_access_token now (access_claims user) in
          ret (Token.mk access_token None "bearer")
        end
      end
  end.

Definition logout (token : string) (now : Z) : Handler string :=
  do current_user ← Depends (Dependencies.get_current_user now token);
  do _ ← commit (delete_sessions_of (User.id current_user));
  ret "Successfully logged out".
End WithSecurity.
End Auth.

(** *** app/routers/admin.py *)

Module Admin.
Section WithSecurity.
Context {sec : Security}.

Definition user_not_found : HTTPException :=
  mkHTTPException HTTP_404_NOT_FOUND "User not found".

Definition update_user_role (user_id : Z) (role : UserRole)
    (token : string) (now : Z) : Handler string :=
  do current_user ← Depends (Dependencies.require_permission ["manage_roles"] now token);
  do user ← query (λ db, first (λ u, User.id u =? user_id) (users db));
  match user with
  | None => raise user_not_found
  | Some user =>
    let user := User.set_updated_at now (User.set_role role user) in
    do granted ← query (λ db,
         if bool_decide (role = ADMIN) then permissions db
         else if bool_decide (role = HR)
         then all (name_in ["read"; "write"; "manage_users"]) (permissions db)
         else match first (λ p, String.eqb (Permission.name p) "read") (permissions db) with
              | Some permission => [permission]
              | None => []
              end);
    do _ ← commit (update_user (User.set_permissions granted user));
    (* the enum member is rendered by its value *)
    ret ("User role updated to " +:+ role_value role)
  end.

Definition update_user_permissions (user_id : Z) (permission_names : list string)
    (token : string) (now : Z) : Handler string :=
  do current_user ← Depends (Dependencies.require_permission ["manage_users"] now token);
  do user ← query (λ db, first (λ u, User.id u =? user_id) (users db));
  match user with
  | None => raise user_not_found
  | Some user =>
    do granted ← query (λ db, all (name_in permission_names) (permissions db));
    let user := User.set_updated_at now (User.set_permissions granted user) in
    do _ ← commit (update_user user);
    ret "User permissions updated"
  end.

Definition toggle_user_status (user_id : Z) (is_active : bool)
    (token : string) (now : Z) : Handler string :=
  do current_user ← Depends (Dependencies.require_role [ADMIN] now token);
  do user ← query (λ db, first (λ u, User.id u =? user_id) (users db));
  match user with
  | None => raise user_not_found
  | Some user =>
    let user := User.set_updated_at now (User.set_is_active is_active user) in
    do _ ← commit (update_user user);
    ret (if is_active then "User activated successfully"
         else "User deactivated successfully")
  end.

Definition delete_user (user_id : Z) (token : string) (now : Z) : Handler string :=
  do current_user ← Depends (Dependencies.require_permission ["delete"] now token);
  (* Prevent self-deletion *)
  if User.id current_user =? user_id
  then raise (mkHTTPException HTTP_400_BAD_REQUEST "Cannot delete your own account")
  else
    do user ← query (λ db, first (λ u, User.id u =? user_id) (users db));
    match user with
    | None => raise user_not_found
    | Some user =>
      do _ ← commit (delete_user_row user);
      ret "User deleted successfully"
    end.
(** The aggregate counts of GET /dashboard/stats. [users_by_role] is the
    dictionary filled by the loop over the members of [UserRole]. *)
Record DashboardStats : Type := mkDashboardStats {
  total_users : Z;
  verified_users : Z;
  active_users : Z;
  users_by_role : gmap string Z;
  recent_registrations : Z
}.

(** [db.query(User).filter(P).count()] *)
Definition count (P : User.t → bool) (db : DB) : Z :=
  Z.of_nat (length (all P (users db))).

(** The members of [UserRole] in definition order, as [for role in UserRole]
    visits them. *)
Definition all_roles : list UserRole := [USER; ADMIN; HR; CANDIDATE].

Definition get_dashboard_stats (token : string) (now : Z) : Handler DashboardStats :=
  do current_user ← Depends (Dependencies.require_role [ADMIN] now token);
  do total_users ← query (count (λ _, true));
  do verified_users ← query (count (λ u, Bool.eqb (User.is_email_verified u) true));
  do active_users ← query (count (λ u, Bool.eqb (User.is_active u) true));
  do role_counts ← query (λ db,
       fold_left (λ role_counts role,
                    <[role_value role :=
                        count (λ u, role_is (User.role u) (role_value role)) db]>
                      role_counts)
                 all_roles ∅);
  let seven_days_ago := now - days 7 in
  do recent_registrations ← query (count (λ u, seven_days_ago <=? User.created_at u));
  ret (mkDashboardStats total_users verified_users active_users role_counts
         recent_registrations).

End WithSecurity.
End Admin.

(** *** app/routers/users.py *)

Module Users.
Section WithSecurity.
Context {sec : Security}.

Definition update_profile (name phone : option string) (token : string) (now : Z)
  : Handler string :=
  do current_user ← Depends (Dependencies.get_current_active_user now token);
  let user := match name with
              | Some v => User.set_name v current_user
              | None => current_user
              end in
  let user := match phone with
              | Some v => User.set_phone (Some v) user
              | None => user
              end in
  do _ ← commit (update_user (User.set_updated_at now user));
  ret "Profile updated successfully".

Definition change_password (current_password new_password : string)
    (token : string) (now : Z) : Handler string :=
  do current_user ← Depends (Dependencies.get_current_active_user now token);
  if negb (verify_password current_password (User.hashed_password current_user))
  then raise (mkHTTPException HTTP_400_BAD_REQUEST "Current password is incorrect")
  else
    let user := User.set_hashed_password (get_password_hash new_password) current_user in
    do _ ← commit (update_user (User.set_updated_at now user));
    ret "Password changed successfully".

Definition delete_account (token : string) (now : Z) : Handler string :=
  do current_user ← Depends (Dependencies.get_current_active_user now token);
  (* Delete user (sessions will be cascade deleted) *)
  do _ ← commit (delete_user_row current_user);
  ret "Account deleted successfully".
End WithSecurity.
End Users.

(** *** The signup request body (app/models/schemas.py) *)

(** The JSON body of POST /signup before validation: [phone] and [role] may
    be left out, and the role is still the string of the body. *)
Module SignupBody.
Record t : Type := mk {
  email : string;
  name : string;
  phone : option string;
  role : option string;
  password : string
}.
End SignupBody.

(** Text is kept as its UTF-8 bytes, while a Python [str] is a sequence of
    code points: [len] counts them and [for char in v] visits them.
    [code_points_from] reads the bytes from left to right; [pending] is the
    number of continuation bytes the character under way still lacks and
    [acc] the bits read of it so far. A string that is not UTF-8 stands for
    no Python string. *)
Fixpoint code_points_from (pending : nat) (acc : N) (s : string) : list N :=
  match s with
  | EmptyString => []
  | String byte rest =>
    let b := Ascii.N_of_ascii byte in
    match pending with
    | O =>
      if (b <? 128)%N then b :: code_points_from 0 0%N rest
      else if (b <? 224)%N then code_points_from 1 (N.land b 31) rest
      else if (b <? 240)%N then code_points_from 2 (N.land b 15) rest
      else code_points_from 3 (N.land b 7) rest
    | S n =>
      let acc := (acc * 64 + N.land b 63)%N in
      match n with
      | O => acc :: code_points_from 0 0%N rest
      | S _ => code_points_from n acc rest
      end
    end
  end.

Definition code_points (s : string) : list N := code_points_from 0 0%N s.

(** What the schema takes from outside the repository: pydantic's [EmailStr],
    which gives the validated and normalised address or refuses the value,
    and the Unicode database behind [str.isdigit] and [str.isupper], asked
    here for the characters beyond ASCII only. *)
Class Schema : Type := {
  EmailStr : string → option string;
  unicode_isdigit : N → bool;
  unicode_isupper : N → bool
}.

(** [char.isdigit()] and [char.isupper()] of a one-character string: on
    ASCII the ten digits and the twenty-six capital letters. *)
Definition isdigit {schema : Schema} (c : N) : bool :=
  if (c <? 128)%N then (48 <=? c)%N && (c <=? 57)%N else unicode_isdigit c.

Definition isupper {schema : Schema} (c : N) : bool :=
  if (c <? 128)%N then (65 <=? c)%N && (c <=? 90)%N else unicode_isupper c.

(** [UserCreate.validate_password]: [true] when no ValueError is raised. *)
Definition validate_password {schema : Schema} (v : string) : bool :=
  negb (Z.of_nat (length (code_points v)) <? 6)
  && existsb isdigit (code_points v)
  && existsb isupper (code_points v).

(** The member of [UserRole] with the given value, as pydantic looks it up:
    the value has to match exactly. *)
Definition UserRole_of_value (v : string) : option UserRole :=
  List.find (λ r, role_is r v) [USER; ADMIN; HR; CANDIDATE].

(** [role: UserRole = UserRole.USER] *)
Definition role_field (v : option string) : option UserRole :=
  match v with
  | None => Some USER
  | Some v => UserRole_of_value v
  end.

(** Building the [UserCreate] object from the body. A field that fails its
    validation gives no object: the framework answers 422 and the handler
    does not run. *)
Definition parse_UserCreate {schema : Schema} (body : SignupBody.t)
  : option UserCreate.t :=
  match EmailStr (SignupBody.email body), role_field (SignupBody.role body) with
  | Some email, Some role =>
    if validate_password (SignupBody.password body)
    then Some (UserCreate.mk email (SignupBody.name body) (SignupBody.phone body)
                 role (SignupBody.password body))
    else None
  | _, _ => None
  end.

Definition HTTP_422_UNPROCESSABLE_ENTITY : Z := 422.

(** POST /api/auth/signup: no dependency resolves a caller. *)
Definition signup_route {sec : Security} {fb : Firebase} {schema : Schema}
    (body : SignupBody.t) (now : Z) (verification_token : string) : Handler Token.t :=
  match parse_UserCreate body with
  | None => raise (mkHTTPException HTTP_422_UNPROCESSABLE_ENTITY "value_error")
  | Some user_data => Auth.signup user_data now verification_token
  end.

(** ** The API as a transition system *)

(** One constructor per endpoint that can write to the database, with the
    request's inputs; the access token comes first where the route has one. *)
Inductive Request : Type :=
  | PostSignup (user_data : UserCreate.t) (verification_token : string)
  | PostLogin (ip_address user_agent : option string) (username password : string)
  | PostFirebaseLogin (id_token : string)
  | GetVerifyEmail (token : string)
  | PostForgotPassword (email reset_token : string)
  | PostResetPassword (token new_password : string)
  | PostRefresh (refresh_token : string)
  | PostLogout (token : string)
  | PutMe (token : string) (name phone : option string)
  | PutChangePassword (token : string) (current_password new_password : string)
  | DeleteMe (token : string)
  | PutUserRole (token : string) (user_id : Z) (role : UserRole)
  | PutUserPermissions (token : string) (user_id : Z) (permission_names : list string)
  | PutUserStatus (token : string) (user_id : Z) (is_active : bool)
  | DeleteUser (token : string) (user_id : Z).

(** The database after the request was served at time [now]. *)
Definition serve {sec : Security} {fb : Firebase}
    {eng : Engine} (now : Z) (req : Request) (db : DB) : DB :=
  match req with
  | PostSignup user_data verification_token =>
    snd (Auth.signup user_data now verification_token db)
  | PostLogin ip_address user_agent username password =>
    snd (Auth.login ip_address user_agent username password now db)
  | PostFirebaseLogin id_token => snd (Auth.firebase_login id_token now db)
  | GetVerifyEmail token => snd (Auth.verify_email token now db)
  | PostForgotPassword email reset_token =>
    snd (Auth.forgot_password email now reset_token db)
  | PostResetPassword token new_password =>
    snd (Auth.reset_password token new_password now db)
  | PostRefresh refresh_token => snd (Auth.refresh_token refresh_token now db)
  | PostLogout token => snd (Auth.logout token now db)
  | PutMe token name phone => snd (Users.update_profile name phone token now db)
  | PutChangePassword token current_password new_password =>
    snd (Users.change_password current_password new_password token now db)
  | DeleteMe token => snd (Users.delete_account token now db)
  | PutUserRole token user_id role =>
    snd (Admin.update_user_role user_id role token now db)
  | PutUserPermissions token user_id permission_names =>
    snd (Admin.update_user_permissions user_id permission_names token now db)
  | PutUserStatus token user_id is_active =>
    snd (Admin.toggle_user_status user_id is_active token now db)
  | DeleteUser token user_id => snd (Admin.delete_user user_id token now db)
  end.

(** The exception an outcome carries, if it is one. *)
Definition error_of {A : Type} (out : Outcome A * DB) : option HTTPException :=
  match fst out with
  | Raise e => Some e
  | Return _ => None
  end.

(** The exception the request is answered with at time [now], if any. *)
Definition failure {sec : Security} {fb : Firebase}
    {eng : Engine} (now : Z) (req : Request) (db : DB)
  : option HTTPException :=
  match req with
  | PostSignup user_data verification_token =>
    error_of (Auth.signup user_data now verification_token db)
  | PostLogin ip_address user_agent username password =>
    error_of (Auth.login ip_address user_agent username password now db)
  | PostFirebaseLogin id_token => error_of (Auth.firebase_login id_token now db)
  | GetVerifyEmail token => error_of (Auth.verify_email token now db)
  | PostForgotPassword email reset_token =>
    error_of (Auth.forgot_password email now reset_token db)
  | PostResetPassword token new_password =>
    error_of (Auth.reset_password token new_password now db)
  | PostRefresh refresh_token => error_of (Auth.refresh_token refresh_token now db)
  | PostLogout token => error_of (Auth.logout token now db)
  | PutMe token name phone => error_of (Users.update_profile name phone token now db)
  | PutChangePassword token current_password new_password =>
    error_of (Users.change_password current_password new_password token now db)
  | DeleteMe token => error_of (Users.delete_account token now db)
  | PutUserRole token user_id role =>
    error_of (Admin.update_user_role user_id role token now db)
  | PutUserPermissions token user_id permission_names =>
    error_of (Admin.update_user_permissions user_id permission_names token now db)
  | PutUserStatus token user_id is_active =>
    error_of (Admin.toggle_user_status user_id is_active token now db)
  | DeleteUser token user_id => error_of (Admin.delete_user user_id token now db)
  end.

(** A history of timed requests, served from left to right. *)
Definition serve_all {sec : Security} {fb : Firebase} {eng : Engine}
    (history : list (Z * Request)) (db : DB) : DB :=
  fold_left (λ db step, serve (fst step) (snd step) db) history db.

(** The freshly created schema: empty tables, counters at 1. *)
Definition empty_db : DB := mkDB [] [] [] 1 1 1.

(** ** Vocabulary of the frame properties *)

(** A password the schema accepts whatever lies beyond ASCII: six characters
    or more, among them one of the digits 0 to 9 and one of the letters A
    to Z. *)
Definition ascii_digit_and_capital (v : string) : Prop :=
  (6 ≤ length (code_points v))%nat
  ∧ (∃ c, c ∈ code_points v ∧ (48 ≤ c ≤ 57)%N)
  ∧ (∃ c, c ∈ code_points v ∧ (65 ≤ c ≤ 90)%N).

(** Two versions of a user row that agree on every column but the four a
    password update may write: [hashed_password], the two reset-token
    columns and [updated_at]. *)
Definition same_but_password (u u' : User.t) : Prop :=
  User.id u' = User.id u
  ∧ User.email u' = User.email u
  ∧ User.name u' = User.name u
  ∧ User.phone u' = User.phone u
  ∧ User.role u' = User.role u
  ∧ User.is_active u' = User.is_active u
  ∧ User.is_email_verified u' = User.is_email_verified u
  ∧ User.firebase_uid u' = User.firebase_uid u
  ∧ User.created_at u' = User.created_at u
  ∧ User.last_login u' = User.last_login u
  ∧ User.email_verification_token u' = User.email_verification_token u
  ∧ User.email_verification_expire u' = User.email_verification_expire u
  ∧ User.permissions u' = User.permissions u.

(** [db'] is [db] with the row of [target] replaced by [target'], every
    other row, every session, the permission catalog and the three counters
    being as before. *)
Definition only_row_changed (target target' : User.t) (db db' : DB) : Prop :=
  users db' = map (λ r, if User.id r =? User.id target then target' else r) (users db)
  ∧ user_sessions db' = user_sessions db
  ∧ permissions db' = permissions db
  ∧ users_autoinc db' = users_autoinc db
  ∧ permissions_autoinc db' = permissions_autoinc db
  ∧ user_sessions_autoinc db' = user_sessions_autoinc db.

(** The primary key of the users table. *)
Definition users_primary_key (db : DB) : Prop := NoDup (map User.id (users db)).

(** The permission catalog is either untouched or holds every default name. *)
Definition catalog_seeded (db : DB) : Prop :=
  permissions db = []
  ∨ ∀ n, n ∈ map fst Auth.default_permissions →
         ∃ p, p ∈ permissions db ∧ Permission.name p = n.

(** What every served request maintains: user keys are unique and below the
    counter, users hold catalog permissions only, and the catalog is seeded
    as a whole. *)
Definition db_ok (db : DB) : Prop :=
  users_primary_key db
  ∧ (∀ u, u ∈ users db → User.id u < users_autoinc db)
  ∧ (∀ u p, u ∈ users db → p ∈ User.permissions u → p ∈ permissions db)
  ∧ catalog_seeded db.

(** An account other than the one with key [self] holds the Firebase uid. *)
Definition held_by_another (uid : option string) (self : Z) (db : DB) : Prop :=
  ∃ v r, uid = Some v ∧ r ∈ users db ∧ User.id r ≠ self
         ∧ User.firebase_uid r = Some v.

(** Session keys are unique and below the counter, and every stored session
    belongs to a stored user. *)
Definition sessions_ok (db : DB) : Prop :=
  NoDup (map UserSession.id (user_sessions db))
  ∧ ∀ s, s ∈ user_sessions db →
      UserSession.id s < user_sessions_autoinc db
      ∧ ∃ u, u ∈ users db ∧ User.id u = UserSession.user_id s.

(** [u'] is a later version of the account [u]. *)
Definition descends (u u' : User.t) : Prop :=
  User.id u' = User.id u
  ∧ User.email u' = User.email u
  ∧ User.created_at u' = User.created_at u
  ∧ (User.is_email_verified u = true → User.is_email_verified u' = true).

(** [db'] comes after [db]: the counters did not go back, each user row of
    [db'] is a later version of a row of [db] or carries a key [db] had not
    given out yet, and each session row of [db'] is a row of [db] or carries
    a key [db] had not given out yet. *)
Definition evolves (db db' : DB) : Prop :=
  users_autoinc db ≤ users_autoinc db'
  ∧ user_sessions_autoinc db ≤ user_sessions_autoinc db'
  ∧ (∀ u', u' ∈ users db' →
       (∃ u, u ∈ users db ∧ descends u u') ∨ users_autoinc db ≤ User.id u')
  ∧ (∀ s, s ∈ user_sessions db' →
       s ∈ user_sessions db ∨ user_sessions_autoinc db ≤ UserSession.id s).

(** The columns that carry an account's privileges are the same in [u']
    as in [u]. *)
Definition keeps_privileges (u u' : User.t) : Prop :=
  User.role u' = User.role u
  ∧ User.permissions u' = User.permissions u
  ∧ User.is_active u' = User.is_active u.

(** The three requests of the admin router that rewrite a user row. *)
Definition is_admin_request (req : Request) : bool :=
  match req with
  | PutUserRole _ _ _ | PutUserPermissions _ _ _ | PutUserStatus _ _ _ => true
  | _ => false
  end.

(** The six kinds of write the handlers are made of: seeding the catalog,
    writing back a later version of a stored user, adding a user or a session
    under the next key (a session for a stored user), deleting the sessions
    of a user, and deleting a user with its sessions. Outside the admin requests ([admin] false) a row that
    is written back keeps its privileges. *)
Inductive write (admin : bool) : DB → DB → Prop :=
  | write_seed (db : DB) :
      write admin db (fold_left Auth.seed_permission Auth.default_permissions db)
  | write_update (db : DB) (r u' : User.t) :
      r ∈ users db → descends r u' →
      (admin = false → keeps_privileges r u') →
      write admin db (update_user u' db)
  | write_add_user (db : DB) (row : Z → User.t) :
      User.id (row (users_autoinc db)) = users_autoinc db →
      write admin db (add_user row db)
  | write_add_session (db : DB) (row : Z → UserSession.t) (owner : User.t) :
      owner ∈ users db →
      UserSession.id (row (user_sessions_autoinc db)) = user_sessions_autoinc db →
      UserSession.user_id (row (user_sessions_autoinc db)) = User.id owner →
      write admin db (add_session row db)
  | write_delete_sessions (db : DB) (uid : Z) :
      write admin db (delete_sessions_of uid db)
  | write_delete_user (db : DB) (target : User.t) :
      write admin db (delete_user_row target db).
Arguments write_seed {admin} db.
Arguments write_update {admin} db r u' _ _ _.
Arguments write_add_user {admin} db row _.
Arguments write_add_session {admin} db row owner _ _ _.
Arguments write_delete_sessions {admin} db uid.
Arguments write_delete_user {admin} db target.

(** [db'] comes after [db] without a change of privileges: each user row of
    [db'] has the role, permissions and active flag of the row of [db] with
    its key, or carries a key [db] had not given out yet. *)
Definition quiet (db db' : DB) : Prop :=
  users_autoinc db ≤ users_autoinc db'
  ∧ ∀ u', u' ∈ users db' →
      (∃ u, u ∈ users db ∧ User.id u' = User.id u ∧ keeps_privileges u u')
      ∨ users_autoinc db ≤ User.id u'.

(** ** A small deployment for worked examples *)

Module Sample.

Definition claims (type sub : string) (user_id : Z) : gmap string Claim :=
  <["type" := CStr type]> (<["sub" := CStr sub]> (<["user_id" := CInt user_id]> ∅)).

(** The tokens the sample codec accepts, with their claims; they are the
    strings its two constructors below produce for the sample users. *)
Definition tokens : list (string * gmap string Claim) :=
  [ ("access:alice@example.com:admin", claims "access" "alice@example.com" 1);
    ("refresh:alice@example.com", claims "refresh" "alice@example.com" 1);
    ("access:bob@example.com:candidate", claims "access" "bob@example.com" 2);
    ("refresh:bob@example.com", claims "refresh" "bob@example.com" 2);
    ("access:carol@example.com:hr", claims "access" "carol@example.com" 3);
    ("refresh:carol@example.com", claims "refresh" "carol@example.com" 3);
    ("access:nobody@example.com:user", claims "access" "nobody@example.com" 9);
    ("access.anonymous", <["type" := CStr "access"]> ∅) ].

Definition subject (data : gmap string Claim) : string :=
  match dict_get data "sub" with
  | CStr s => s
  | _ => ""
  end.

Definition security : Security := {|
  decode_token := λ _ token,
    snd <$> List.find (λ entry, String.eqb (fst entry) token) tokens;
  create_access_token := λ _ data, "access:" +:+ subject data +:+ ":"
                                   +:+ match dict_get data "role" with
                                       | CStr r => r
                                       | _ => ""
                                       end;
  create_refresh_token := λ _ data, "refresh:" +:+ subject data;
  get_password_hash := λ password, "hash:" +:+ password;
  verify_password := λ password hashed, String.eqb ("hash:" +:+ password) hashed;
  hash_token := λ token, "digest:" +:+ token
|}.

Definition firebase : Firebase := {|
  firebase_app := false;
  firebase_auth_create_user := λ _ _ _, None;
  firebase_auth_verify_id_token := λ _, inl "no project"
|}.

(** A stand-in for the e-mail validation package: one "@" with text before
    it and a dotted domain without blank after it; the domain is put in
    lower case. *)
Fixpoint split_at_sign (s : string) : option (string * string) :=
  match s with
  | EmptyString => None
  | String c rest =>
    if Ascii.eqb c "@"%char then Some (EmptyString, rest)
    else match split_at_sign rest with
         | Some (local_part, domain) => Some (String c local_part, domain)
         | None => None
         end
  end.

Fixpoint has_char (c : Ascii.ascii) (s : string) : bool :=
  match s with
  | EmptyString => false
  | String c' rest => Ascii.eqb c c' || has_char c rest
  end.

Fixpoint lower (s : string) : string :=
  match s with
  | EmptyString => EmptyString
  | String c rest =>
    let n := Ascii.N_of_ascii c in
    String (if (65 <=? n)%N && (n <=? 90)%N then Ascii.ascii_of_N (n + 32) else c)
           (lower rest)
  end.

Definition validate_email (value : string) : option string :=
  match split_at_sign value with
  | Some (local_part, domain) =>
    if negb (String.eqb local_part "") && has_char "."%char domain
       && negb (has_char "@"%char domain) && negb (has_char " "%char value)
    then Some (local_part +:+ "@" +:+ lower domain)
    else None
  | None => None
  end.

Definition in_ranges (ranges : list (N * N)) (c : N) : bool :=
  existsb (λ range, (fst range <=? c)%N && (c <=? snd range)%N) ranges.

(** A part of the Unicode database: superscript, Arabic-Indic, Devanagari
    and full-width digits; Latin-1, Greek, Cyrillic and full-width capitals. *)
Definition schema : Schema := {|
  EmailStr := validate_email;
  unicode_isdigit :=
    in_ranges [(178, 179); (185, 185); (1632, 1641); (1776, 1785);
               (2406, 2415); (65296, 65305)]%N;
  unicode_isupper :=
    in_ranges [(192, 214); (216, 222); (913, 929); (931, 939);
               (1024, 1071); (65313, 65338)]%N
|}.

(** A Firebase project with an account of Alice's address, and another one,
    uid-7, that was known by Bob's address first and by Dave's later. *)
Definition federation : Firebase := {|
  firebase_app := true;
  firebase_auth_create_user := λ _ _ _, None;
  firebase_auth_verify_id_token := λ id_token,
    if String.eqb id_token "id-token-0"
    then inr (FirebaseToken.mk (Some "alice@example.com") (Some "uid-1")
                (Some "Alice"))
    else if String.eqb id_token "id-token-1"
    then inr (FirebaseToken.mk (Some "bob@example.com") (Some "uid-7") (Some "Bob"))
    else if String.eqb id_token "id-token-2"
    then inr (FirebaseToken.mk (Some "dave@example.com") (Some "uid-7") (Some "Bob"))
    else inl "Invalid ID token"
|}.

Definition engine : Engine := {|
  IntegrityError_str := λ row,
    "(IntegrityError) Duplicate entry '" +:+ default "" (User.firebase_uid row)
    +:+ "' for key 'users.firebase_uid'"
|}.

Definition catalog : list Permission.t :=
  [ Permission.mk 1 "read" "Can read data";
    Permission.mk 2 "write" "Can write data";
    Permission.mk 3 "delete" "Can delete data";
    Permission.mk 4 "manage_users" "Can manage users";
    Permission.mk 5 "manage_roles" "Can manage roles" ].

(** An administrator. *)
Definition alice : User.t :=
  User.mk 1 "alice@example.com" "Alice" None "hash:Alice1" ADMIN true true None
          100 100 None None None None None catalog.

(** A deactivated candidate who logged in before the deactivation. *)
Definition bob : User.t :=
  User.mk 2 "bob@example.com" "Bob" None "hash:Bobby2" CANDIDATE false false None
          110 150 (Some 120) None None (Some "digest:r3s3t") (Some 900)
          [Permission.mk 1 "read" "Can read data"].

(** An HR user whose permissions are the role's bundle. *)
Definition carol : User.t :=
  User.mk 3 "carol@example.com" "Carol" None "hash:Carol3" HR true true None
          115 115 None None None None None
          [ Permission.mk 1 "read" "Can read data";
            Permission.mk 2 "write" "Can write data";
            Permission.mk 4 "manage_users" "Can manage users" ].

Definition sessions : list UserSession.t :=
  [ UserSession.mk 1 1 "refresh:alice@example.com" 5000 100 None None;
    UserSession.mk 2 2 "refresh:bob@example.com" 5000 120 None None ].

Definition db : DB := mkDB [alice; bob; carol] catalog sessions 4 6 3.

End Sample.

(** * Properties *)

(** ** Identity resolution *)

(** C1. [get_current_user] raises the 401 credentials exception when the
    token does not decode, when its type claim is not "access", when it has no
    subject claim, and when no user has the subject as e-mail; for a user that
    is found with [is_active] false it raises 403, a different status. *)
Theorem get_current_user_failure_kinds {sec : Security}
    (now : Z) (token : string) (db : DB) :
  (decode_token now token = None →
   Dependencies.get_current_user now token db
   = Raise Dependencies.credentials_exception)
  ∧ (∀ payload, decode_token now token = Some payload →
       dict_get payload "type" ≠ CStr "access"
       ∨ dict_get payload "sub" = CNone
       ∨ first (λ u, str_column_eq (User.email u) (dict_get payload "sub")) (users db)
         = None →
       Dependencies.get_current_user now token db
       = Raise Dependencies.credentials_exception)
  ∧ (∀ payload user, decode_token now token = Some payload →
       dict_get payload "type" = CStr "access" →
       dict_get payload "sub" ≠ CNone →
       first (λ u, str_column_eq (User.email u) (dict_get payload "sub")) (users db)
       = Some user →
       User.is_active user = false →
       Dependencies.get_current_user now token db
       = Raise (mkHTTPException HTTP_403_FORBIDDEN "User account is disabled"))
  ∧ status_code Dependencies.credentials_exception = HTTP_401_UNAUTHORIZED
  ∧ HTTP_403_FORBIDDEN ≠ HTTP_401_UNAUTHORIZED.
Proof.
  unfold Dependencies.get_current_user.
  split; [|split; [|split; [|split]]].
  - intros ->. reflexivity.
  - intros payload -> Hcase.
    destruct (bool_decide_reflect (dict_get payload "type" = CStr "access")) as [Hty|Hty];
      simpl; [|reflexivity].
    destruct Hcase as [Hne|[Hsub|Hnone]]; [contradiction| |].
    + rewrite Hsub. reflexivity.
    + destruct (dict_get payload "sub") eqn:Hsub; [reflexivity| |];
        simpl in Hnone |- *; rewrite Hnone; reflexivity.
  - intros payload user -> Hty Hsub Hfound Hinactive.
    rewrite bool_decide_eq_true_2 by exact Hty. simpl.
    destruct (dict_get payload "sub") eqn:Hget; [contradiction| |];
      simpl in Hfound |- *; rewrite Hfound, Hinactive; reflexivity.
  - reflexivity.
  - discriminate.
Qed.

Lemma get_current_user_failure_kinds_witness :
  Dependencies.get_current_user (sec := Sample.security) 200 "access:bob@example.com:candidate" Sample.db
  = Raise (mkHTTPException HTTP_403_FORBIDDEN "User account is disabled")
  ∧ Dependencies.get_current_user (sec := Sample.security) 200 "access:nobody@example.com:user" Sample.db
    = Raise Dependencies.credentials_exception.
Proof.
  split.
  - eapply (proj1 (proj2 (proj2
      (get_current_user_failure_kinds (sec := Sample.security)
         200 "access:bob@example.com:candidate" Sample.db))))
      with (payload := Sample.claims "access" "bob@example.com" 2) (user := Sample.bob);
      vm_compute; first [reflexivity | discriminate].
  - eapply (proj1 (proj2
      (get_current_user_failure_kinds (sec := Sample.security)
         200 "access:nobody@example.com:user" Sample.db)))
      with (payload := Sample.claims "access" "nobody@example.com" 9).
    + vm_compute. reflexivity.
    + right. right. vm_compute. reflexivity.
Defined.

(** ** Token kinds *)

Lemma dict_get_empty (key : string) : dict_get ∅ key = CNone.
Proof. unfold dict_get. rewrite lookup_empty. reflexivity. Qed.

(** C2. A token that decodes is rejected by [get_current_user] with 401
    unless its type claim is "access", and by the refresh endpoint with 401
    unless its type claim is "refresh"; so a refresh token never passes the
    access check and an access token never passes the refresh check. *)
Theorem token_type_is_checked {sec : Security}
    (now : Z) (token : string) (db : DB) (payload : gmap string Claim) :
  decode_token now token = Some payload →
  (dict_get payload "type" ≠ CStr "access" →
   Dependencies.get_current_user now token db
   = Raise (mkHTTPException HTTP_401_UNAUTHORIZED "Could not validate credentials"))
  ∧ (dict_get payload "type" ≠ CStr "refresh" →
     Auth.refresh_token token now db
     = (Raise (mkHTTPException HTTP_401_UNAUTHORIZED "Invalid refresh token"), db))
  ∧ (dict_get payload "type" = CStr "refresh" →
     ∃ e, Dependencies.get_current_user now token db = Raise e
          ∧ status_code e = HTTP_401_UNAUTHORIZED)
  ∧ (dict_get payload "type" = CStr "access" →
     ∃ e, Auth.refresh_token token now db = (Raise e, db)
          ∧ status_code e = HTTP_401_UNAUTHORIZED).
Proof.
  intros Hdec.
  assert (Haccess : dict_get payload "type" ≠ CStr "access" →
            Dependencies.get_current_user now token db
            = Raise Dependencies.credentials_exception).
  { intros Hne. unfold Dependencies.get_current_user. rewrite Hdec.
    rewrite bool_decide_eq_false_2 by exact Hne. reflexivity. }
  assert (Hrefresh : dict_get payload "type" ≠ CStr "refresh" →
            Auth.refresh_token token now db
            = (Raise (mkHTTPException HTTP_401_UNAUTHORIZED "Invalid refresh token"), db)).
  { intros Hne. unfold Auth.refresh_token. rewrite Hdec.
    rewrite (bool_decide_eq_false_2 _ Hne), orb_true_r. reflexivity. }
  repeat split.
  - exact Haccess.
  - exact Hrefresh.
  - intros Hty. eexists. split; [apply Haccess|reflexivity].
    rewrite Hty. discriminate.
  - intros Hty. eexists. split; [apply Hrefresh|reflexivity].
    rewrite Hty. discriminate.
Qed.

Lemma token_type_is_checked_witness :
  (∃ e, Dependencies.get_current_user (sec := Sample.security)
          200 "refresh:alice@example.com" Sample.db = Raise e
        ∧ status_code e = HTTP_401_UNAUTHORIZED)
  ∧ (∃ e, Auth.refresh_token (sec := Sample.security) "access:alice@example.com:admin" 200 Sample.db
          = (Raise e, Sample.db)
          ∧ status_code e = HTTP_401_UNAUTHORIZED).
Proof.
  split.
  - apply (token_type_is_checked (sec := Sample.security) 200 "refresh:alice@example.com"
             Sample.db (Sample.claims "refresh" "alice@example.com" 1));
      vm_compute; reflexivity.
  - apply (token_type_is_checked (sec := Sample.security) 200 "access:alice@example.com:admin"
             Sample.db (Sample.claims "access" "alice@example.com" 1));
      vm_compute; reflexivity.
Defined.

(** ** The permission gate *)

Lemma has_permission_spec (user_permissions required_permissions : list string) :
  existsb (λ perm, bool_decide (perm ∈ user_permissions)) required_permissions = true
  ↔ ∃ perm, perm ∈ required_permissions ∧ perm ∈ user_permissions.
Proof.
  rewrite existsb_exists. split.
  - intros (perm & Hin & Hdec). exists perm. split.
    + apply list_elem_of_In. exact Hin.
    + apply bool_decide_eq_true in Hdec. exact Hdec.
  - intros (perm & Hin & Hmem). exists perm. split.
    + apply list_elem_of_In. exact Hin.
    + apply bool_decide_eq_true. exact Hmem.
Qed.

Lemma require_permission_holds {sec : Security}
    (required_permissions : list string) (now : Z) (token : string) (db : DB)
    (user : User.t) :
  Dependencies.require_permission required_permissions now token db = Return user →
  ∃ perm, perm ∈ required_permissions
          ∧ perm ∈ map Permission.name (User.permissions user).
Proof.
  unfold Dependencies.require_permission.
  destruct (Dependencies.get_current_active_user now token db) as [u|e];
    [|discriminate].
  cbv zeta. destruct (existsb _ required_permissions) eqn:Hany; [|discriminate].
  simpl. intros [= <-]. apply has_permission_spec. exact Hany.
Qed.

(** C4. For a resolved active user, the gate built by [require_permission]
    lets the request through exactly when one of the required names is among
    the names of the user's permissions (any one suffices); otherwise it
    raises 403. This holds for every list of required names, the empty one
    included. *)
Theorem require_permission_any_of {sec : Security}
    (required_permissions : list string) (now : Z) (token : string) (db : DB)
    (current_user : User.t) :
  Dependencies.get_current_active_user now token db = Return current_user →
  (Dependencies.require_permission required_permissions now token db = Return current_user
   ↔ ∃ perm, perm ∈ required_permissions
             ∧ perm ∈ map Permission.name (User.permissions current_user))
  ∧ (¬ (∃ perm, perm ∈ required_permissions
                ∧ perm ∈ map Permission.name (User.permissions current_user)) →
     Dependencies.require_permission required_permissions now token db
     = Raise (mkHTTPException HTTP_403_FORBIDDEN
                "You don't have permission to perform this action")).
Proof.
  intros Hresolved. unfold Dependencies.require_permission. rewrite Hresolved.
  pose proof (has_permission_spec
                (map Permission.name (User.permissions current_user))
                required_permissions) as Hspec.
  cbv zeta.
  destruct (existsb _ required_permissions) eqn:Hany; simpl.
  - split.
    + split; [intros _; apply Hspec; reflexivity | reflexivity].
    + intros Hnone. exfalso. apply Hnone, Hspec. reflexivity.
  - split.
    + split; [discriminate | intros Hex; apply Hspec in Hex; discriminate].
    + reflexivity.
Qed.

Lemma require_permission_any_of_witness :
  Dependencies.require_permission (sec := Sample.security)
    ["manage_roles"; "manage_users"] 200 "access:carol@example.com:hr" Sample.db
  = Return Sample.carol
  ∧ Dependencies.require_permission (sec := Sample.security)
      ["manage_roles"; "delete"] 200 "access:carol@example.com:hr" Sample.db
    = Raise (mkHTTPException HTTP_403_FORBIDDEN
               "You don't have permission to perform this action").
Proof.
  split.
  - apply (require_permission_any_of (sec := Sample.security)
             ["manage_roles"; "manage_users"] 200 "access:carol@example.com:hr" Sample.db Sample.carol).
    + vm_compute. reflexivity.
    + exists "manage_users". simpl. rewrite !elem_of_cons. auto.
  - apply (require_permission_any_of (sec := Sample.security)
             ["manage_roles"; "delete"] 200 "access:carol@example.com:hr" Sample.db Sample.carol).
    + vm_compute. reflexivity.
    + intros (perm & Hreq & Hhas). simpl in Hhas.
      rewrite !elem_of_cons, elem_of_nil in Hreq.
      rewrite !elem_of_cons, elem_of_nil in Hhas.
      destruct Hreq as [->|[->|[]]]; destruct Hhas as [H|[H|[H|[]]]]; discriminate H.
Defined.

(** ** Login *)

(** C6. A login whose e-mail matches no user, or whose password does not
    verify against the stored hash, raises 401 and returns the database as
    it was: no session row is added and no [last_login] is written. *)
Theorem login_failure_leaves_state {sec : Security}
    (ip_address user_agent : option string) (username password : string)
    (now : Z) (db : DB) :
  first (λ u, String.eqb (User.email u) username) (users db) = None
  ∨ (∃ user, first (λ u, String.eqb (User.email u) username) (users db) = Some user
             ∧ verify_password password (User.hashed_password user) = false) →
  Auth.login ip_address user_agent username password now db
  = (Raise (mkHTTPException HTTP_401_UNAUTHORIZED "Incorrect email or password"), db).
Proof.
  intros Hfail. unfold Auth.login, bind, query.
  destruct Hfail as [Hnone | (user & Hfound & Hbad)].
  - rewrite Hnone. reflexivity.
  - rewrite Hfound, Hbad. reflexivity.
Qed.

Lemma login_failure_leaves_state_witness :
  Auth.login (sec := Sample.security) None None "alice@example.com" "guess" 200 Sample.db
  = (Raise (mkHTTPException HTTP_401_UNAUTHORIZED "Incorrect email or password"),
     Sample.db)
  ∧ user_sessions Sample.db = Sample.sessions
  ∧ User.last_login Sample.alice = None.
Proof.
  split; [|split; reflexivity].
  apply (login_failure_leaves_state (sec := Sample.security)).
  right. exists Sample.alice. split; vm_compute; reflexivity.
Defined.

(** ** Logout and refresh *)

Lemma first_none_iff {A : Type} (P : A → bool) (rows : list A) :
  first P rows = None ↔ ∀ x, x ∈ rows → P x = false.
Proof.
  unfold first. split.
  - intros Hnone x Hx. apply list_elem_of_In in Hx.
    exact (find_none P rows Hnone x Hx).
  - intros Hall. induction rows as [|r rows IH]; [reflexivity|]. simpl.
    rewrite (Hall r) by (left). apply IH. intros x Hx. apply Hall. right. exact Hx.
Qed.

Lemma first_some {A : Type} (P : A → bool) (rows : list A) (x : A) :
  first P rows = Some x → x ∈ rows ∧ P x = true.
Proof.
  unfold first. intros Hfound. apply find_some in Hfound as [Hin HP].
  split; [apply list_elem_of_In; exact Hin | exact HP].
Qed.

Lemma first_is_some {A : Type} (P : A → bool) (rows : list A) (x : A) :
  x ∈ rows → P x = true → ∃ y, first P rows = Some y.
Proof.
  intros Hin HP. destruct (first P rows) as [y|] eqn:Hfirst; [eauto|].
  rewrite first_none_iff in Hfirst. rewrite (Hfirst x Hin) in HP. discriminate.
Qed.

Lemma elem_of_all {A : Type} (P : A → bool) (rows : list A) (x : A) :
  x ∈ all P rows ↔ x ∈ rows ∧ P x = true.
Proof.
  unfold all. rewrite !list_elem_of_In. apply filter_In.
Qed.

(** After [delete_sessions_of uid] no row of the session table has that owner. *)
Lemma delete_sessions_of_spec (uid : Z) (db : DB) (s : UserSession.t) :
  s ∈ user_sessions (delete_sessions_of uid db)
  ↔ s ∈ user_sessions db ∧ UserSession.user_id s ≠ uid.
Proof.
  unfold delete_sessions_of. simpl. rewrite elem_of_all.
  rewrite negb_true_iff, Z.eqb_neq. reflexivity.
Qed.

Lemma find_valid_none_for_owner (uid : Z) (db : DB) :
  (∀ s, s ∈ user_sessions db → UserSession.user_id s ≠ uid) →
  ∀ refresh_token now, Auth.find_valid refresh_token (CInt uid) now db = None.
Proof.
  intros Hnone refresh_token now. unfold Auth.find_valid.
  apply first_none_iff. intros s Hs. simpl.
  apply Hnone in Hs. apply Z.eqb_neq in Hs. rewrite Hs.
  rewrite andb_false_r. reflexivity.
Qed.

(** C5. Logout of an authenticated user deletes every session row of that
    user (and no other row); afterwards the session lookup of the refresh
    endpoint finds nothing for any refresh token of that user, whatever its
    expiry, and the refresh endpoint answers 401. *)
Theorem logout_revokes_all_sessions {sec : Security}
    (token : string) (now : Z) (db : DB) (current_user : User.t) :
  Dependencies.get_current_user now token db = Return current_user →
  ∃ db',
    Auth.logout token now db = (Return "Successfully logged out", db')
    ∧ (∀ s, s ∈ user_sessions db'
            ↔ s ∈ user_sessions db ∧ UserSession.user_id s ≠ User.id current_user)
    ∧ users db' = users db
    ∧ (∀ refresh_token later,
         Auth.find_valid refresh_token (CInt (User.id current_user)) later db' = None)
    ∧ (∀ refresh_token later payload,
         decode_token later refresh_token = Some payload →
         dict_get payload "user_id" = CInt (User.id current_user) →
         ∃ e, Auth.refresh_token refresh_token later db' = (Raise e, db')
              ∧ status_code e = HTTP_401_UNAUTHORIZED).
Proof.
  intros Hresolved.
  exists (delete_sessions_of (User.id current_user) db).
  assert (Hgone : ∀ refresh_token later,
            Auth.find_valid refresh_token (CInt (User.id current_user)) later
              (delete_sessions_of (User.id current_user) db) = None).
  { apply find_valid_none_for_owner. intros s Hs.
    apply delete_sessions_of_spec in Hs. tauto. }
  split; [|split; [|split; [|split]]].
  - unfold Auth.logout, bind, Depends, commit, ret. rewrite Hresolved. reflexivity.
  - intros s. apply delete_sessions_of_spec.
  - reflexivity.
  - exact Hgone.
  - intros refresh_token later payload Hdec Huid.
    unfold Auth.refresh_token. rewrite Hdec.
    destruct (bool_decide (payload = ∅)
              || negb (bool_decide (dict_get payload "type" = CStr "refresh")));
      [eexists; split; reflexivity|].
    unfold bind, query. rewrite Huid, Hgone.
    eexists; split; reflexivity.
Qed.

Lemma logout_revokes_all_sessions_witness :
  ∃ db',
    Auth.logout (sec := Sample.security) "access:alice@example.com:admin" 200 Sample.db
    = (Return "Successfully logged out", db')
    ∧ Auth.find_valid "refresh:alice@example.com" (CInt 1) 200 Sample.db
      = Some (UserSession.mk 1 1 "refresh:alice@example.com" 5000 100 None None)
    ∧ Auth.find_valid "refresh:alice@example.com" (CInt 1) 200 db' = None.
Proof.
  destruct (logout_revokes_all_sessions (sec := Sample.security)
              "access:alice@example.com:admin" 200 Sample.db Sample.alice)
    as (db' & Hout & _ & _ & Hgone & _).
  - vm_compute. reflexivity.
  - exists db'. split; [exact Hout|]. split; [vm_compute; reflexivity|].
    apply (Hgone "refresh:alice@example.com" 200).
Defined.

Lemma dict_get_access_claims_role (user : User.t) :
  dict_get (access_claims user) "role" = CStr (role_value (User.role user)).
Proof. reflexivity. Qed.

(** C8. The refresh path has no [is_active] check: for a deactivated user
    with a stored, unexpired session row for the presented refresh token,
    the refresh endpoint returns an access token built from that user's
    e-mail, role and id, and leaves the database as it was. *)
Theorem refresh_ignores_deactivation {sec : Security}
    (refresh_token : string) (now : Z) (db : DB)
    (payload : gmap string Claim) (session : UserSession.t) (user : User.t) :
  decode_token now refresh_token = Some payload →
  dict_get payload "type" = CStr "refresh" →
  dict_get payload "user_id" = CInt (User.id user) →
  session ∈ user_sessions db →
  UserSession.refresh_token session = refresh_token →
  UserSession.user_id session = User.id user →
  now < UserSession.expires_at session →
  first (λ u, User.id u =? User.id user) (users db) = Some user →
  User.is_active user = false →
  Auth.refresh_token refresh_token now db
  = (Return (Token.mk (create_access_token now (access_claims user)) None "bearer"), db)
  ∧ dict_get (access_claims user) "role" = CStr (role_value (User.role user)).
Proof.
  intros Hdec Hty Huid Hin Htok Howner Hlive Huser _.
  split; [|reflexivity].
  unfold Auth.refresh_token. rewrite Hdec.
  assert (Hnonempty : payload ≠ ∅).
  { intros ->. rewrite dict_get_empty in Hty. discriminate. }
  rewrite (bool_decide_eq_false_2 _ Hnonempty), (bool_decide_eq_true_2 _ Hty).
  simpl. unfold bind, query. rewrite Huid.
  destruct (first_is_some
              (λ s, String.eqb (UserSession.refresh_token s) refresh_token
                    && int_column_eq (UserSession.user_id s) (CInt (User.id user))
                    && (now <? UserSession.expires_at s))
              (user_sessions db) session Hin) as (found & Hfound).
  { simpl. rewrite Htok, String.eqb_refl, Howner, Z.eqb_refl. simpl.
    apply Z.ltb_lt. exact Hlive. }
  unfold Auth.find_valid. rewrite Hfound.
  apply first_some in Hfound as [_ Hmatch]. simpl in Hmatch.
  apply andb_true_iff in Hmatch as [Hmatch _].
  apply andb_true_iff in Hmatch as [_ Hid]. apply Z.eqb_eq in Hid.
  unfold session_user. rewrite Hid, Huser. reflexivity.
Qed.

Lemma refresh_ignores_deactivation_witness :
  User.is_active Sample.bob = false
  ∧ Auth.refresh_token (sec := Sample.security) "refresh:bob@example.com" 200 Sample.db
    = (Return (Token.mk "access:bob@example.com:candidate" None "bearer"), Sample.db).
Proof.
  split; [reflexivity|].
  apply (refresh_ignores_deactivation (sec := Sample.security) "refresh:bob@example.com" 200
           Sample.db (Sample.claims "refresh" "bob@example.com" 2)
           (UserSession.mk 2 2 "refresh:bob@example.com" 5000 120 None None) Sample.bob);
    try (vm_compute; reflexivity).
  unfold Sample.db, Sample.sessions. simpl. rewrite !elem_of_cons. auto.
Defined.

(** ** Row updates and catalog filters *)

(** Replacing the rows of one key by a row of that key commutes with the
    lookup by primary key. *)
Lemma first_by_id_replace (key uid : Z) (u' : User.t) (rows : list User.t) :
  User.id u' = key →
  first (λ r, User.id r =? uid) (map (λ r, if User.id r =? key then u' else r) rows)
  = (λ r, if User.id r =? key then u' else r) <$> first (λ r, User.id r =? uid) rows.
Proof.
  intros Hkey'. unfold first.
  induction rows as [|r rows IH]; [reflexivity|]. simpl.
  destruct (User.id r =? key) eqn:Hkey.
  - apply Z.eqb_eq in Hkey.
    destruct (User.id r =? uid) eqn:Hid; rewrite Hkey, <- Hkey' in Hid;
      rewrite Hid; simpl.
    + rewrite Hkey, Z.eqb_refl. reflexivity.
    + exact IH.
  - destruct (User.id r =? uid) eqn:Hid; simpl.
    + rewrite Hkey. reflexivity.
    + exact IH.
Qed.

Lemma first_by_id_update_user (u' : User.t) (uid : Z) (db : DB) :
  first (λ r, User.id r =? uid) (users (update_user u' db))
  = (λ r, if User.id r =? User.id u' then u' else r)
      <$> first (λ r, User.id r =? uid) (users db).
Proof. apply first_by_id_replace. reflexivity. Qed.

Lemma name_in_spec (names : list string) (p : Permission.t) :
  name_in names p = true ↔ Permission.name p ∈ names.
Proof.
  unfold name_in. rewrite existsb_exists. split.
  - intros (n & Hin & Heq). apply String.eqb_eq in Heq. rewrite Heq.
    apply list_elem_of_In. exact Hin.
  - intros Hin. exists (Permission.name p). split.
    + apply list_elem_of_In. exact Hin.
    + apply String.eqb_refl.
Qed.

(** ** Signup *)

Section Seeding.
Context {sec : Security} {fb : Firebase}.

Lemma seed_permission_frame (db : DB) (perm_data : string * string) :
  users (Auth.seed_permission db perm_data) = users db
  ∧ user_sessions (Auth.seed_permission db perm_data) = user_sessions db
  ∧ users_autoinc (Auth.seed_permission db perm_data) = users_autoinc db
  ∧ user_sessions_autoinc (Auth.seed_permission db perm_data) = user_sessions_autoinc db.
Proof.
  unfold Auth.seed_permission.
  destruct (first _ (permissions db)); repeat split; reflexivity.
Qed.

Lemma seed_permission_keeps (db : DB) (perm_data : string * string) (p : Permission.t) :
  p ∈ permissions db → p ∈ permissions (Auth.seed_permission db perm_data).
Proof.
  intros Hp. unfold Auth.seed_permission.
  destruct (first _ (permissions db)); [exact Hp|].
  simpl. apply elem_of_app. left. exact Hp.
Qed.

Lemma seed_permission_present (db : DB) (perm_data : string * string) :
  ∃ p, p ∈ permissions (Auth.seed_permission db perm_data)
       ∧ Permission.name p = fst perm_data.
Proof.
  unfold Auth.seed_permission.
  destruct (first _ (permissions db)) as [p|] eqn:Hfirst.
  - apply first_some in Hfirst as [Hin Hname]. apply String.eqb_eq in Hname. eauto.
  - eexists. split; [simpl; apply elem_of_app; right; left|reflexivity].
Qed.

Lemma seeding_frame (defaults : list (string * string)) (db : DB) :
  users (fold_left Auth.seed_permission defaults db) = users db
  ∧ user_sessions (fold_left Auth.seed_permission defaults db) = user_sessions db
  ∧ users_autoinc (fold_left Auth.seed_permission defaults db) = users_autoinc db
  ∧ user_sessions_autoinc (fold_left Auth.seed_permission defaults db)
    = user_sessions_autoinc db.
Proof.
  revert db. induction defaults as [|d defaults IH]; intros db; simpl.
  - repeat split; reflexivity.
  - destruct (IH (Auth.seed_permission db d)) as (Hu & Hs & Hua & Hsa).
    destruct (seed_permission_frame db d) as (Hu' & Hs' & Hua' & Hsa').
    repeat split; congruence.
Qed.

Lemma seeding_keeps (defaults : list (string * string)) (db : DB) (p : Permission.t) :
  p ∈ permissions db → p ∈ permissions (fold_left Auth.seed_permission defaults db).
Proof.
  revert db. induction defaults as [|d defaults IH]; intros db Hp; simpl.
  - exact Hp.
  - apply IH, seed_permission_keeps, Hp.
Qed.

Lemma seeding_present (defaults : list (string * string)) (db : DB) (n : string) :
  n ∈ map fst defaults →
  ∃ p, p ∈ permissions (fold_left Auth.seed_permission defaults db)
       ∧ Permission.name p = n.
Proof.
  revert db. induction defaults as [|d defaults IH]; intros db Hn; simpl in *.
  - apply elem_of_nil in Hn. contradiction.
  - apply elem_of_cons in Hn as [->|Hn].
    + destruct (seed_permission_present db d) as (p & Hp & Hname).
      exists p. split; [apply seeding_keeps, Hp|exact Hname].
    + apply IH, Hn.
Qed.

End Seeding.

(** What the handler does with a request object whose role is admin. *)
Lemma signup_admin_shape {sec : Security} {fb : Firebase}
    (user_data : UserCreate.t) (now : Z) (verification_token : string) (db : DB) :
  UserCreate.role user_data = ADMIN →
  first (λ u, String.eqb (User.email u) (UserCreate.email user_data)) (users db) = None →
  ∃ db' user tokens,
    Auth.signup user_data now verification_token db = (Return tokens, db')
    ∧ users db' = (users db ++ [user])%list
    ∧ User.email user = UserCreate.email user_data
    ∧ User.role user = ADMIN
    ∧ User.permissions user = permissions db'
    ∧ (∀ n, n ∈ ["read"; "write"; "delete"; "manage_users"; "manage_roles"] →
            ∃ p, p ∈ User.permissions user ∧ Permission.name p = n)
    ∧ (∀ p, p ∈ permissions db → p ∈ permissions db')
    ∧ Token.access_token tokens = create_access_token now (access_claims user)
    ∧ dict_get (access_claims user) "role" = CStr "admin".
Proof.
  intros Hrole Hfresh.
  unfold Auth.signup, Auth.init_default_permissions, bind, commit, query, ret.
  set (seeded := fold_left Auth.seed_permission Auth.default_permissions db).
  destruct (seeding_frame Auth.default_permissions db) as (Hu & Hs & Hua & Hsa).
  fold seeded in Hu, Hs, Hua, Hsa.
  rewrite Hu, Hfresh, Hrole. simpl.
  eexists. eexists. eexists.
  split; [reflexivity|]. simpl.
  split; [rewrite Hu; reflexivity|].
  split; [destruct (create_firebase_user _ _ _) as [uid|];
            [destruct (String.eqb uid "")|]; reflexivity|].
  split; [destruct (create_firebase_user _ _ _) as [uid|];
            [destruct (String.eqb uid "")|]; reflexivity|].
  split; [destruct (create_firebase_user _ _ _) as [uid|];
            [destruct (String.eqb uid "")|]; reflexivity|].
  split.
  { intros n Hn.
    destruct (seeding_present Auth.default_permissions db n Hn) as (p & Hp & Hname).
    exists p. split; [|exact Hname].
    destruct (create_firebase_user _ _ _) as [uid|];
      [destruct (String.eqb uid "")|]; exact Hp. }
  split; [intros p Hp; apply seeding_keeps, Hp|].
  split; [reflexivity|].
  destruct (create_firebase_user _ _ _) as [uid|];
    [destruct (String.eqb uid "")|]; reflexivity.
Qed.

(** The password validator accepts every password with six characters or
    more, an ASCII digit and an ASCII capital letter. *)
Lemma validate_password_accepts {schema : Schema} (v : string) :
  ascii_digit_and_capital v → validate_password v = true.
Proof.
  intros (Hlen & (d & Hd & Hdigit) & (u & Hu & Hupper)). unfold validate_password.
  apply andb_true_intro. split; [apply andb_true_intro; split|].
  - apply negb_true_iff, Z.ltb_ge. lia.
  - apply existsb_exists. exists d. split; [apply list_elem_of_In, Hd|].
    unfold isdigit. replace (d <? 128)%N with true by (symmetry; apply N.ltb_lt; lia).
    apply andb_true_intro. split; apply N.leb_le; lia.
  - apply existsb_exists. exists u. split; [apply list_elem_of_In, Hu|].
    unfold isupper. replace (u <? 128)%N with true by (symmetry; apply N.ltb_lt; lia).
    apply andb_true_intro. split; apply N.leb_le; lia.
Qed.

(** The request object the schema builds from a body it accepts. *)
Lemma parse_UserCreate_accepts {schema : Schema} (body : SignupBody.t)
    (email : string) (role : UserRole) :
  EmailStr (SignupBody.email body) = Some email →
  role_field (SignupBody.role body) = Some role →
  ascii_digit_and_capital (SignupBody.password body) →
  parse_UserCreate body
  = Some (UserCreate.mk email (SignupBody.name body) (SignupBody.phone body) role
            (SignupBody.password body)).
Proof.
  intros Hemail Hrole Hpassword. unfold parse_UserCreate.
  rewrite Hemail, Hrole, (validate_password_accepts _ Hpassword). reflexivity.
Qed.

(** C9. Signup takes no credential of the caller and stores the role of the
    request as it is. For a request whose role is admin and whose e-mail is
    not registered yet, the handler appends a user with that e-mail, role
    admin and the whole (seeded) permission catalog, and returns an access
    token whose role claim is "admin". The route hands every body to the
    handler whose role field is "admin", whose address the e-mail check
    accepts and whose password has six characters with a digit and a capital
    letter among them, so such a body creates the administrator. A body
    without a role field gives a request of role user, and a role field that
    is none of the four role values is answered with 422 before the handler
    runs. *)
Theorem signup_accepts_admin_role {sec : Security} {fb : Firebase} {schema : Schema}
    (user_data : UserCreate.t) (now : Z) (verification_token : string) (db : DB) :
  UserCreate.role user_data = ADMIN →
  first (λ u, String.eqb (User.email u) (UserCreate.email user_data)) (users db) = None →
  (∃ db' user tokens,
     Auth.signup user_data now verification_token db = (Return tokens, db')
     ∧ users db' = (users db ++ [user])%list
     ∧ User.email user = UserCreate.email user_data
     ∧ User.role user = ADMIN
     ∧ User.permissions user = permissions db'
     ∧ (∀ n, n ∈ ["read"; "write"; "delete"; "manage_users"; "manage_roles"] →
             ∃ p, p ∈ User.permissions user ∧ Permission.name p = n)
     ∧ (∀ p, p ∈ permissions db → p ∈ permissions db')
     ∧ Token.access_token tokens = create_access_token now (access_claims user)
     ∧ dict_get (access_claims user) "role" = CStr "admin")
  ∧ (∀ body email,
       SignupBody.role body = Some "admin" →
       EmailStr (SignupBody.email body) = Some email →
       ascii_digit_and_capital (SignupBody.password body) →
       first (λ u, String.eqb (User.email u) email) (users db) = None →
       ∃ db' user tokens,
         signup_route body now verification_token db = (Return tokens, db')
         ∧ users db' = (users db ++ [user])%list
         ∧ User.email user = email
         ∧ User.role user = ADMIN
         ∧ User.permissions user = permissions db'
         ∧ (∀ n, n ∈ ["read"; "write"; "delete"; "manage_users"; "manage_roles"] →
                 ∃ p, p ∈ User.permissions user ∧ Permission.name p = n)
         ∧ dict_get (access_claims user) "role" = CStr "admin"
         ∧ Token.access_token tokens = create_access_token now (access_claims user))
  ∧ (∀ body email,
       SignupBody.role body = None →
       EmailStr (SignupBody.email body) = Some email →
       ascii_digit_and_capital (SignupBody.password body) →
       parse_UserCreate body
       = Some (UserCreate.mk email (SignupBody.name body) (SignupBody.phone body) USER
                 (SignupBody.password body)))
  ∧ (∀ body value,
       SignupBody.role body = Some value →
       value ∉ ["user"; "admin"; "hr"; "candidate"] →
       signup_route body now verification_token db
       = (Raise (mkHTTPException HTTP_422_UNPROCESSABLE_ENTITY "value_error"), db)).
Proof.
  intros Hrole Hfresh. split; [|split; [|split]].
  - apply signup_admin_shape; assumption.
  - intros body email Hbody Hemail Hpassword Hnew. unfold signup_route.
    rewrite (parse_UserCreate_accepts body email ADMIN Hemail
               ltac:(rewrite Hbody; reflexivity) Hpassword).
    destruct (signup_admin_shape
                (UserCreate.mk email (SignupBody.name body) (SignupBody.phone body)
                   ADMIN (SignupBody.password body))
                now verification_token db eq_refl Hnew)
      as (db' & user & tokens & Hout & Husers & Hmail & Hadmin & Hperms & Hnames
          & _ & Htoken & Hclaim).
    exists db', user, tokens. repeat split; assumption.
  - intros body email Hbody Hemail Hpassword.
    apply parse_UserCreate_accepts; [exact Hemail| rewrite Hbody; reflexivity
                                    |exact Hpassword].
  - intros body value Hbody Hvalue. unfold signup_route, parse_UserCreate.
    rewrite Hbody. cbn [role_field].
    assert (Hnone : UserRole_of_value value = None).
    { unfold UserRole_of_value, role_is. cbn [List.find role_value].
      repeat match goal with
             | |- context [String.eqb ?a value] =>
               destruct (String.eqb_spec a value) as [<-|_];
                 [exfalso; apply Hvalue; set_solver|]
             end.
      reflexivity. }
    rewrite Hnone. destruct (EmailStr _); reflexivity.
Qed.

Lemma signup_accepts_admin_role_witness :
  ∃ db' user tokens,
    signup_route (sec := Sample.security) (fb := Sample.firebase)
      (schema := Sample.schema)
      (SignupBody.mk "Mallory@EXAMPLE.COM" "Mallory" None (Some "admin") "Secret1")
      300 "v3r1fy" Sample.db
    = (Return tokens, db')
    ∧ users db' = [Sample.alice; Sample.bob; Sample.carol; user]
    ∧ User.email user = "Mallory@example.com"
    ∧ User.role user = ADMIN
    ∧ User.permissions user = Sample.catalog
    ∧ Token.access_token tokens = "access:Mallory@example.com:admin".
Proof.
  destruct (signup_accepts_admin_role (sec := Sample.security) (fb := Sample.firebase)
              (schema := Sample.schema)
              (UserCreate.mk "mallory@example.com" "Mallory" None ADMIN "Secret1")
              300 "v3r1fy" Sample.db) as (_ & Hroute & _).
  - reflexivity.
  - vm_compute. reflexivity.
  - destruct (Hroute (SignupBody.mk "Mallory@EXAMPLE.COM" "Mallory" None
                        (Some "admin") "Secret1") "Mallory@example.com")
      as (db' & user & tokens & Hout & Husers & Hmail & Hadmin & _).
    + reflexivity.
    + vm_compute. reflexivity.
    + split; [vm_compute; lia|].
      split; [exists 49%N|exists 83%N];
        (split; [apply list_elem_of_In; vm_compute; tauto|lia]).
    + vm_compute. reflexivity.
    + exists db', user, tokens. split; [exact Hout|].
      vm_compute in Hout. injection Hout as <- <-.
      vm_compute in Husers. injection Husers as <-.
      repeat split.
Defined.

(** ** Account deletion *)

Lemma delete_user_row_spec (target : User.t) (db : DB) :
  (∀ u, u ∈ users (delete_user_row target db)
        ↔ u ∈ users db ∧ User.id u ≠ User.id target)
  ∧ (∀ s, s ∈ user_sessions (delete_user_row target db)
          ↔ s ∈ user_sessions db ∧ UserSession.user_id s ≠ User.id target).
Proof.
  unfold delete_user_row. simpl. split; intros x;
    rewrite elem_of_all, negb_true_iff, Z.eqb_neq; reflexivity.
Qed.

(** C7, as the code has it. A delete-user request whose target is the caller
    is rejected with 400 once the caller has passed the route's delete
    permission gate, and in every case leaves the database as it was. The
    self-profile delete route has no such guard: for every resolved caller
    it succeeds and removes the caller's row and the caller's sessions. *)
Theorem self_deletion_guard_is_admin_route_only {sec : Security}
    (token : string) (now : Z) (db : DB) (current_user : User.t) :
  (Dependencies.require_permission ["delete"] now token db = Return current_user →
   Admin.delete_user (User.id current_user) token now db
   = (Raise (mkHTTPException HTTP_400_BAD_REQUEST "Cannot delete your own account"), db))
  ∧ (Dependencies.get_current_active_user now token db = Return current_user →
     snd (Admin.delete_user (User.id current_user) token now db) = db
     ∧ ∃ db',
         Users.delete_account token now db = (Return "Account deleted successfully", db')
         ∧ (∀ u, u ∈ users db' ↔ u ∈ users db ∧ User.id u ≠ User.id current_user)
         ∧ (∀ s, s ∈ user_sessions db'
                 ↔ s ∈ user_sessions db
                   ∧ UserSession.user_id s ≠ User.id current_user)).
Proof.
  split.
  - intros Hgate. unfold Admin.delete_user, bind, Depends, raise.
    rewrite Hgate, Z.eqb_refl. reflexivity.
  - intros Hresolved. split.
    + unfold Admin.delete_user, bind, Depends, raise.
      unfold Dependencies.require_permission. rewrite Hresolved. cbv zeta.
      destruct (negb _); [reflexivity|]. rewrite Z.eqb_refl. reflexivity.
    + exists (delete_user_row current_user db). split.
      * unfold Users.delete_account, bind, Depends, commit, ret.
        rewrite Hresolved. reflexivity.
      * apply delete_user_row_spec.
Qed.

Lemma self_deletion_guard_is_admin_route_only_witness :
  Admin.delete_user (sec := Sample.security) 1 "access:alice@example.com:admin" 200 Sample.db
  = (Raise (mkHTTPException HTTP_400_BAD_REQUEST "Cannot delete your own account"),
     Sample.db).
Proof.
  apply (proj1 (self_deletion_guard_is_admin_route_only (sec := Sample.security)
                  "access:alice@example.com:admin" 200 Sample.db Sample.alice)).
  vm_compute. reflexivity.
Defined.

(** C7 as stated fails on the self-profile route: the administrator of the
    sample deployment deletes her own account through DELETE /me; the request
    is answered with success, not with an error, and her row is gone. *)
Lemma self_profile_delete_succeeds_for_admin :
  User.role Sample.alice = ADMIN
  ∧ Dependencies.get_current_active_user (sec := Sample.security)
      200 "access:alice@example.com:admin" Sample.db = Return Sample.alice
  ∧ fst (Users.delete_account (sec := Sample.security) "access:alice@example.com:admin" 200 Sample.db)
    = Return "Account deleted successfully"
  ∧ users (snd (Users.delete_account (sec := Sample.security)
                  "access:alice@example.com:admin" 200 Sample.db))
    = [Sample.bob; Sample.carol]
  ∧ ¬ (∃ e, fst (Users.delete_account (sec := Sample.security)
                   "access:alice@example.com:admin" 200 Sample.db) = Raise e
            ∧ status_code e = HTTP_400_BAD_REQUEST
            ∧ users (snd (Users.delete_account (sec := Sample.security)
                            "access:alice@example.com:admin" 200 Sample.db)) = users Sample.db).
Proof.
  split; [reflexivity|].
  split; [vm_compute; reflexivity|].
  split; [vm_compute; reflexivity|].
  split; [vm_compute; reflexivity|].
  intros (e & Hraise & _). vm_compute in Hraise. discriminate Hraise.
Qed.

(** ** Password change and reset *)

Lemma get_current_user_sound {sec : Security}
    (now : Z) (token : string) (db : DB) (user : User.t) :
  Dependencies.get_current_user now token db = Return user →
  user ∈ users db ∧ User.is_active user = true.
Proof.
  unfold Dependencies.get_current_user.
  destruct (decode_token now token) as [payload|]; [|discriminate].
  destruct (negb _); [discriminate|].
  destruct (dict_get payload "sub") as [|s|z]; [discriminate| |];
    (destruct (first _ (users db)) as [found|] eqn:Hfound; [|discriminate];
     destruct (User.is_active found) eqn:Hactive; [|discriminate];
     simpl; intros [= <-]; apply first_some in Hfound as [Hin _]; auto).
Qed.

Lemma primary_key_unique (db : DB) (r u : User.t) :
  users_primary_key db → r ∈ users db → u ∈ users db →
  User.id r = User.id u → r = u.
Proof.
  unfold users_primary_key. induction (users db) as [|x rows IH]; intros Hnd Hr Hu Hid.
  - apply elem_of_nil in Hr. contradiction.
  - simpl in Hnd. apply NoDup_cons in Hnd as [Hx Hnd].
    apply elem_of_cons in Hr as [->|Hr]; apply elem_of_cons in Hu as [->|Hu].
    + reflexivity.
    + exfalso. apply Hx. rewrite Hid. apply list_elem_of_fmap. eauto.
    + exfalso. apply Hx. rewrite <- Hid. apply list_elem_of_fmap. eauto.
    + apply IH; assumption.
Qed.

Lemma access_claims_same_but_password (u u' : User.t) :
  same_but_password u u' → access_claims u' = access_claims u.
Proof.
  intros (Hid & Hemail & _ & _ & Hrole & _). unfold access_claims.
  rewrite Hid, Hemail, Hrole. reflexivity.
Qed.

(** Refreshing behaves the same before and after a row was rewritten in its
    password columns only. *)
Lemma refresh_after_password_update {sec : Security}
    (target target' : User.t) (db db' : DB) :
  users_primary_key db → target ∈ users db →
  same_but_password target target' →
  only_row_changed target target' db db' →
  ∀ refresh_token later,
    Auth.refresh_token refresh_token later db'
    = (fst (Auth.refresh_token refresh_token later db), db').
Proof.
  intros Hpk Htarget Hsame (Husers & Hsessions & _) refresh_token later.
  unfold Auth.refresh_token.
  destruct (decode_token later refresh_token) as [payload|]; [|reflexivity].
  destruct (_ || _); [reflexivity|].
  unfold bind, query, Auth.find_valid. rewrite Hsessions.
  destruct (first _ (user_sessions db)) as [session|]; [|reflexivity].
  unfold session_user. rewrite Husers.
  rewrite first_by_id_replace by (destruct Hsame as [Hid _]; exact Hid).
  destruct (first _ (users db)) as [r|] eqn:Hrow; [|reflexivity]. simpl.
  destruct (User.id r =? User.id target) eqn:Hid; [|reflexivity].
  apply Z.eqb_eq in Hid. apply first_some in Hrow as [Hin _].
  rewrite (primary_key_unique db r target Hpk Hin Htarget Hid).
  rewrite (access_claims_same_but_password target target' Hsame). reflexivity.
Qed.

(** C10. A successful password change, and a successful password reset,
    rewrite only the password hash, the reset-token columns and [updated_at]
    of the one user row; no session row is deleted, and under the primary
    key of the users table the refresh endpoint answers every refresh token,
    at every later time, as it did before. *)
Theorem password_update_keeps_sessions {sec : Security} (now : Z) (db : DB) :
  (∀ current_password new_password token current_user,
     Dependencies.get_current_active_user now token db = Return current_user →
     verify_password current_password (User.hashed_password current_user) = true →
     ∃ db' user',
       Users.change_password current_password new_password token now db
       = (Return "Password changed successfully", db')
       ∧ User.hashed_password user' = get_password_hash new_password
       ∧ same_but_password current_user user'
       ∧ only_row_changed current_user user' db db'
       ∧ (users_primary_key db →
          ∀ refresh_token later,
            Auth.refresh_token refresh_token later db'
            = (fst (Auth.refresh_token refresh_token later db), db')))
  ∧ (∀ token new_password user,
       first (λ u, Auth.token_matches (User.reset_password_token u)
                     (User.reset_password_expire u) (hash_token token) now)
             (users db) = Some user →
       ∃ db' user',
         Auth.reset_password token new_password now db
         = (Return "Password reset successfully", db')
         ∧ User.hashed_password user' = get_password_hash new_password
         ∧ same_but_password user user'
         ∧ only_row_changed user user' db db'
         ∧ (users_primary_key db →
            ∀ refresh_token later,
              Auth.refresh_token refresh_token later db'
              = (fst (Auth.refresh_token refresh_token later db), db'))).
Proof.
  split.
  - intros current_password new_password token current_user Hresolved Hverified.
    unfold Users.change_password, bind, Depends, commit, ret.
    rewrite Hresolved, Hverified. simpl.
    set (user' := User.set_updated_at now _).
    exists (update_user user' db), user'. split; [reflexivity|].
    assert (Hsame : same_but_password current_user user') by (repeat split).
    assert (Hframe : only_row_changed current_user user' db (update_user user' db))
      by (repeat split).
    split; [reflexivity|]. split; [exact Hsame|]. split; [exact Hframe|].
    intros Hpk.
    apply (refresh_after_password_update current_user user' db _ Hpk);
      [|exact Hsame|exact Hframe].
    apply (get_current_user_sound now token db current_user Hresolved).
  - intros token new_password user Hfound.
    unfold Auth.reset_password, bind, query, commit, ret.
    rewrite Hfound.
    set (user' := User.set_updated_at now _).
    exists (update_user user' db), user'. split; [reflexivity|].
    assert (Hsame : same_but_password user user') by (repeat split).
    assert (Hframe : only_row_changed user user' db (update_user user' db))
      by (repeat split).
    split; [reflexivity|]. split; [exact Hsame|]. split; [exact Hframe|].
    intros Hpk.
    apply (refresh_after_password_update user user' db _ Hpk);
      [|exact Hsame|exact Hframe].
    apply first_some in Hfound as [Hin _]. exact Hin.
Qed.

Lemma password_update_keeps_sessions_witness :
  ∃ db',
    Auth.reset_password (sec := Sample.security) "r3s3t" "NewPass1" 200 Sample.db
    = (Return "Password reset successfully", db')
    ∧ user_sessions db' = Sample.sessions
    ∧ Auth.refresh_token (sec := Sample.security) "refresh:bob@example.com" 300 db'
      = (Return (Token.mk "access:bob@example.com:candidate" None "bearer"), db').
Proof.
  destruct (proj2 (password_update_keeps_sessions (sec := Sample.security)
                     200 Sample.db) "r3s3t" "NewPass1" Sample.bob)
    as (db' & user' & Hout & _ & _ & (_ & Hsessions & _) & Hrefresh).
  - vm_compute. reflexivity.
  - exists db'. split; [exact Hout|]. split; [exact Hsessions|].
    rewrite Hrefresh; [reflexivity|].
    unfold users_primary_key. simpl.
    repeat (apply NoDup_cons; split; [rewrite ?elem_of_cons, elem_of_nil; lia|]).
    apply NoDup_nil. exact I.
Defined.

(** ** What every request maintains *)

Section Invariant.
Context {sec : Security} {fb : Firebase} {eng : Engine}.

Lemma ids_after_replace (u' : User.t) (rows : list User.t) :
  map User.id (map (λ r, if User.id r =? User.id u' then u' else r) rows)
  = map User.id rows.
Proof.
  induction rows as [|r rows IH]; [reflexivity|]. simpl. rewrite IH.
  destruct (User.id r =? User.id u') eqn:Hkey; [|reflexivity].
  apply Z.eqb_eq in Hkey. rewrite Hkey. reflexivity.
Qed.

Lemma elem_of_replace (u' x : User.t) (rows : list User.t) :
  x ∈ map (λ r, if User.id r =? User.id u' then u' else r) rows →
  x ∈ rows ∨ (x = u' ∧ ∃ r, r ∈ rows ∧ User.id r = User.id u').
Proof.
  intros Hx. apply list_elem_of_fmap in Hx as (r & -> & Hr).
  destruct (User.id r =? User.id u') eqn:Hkey.
  - right. apply Z.eqb_eq in Hkey. eauto.
  - left. exact Hr.
Qed.

Lemma db_ok_update_user (u' : User.t) (db : DB) :
  db_ok db →
  (∀ p, p ∈ User.permissions u' → p ∈ permissions db) →
  db_ok (update_user u' db).
Proof.
  intros (Hpk & Hbelow & Hperms & Hcat) Hu'. unfold db_ok, users_primary_key, update_user.
  simpl. split; [rewrite ids_after_replace; exact Hpk|].
  split; [|split; [|exact Hcat]].
  - intros u Hu. apply elem_of_replace in Hu as [Hu|(-> & r & Hr & Hid)].
    + apply Hbelow, Hu.
    + rewrite <- Hid. apply Hbelow, Hr.
  - intros u p Hu Hp. apply elem_of_replace in Hu as [Hu|(-> & _)].
    + apply (Hperms u p Hu Hp).
    + apply Hu', Hp.
Qed.

Lemma db_ok_add_user (row : Z → User.t) (db : DB) :
  db_ok db →
  User.id (row (users_autoinc db)) = users_autoinc db →
  (∀ p, p ∈ User.permissions (row (users_autoinc db)) → p ∈ permissions db) →
  db_ok (add_user row db).
Proof.
  intros (Hpk & Hbelow & Hperms & Hcat) Hid Hrow.
  unfold db_ok, users_primary_key, add_user. simpl.
  split; [|split; [|split; [|exact Hcat]]].
  - rewrite map_app. simpl. apply NoDup_app. split; [exact Hpk|].
    split; [|apply NoDup_singleton].
    intros k Hk Hnew. apply list_elem_of_fmap in Hk as (u & -> & Hu).
    apply list_elem_of_singleton in Hnew. apply Hbelow in Hu. lia.
  - intros u Hu. apply elem_of_app in Hu as [Hu|Hu].
    + apply Hbelow in Hu. lia.
    + apply list_elem_of_singleton in Hu as ->. lia.
  - intros u p Hu Hp. apply elem_of_app in Hu as [Hu|Hu].
    + apply (Hperms u p Hu Hp).
    + apply list_elem_of_singleton in Hu as ->. apply Hrow, Hp.
Qed.

Lemma db_ok_add_session (row : Z → UserSession.t) (db : DB) :
  db_ok db → db_ok (add_session row db).
Proof. intros Hok. exact Hok. Qed.

Lemma db_ok_delete_sessions_of (uid : Z) (db : DB) :
  db_ok db → db_ok (delete_sessions_of uid db).
Proof. intros Hok. exact Hok. Qed.

Lemma ids_after_filter (P : User.t → bool) (rows : list User.t) :
  NoDup (map User.id rows) → NoDup (map User.id (List.filter P rows)).
Proof.
  induction rows as [|r rows IH]; [intros; constructor|].
  simpl. intros Hnd. apply NoDup_cons in Hnd as [Hr Hnd].
  destruct (P r); [|apply IH, Hnd].
  simpl. apply NoDup_cons. split; [|apply IH, Hnd].
  intros Hin. apply Hr. apply list_elem_of_fmap in Hin as (x & Hx & Hin).
  apply list_elem_of_In, filter_In in Hin as [Hin _].
  apply list_elem_of_fmap. exists x. split; [exact Hx|].
  apply list_elem_of_In. exact Hin.
Qed.

Lemma db_ok_delete_user_row (target : User.t) (db : DB) :
  db_ok db → db_ok (delete_user_row target db).
Proof.
  intros (Hpk & Hbelow & Hperms & Hcat).
  unfold db_ok, users_primary_key, delete_user_row, all. simpl.
  split; [|split; [|split; [|exact Hcat]]].
  - apply ids_after_filter, Hpk.
  - intros u Hu. apply list_elem_of_In, filter_In in Hu as [Hu _].
    apply Hbelow, list_elem_of_In, Hu.
  - intros u p Hu Hp. apply list_elem_of_In, filter_In in Hu as [Hu _].
    apply (Hperms u p); [apply list_elem_of_In, Hu|exact Hp].
Qed.

Lemma db_ok_seeding (db : DB) :
  db_ok db → db_ok (fold_left Auth.seed_permission Auth.default_permissions db).
Proof.
  intros (Hpk & Hbelow & Hperms & _).
  destruct (seeding_frame Auth.default_permissions db) as (Hu & _ & Hua & _).
  unfold db_ok, users_primary_key. rewrite Hu, Hua.
  split; [exact Hpk|]. split; [exact Hbelow|]. split.
  - intros u p Hin Hp. apply seeding_keeps, (Hperms u p Hin Hp).
  - right. intros n Hn. apply seeding_present, Hn.
Qed.

Lemma first_elem_of {A : Type} (P : A → bool) (rows : list A) (x : A) :
  first P rows = Some x → x ∈ rows.
Proof. intros Hfound. apply first_some in Hfound as [Hin _]. exact Hin. Qed.

Lemma all_subseteq {A : Type} (P : A → bool) (rows : list A) (x : A) :
  x ∈ all P rows → x ∈ rows.
Proof. intros Hx. apply elem_of_all in Hx as [Hx _]. exact Hx. Qed.

Lemma require_permission_resolves (required : list string)
    (now : Z) (token : string) (db : DB) (user : User.t) :
  Dependencies.require_permission required now token db = Return user →
  Dependencies.get_current_user now token db = Return user.
Proof.
  unfold Dependencies.require_permission, Dependencies.get_current_active_user.
  destruct (Dependencies.get_current_user now token db) as [u|e]; [|discriminate].
  cbv zeta. destruct (negb _); [discriminate|]. intros [= ->]. reflexivity.
Qed.

Lemma require_role_resolves (allowed : list UserRole)
    (now : Z) (token : string) (db : DB) (user : User.t) :
  Dependencies.require_role allowed now token db = Return user →
  Dependencies.get_current_user now token db = Return user.
Proof.
  unfold Dependencies.require_role, Dependencies.get_current_active_user.
  destruct (Dependencies.get_current_user now token db) as [u|e]; [|discriminate].
  destruct (negb _); [discriminate|]. intros [= ->]. reflexivity.
Qed.

End Invariant.

Section Served.
Context {sec : Security} {fb : Firebase} {eng : Engine}.

(** A row fetched from the users table holds catalog permissions. *)
Lemma fetched_permissions (db : DB) (P : User.t → bool) (user : User.t) :
  db_ok db → first P (users db) = Some user →
  ∀ p, p ∈ User.permissions user → p ∈ permissions db.
Proof.
  intros (_ & _ & Hperms & _) Hfound p Hp.
  apply (Hperms user p); [apply (first_elem_of _ _ _ Hfound)|exact Hp].
Qed.

Lemma resolved_permissions (db : DB) (now : Z) (token : string) (user : User.t) :
  db_ok db → Dependencies.get_current_user now token db = Return user →
  ∀ p, p ∈ User.permissions user → p ∈ permissions db.
Proof.
  intros (_ & _ & Hperms & _) Hresolved p Hp.
  apply (Hperms user p); [|exact Hp].
  apply (get_current_user_sound now token db user Hresolved).
Qed.

Ltac run_handler :=
  unfold bind, query, commit, ret, raise, Depends.

Lemma signup_keeps_db_ok (user_data : UserCreate.t) (now : Z)
    (verification_token : string) (db : DB) :
  db_ok db → db_ok (snd (Auth.signup user_data now verification_token db)).
Proof.
  intros Hok. apply db_ok_seeding in Hok.
  unfold Auth.signup, Auth.init_default_permissions. run_handler.
  set (seeded := fold_left Auth.seed_permission Auth.default_permissions db) in *.
  destruct (first _ (users seeded)); [exact Hok|]. simpl.
  apply db_ok_add_session, db_ok_add_user; [exact Hok| |].
  - destruct (create_firebase_user _ _ _) as [uid|];
      [destruct (String.eqb uid "")|]; reflexivity.
  - assert (Hgranted : ∀ p,
      p ∈ (if role_is (UserCreate.role user_data) "admin" then permissions seeded
           else if role_is (UserCreate.role user_data) "hr"
           then all (name_in ["read"; "write"; "manage_users"]) (permissions seeded)
           else match first (λ p, String.eqb (Permission.name p) "read")
                        (permissions seeded) with
                | Some permission => [permission]
                | None => []
                end) → p ∈ permissions seeded).
    { intros p. destruct (role_is _ "admin"); [auto|].
      destruct (role_is _ "hr"); [apply all_subseteq|].
      destruct (first _ (permissions seeded)) as [read|] eqn:Hread.
      - intros Hp. apply list_elem_of_singleton in Hp as ->.
        apply (first_elem_of _ _ _ Hread).
      - intros Hp. apply elem_of_nil in Hp. contradiction. }
    destruct (create_firebase_user _ _ _) as [uid|];
      [destruct (String.eqb uid "")|]; exact Hgranted.
Qed.

Lemma login_keeps_db_ok (ip_address user_agent : option string)
    (username password : string) (now : Z) (db : DB) :
  db_ok db → db_ok (snd (Auth.login ip_address user_agent username password now db)).
Proof.
  intros Hok. unfold Auth.login. run_handler.
  destruct (first _ (users db)) as [user|] eqn:Hfound; [|exact Hok].
  destruct (negb (verify_password _ _)); [exact Hok|].
  destruct (negb (User.is_active user)); [exact Hok|]. simpl.
  apply db_ok_add_session, db_ok_update_user; [exact Hok|].
  exact (fetched_permissions db _ user Hok Hfound).
Qed.

Lemma firebase_login_keeps_db_ok (id_token : string) (now : Z) (db : DB) :
  db_ok db → db_ok (snd (Auth.firebase_login id_token now db)).
Proof.
  intros Hok. unfold Auth.firebase_login. run_handler.
  destruct (verify_firebase_token id_token) as [message|decoded]; [exact Hok|].
  destruct (negb (Auth.truthy _)); [exact Hok|]. simpl.
  destruct (first _ (users db)) as [user|] eqn:Hfound.
  - destruct (negb (Auth.truthy (User.firebase_uid user))); simpl.
    + destruct (firebase_uid_taken _ _); simpl; [exact Hok|].
      apply db_ok_add_session, db_ok_update_user;
        [apply db_ok_update_user; [exact Hok|]|];
        exact (fetched_permissions db _ user Hok Hfound).
    + apply db_ok_add_session, db_ok_update_user; [exact Hok|].
      exact (fetched_permissions db _ user Hok Hfound).
  - simpl. destruct (firebase_uid_taken _ _); simpl; [exact Hok|].
    apply db_ok_add_session, db_ok_update_user.
    + apply db_ok_add_user; [exact Hok|reflexivity|].
      intros p Hp. apply elem_of_nil in Hp. contradiction.
    + intros p Hp. apply elem_of_nil in Hp. contradiction.
Qed.

Lemma one_time_token_keeps_db_ok (token new_password : string) (now : Z) (db : DB) :
  db_ok db →
  db_ok (snd (Auth.verify_email token now db))
  ∧ db_ok (snd (Auth.reset_password token new_password now db)).
Proof.
  intros Hok. split.
  - unfold Auth.verify_email. run_handler.
    destruct (first _ (users db)) as [user|] eqn:Hfound; [|exact Hok]. simpl.
    apply db_ok_update_user; [exact Hok|].
    exact (fetched_permissions db _ user Hok Hfound).
  - unfold Auth.reset_password. run_handler.
    destruct (first _ (users db)) as [user|] eqn:Hfound; [|exact Hok]. simpl.
    apply db_ok_update_user; [exact Hok|].
    exact (fetched_permissions db _ user Hok Hfound).
Qed.

Lemma forgot_password_keeps_db_ok (email reset_token : string) (now : Z) (db : DB) :
  db_ok db → db_ok (snd (Auth.forgot_password email now reset_token db)).
Proof.
  intros Hok. unfold Auth.forgot_password. run_handler.
  destruct (first _ (users db)) as [user|] eqn:Hfound; [|exact Hok]. simpl.
  apply db_ok_update_user; [exact Hok|].
  exact (fetched_permissions db _ user Hok Hfound).
Qed.

Lemma refresh_token_reads_only (refresh_token : string) (now : Z) (db : DB) :
  snd (Auth.refresh_token refresh_token now db) = db.
Proof.
  unfold Auth.refresh_token.
  destruct (decode_token now refresh_token) as [payload|]; [|reflexivity].
  destruct (_ || _); [reflexivity|]. run_handler.
  destruct (Auth.find_valid _ _ _ db) as [session|]; [|reflexivity]. simpl.
  destruct (session_user session db); reflexivity.
Qed.

Lemma logout_keeps_db_ok (token : string) (now : Z) (db : DB) :
  db_ok db → db_ok (snd (Auth.logout token now db)).
Proof.
  intros Hok. unfold Auth.logout. run_handler.
  destruct (Dependencies.get_current_user now token db); exact Hok.
Qed.

Lemma users_router_keeps_db_ok (token : string) (now : Z) (db : DB)
    (name phone : option string) (current_password new_password : string) :
  db_ok db →
  db_ok (snd (Users.update_profile name phone token now db))
  ∧ db_ok (snd (Users.change_password current_password new_password token now db))
  ∧ db_ok (snd (Users.delete_account token now db)).
Proof.
  intros Hok.
  unfold Users.update_profile, Users.change_password, Users.delete_account,
    Dependencies.get_current_active_user.
  run_handler.
  destruct (Dependencies.get_current_user now token db) as [user|e] eqn:Hresolved;
    [|split; [|split]; exact Hok].
  pose proof (resolved_permissions db now token user Hok Hresolved) as Hperms.
  split; [|split].
  - simpl. apply db_ok_update_user; [exact Hok|].
    destruct name, phone; exact Hperms.
  - destruct (negb (verify_password _ _)); [exact Hok|]. simpl.
    apply db_ok_update_user; [exact Hok|exact Hperms].
  - simpl. apply db_ok_delete_user_row, Hok.
Qed.

Lemma admin_router_keeps_db_ok (token : string) (now : Z) (db : DB)
    (user_id : Z) (role : UserRole) (permission_names : list string)
    (is_active : bool) :
  db_ok db →
  db_ok (snd (Admin.update_user_role user_id role token now db))
  ∧ db_ok (snd (Admin.update_user_permissions user_id permission_names token now db))
  ∧ db_ok (snd (Admin.toggle_user_status user_id is_active token now db))
  ∧ db_ok (snd (Admin.delete_user user_id token now db)).
Proof.
  intros Hok. split; [|split; [|split]].
  - unfold Admin.update_user_role. run_handler.
    destruct (Dependencies.require_permission _ now token db); [|exact Hok]. simpl.
    destruct (first _ (users db)) as [user|] eqn:Hfound; [|exact Hok]. simpl.
    apply db_ok_update_user; [exact Hok|]. simpl. intros p.
    destruct (bool_decide (role = ADMIN)); [auto|].
    destruct (bool_decide (role = HR)); [apply all_subseteq|].
    destruct (first _ (permissions db)) as [read|] eqn:Hread.
    + intros Hp. apply list_elem_of_singleton in Hp as ->.
      apply (first_elem_of _ _ _ Hread).
    + intros Hp. apply elem_of_nil in Hp. contradiction.
  - unfold Admin.update_user_permissions. run_handler.
    destruct (Dependencies.require_permission _ now token db); [|exact Hok]. simpl.
    destruct (first _ (users db)) as [user|] eqn:Hfound; [|exact Hok]. simpl.
    apply db_ok_update_user; [exact Hok|]. simpl. intros p. apply all_subseteq.
  - unfold Admin.toggle_user_status. run_handler.
    destruct (Dependencies.require_role _ now token db); [|exact Hok]. simpl.
    destruct (first _ (users db)) as [user|] eqn:Hfound; [|exact Hok]. simpl.
    apply db_ok_update_user; [exact Hok|].
    exact (fetched_permissions db _ user Hok Hfound).
  - unfold Admin.delete_user. run_handler.
    destruct (Dependencies.require_permission _ now token db) as [caller|];
      [|exact Hok]. simpl.
    destruct (User.id caller =? user_id); [exact Hok|]. simpl.
    destruct (first _ (users db)) as [user|] eqn:Hfound; [|exact Hok]. simpl.
    apply db_ok_delete_user_row, Hok.
Qed.

(** Every request leaves a well-formed database well-formed. *)
Lemma serve_keeps_db_ok (now : Z) (req : Request) (db : DB) :
  db_ok db → db_ok (serve now req db).
Proof.
  intros Hok. destruct req; simpl.
  - apply signup_keeps_db_ok, Hok.
  - apply login_keeps_db_ok, Hok.
  - apply firebase_login_keeps_db_ok, Hok.
  - apply (one_time_token_keeps_db_ok token "" now db Hok).
  - apply forgot_password_keeps_db_ok, Hok.
  - apply (one_time_token_keeps_db_ok token new_password now db Hok).
  - rewrite refresh_token_reads_only. exact Hok.
  - apply logout_keeps_db_ok, Hok.
  - apply (users_router_keeps_db_ok token now db name phone "" "" Hok).
  - apply (users_router_keeps_db_ok token now db None None
             current_password new_password Hok).
  - apply (users_router_keeps_db_ok token now db None None "" "" Hok).
  - apply (admin_router_keeps_db_ok token now db user_id role [] true Hok).
  - apply (admin_router_keeps_db_ok token now db user_id USER permission_names true Hok).
  - apply (admin_router_keeps_db_ok token now db user_id USER [] is_active Hok).
  - apply (admin_router_keeps_db_ok token now db user_id USER [] true Hok).
Qed.

Lemma empty_db_ok : db_ok empty_db.
Proof.
  unfold db_ok, users_primary_key, catalog_seeded, empty_db. simpl.
  split; [constructor|]. split; [|split; [|left; reflexivity]].
  - intros u Hu. apply elem_of_nil in Hu. contradiction.
  - intros u p Hu. apply elem_of_nil in Hu. contradiction.
Qed.

(** Hence every database the API can reach from the empty schema is
    well-formed. *)
Lemma reachable_db_ok (history : list (Z * Request)) :
  db_ok (serve_all history empty_db).
Proof.
  unfold serve_all. generalize empty_db_ok. generalize empty_db.
  induction history as [|step history IH]; intros db Hok; simpl.
  - exact Hok.
  - apply IH, serve_keeps_db_ok, Hok.
Qed.

End Served.

(** ** Role change *)

(** Whoever passes a permission gate holds a catalog permission, so in a
    well-formed database the catalog has been seeded. *)
Lemma gate_means_seeded {sec : Security}
    (required : list string) (now : Z) (token : string) (db : DB) (caller : User.t) :
  db_ok db →
  Dependencies.require_permission required now token db = Return caller →
  ∀ n, n ∈ map fst Auth.default_permissions →
       ∃ p, p ∈ permissions db ∧ Permission.name p = n.
Proof.
  intros Hok Hgate.
  pose proof (require_permission_resolves required now token db caller Hgate)
    as Hresolved.
  apply require_permission_holds in Hgate as (perm & _ & Hheld).
  apply list_elem_of_fmap in Hheld as (p & _ & Hp).
  apply (resolved_permissions db now token caller Hok Hresolved) in Hp.
  destruct Hok as (_ & _ & _ & [Hempty|Hseeded]); [|exact Hseeded].
  rewrite Hempty in Hp. apply elem_of_nil in Hp. contradiction.
Qed.

(** C3. For a caller who passes the manage_roles gate and an existing target
    user, the role change stores the new role and replaces the user's
    permissions by the role's bundle: the whole catalog for admin, the catalog
    entries named read, write or manage_users for hr, and for any other role
    the catalog's read permission alone, or nothing if the catalog has none.
    The catalog itself is not changed. In a database the API can reach the
    catalog is seeded, so the names granted to hr are exactly read, write and
    manage_users, and any other role below admin gets one permission, read. *)
Theorem update_user_role_resets_permissions {sec : Security}
    (user_id : Z) (role : UserRole) (token : string) (now : Z) (db : DB)
    (caller user : User.t) :
  Dependencies.require_permission ["manage_roles"] now token db = Return caller →
  first (λ u, User.id u =? user_id) (users db) = Some user →
  ∃ db' user',
    Admin.update_user_role user_id role token now db
    = (Return ("User role updated to " +:+ role_value role), db')
    ∧ first (λ u, User.id u =? user_id) (users db') = Some user'
    ∧ User.role user' = role
    ∧ permissions db' = permissions db
    ∧ (role = ADMIN → User.permissions user' = permissions db)
    ∧ (role = HR →
       (∀ p, p ∈ User.permissions user'
             ↔ p ∈ permissions db
               ∧ Permission.name p ∈ ["read"; "write"; "manage_users"])
       ∧ (db_ok db →
          ∀ n, n ∈ map Permission.name (User.permissions user')
               ↔ n ∈ ["read"; "write"; "manage_users"]))
    ∧ (role ≠ ADMIN → role ≠ HR →
       ((∃ read, read ∈ permissions db ∧ Permission.name read = "read"
                 ∧ User.permissions user' = [read])
        ∨ ((∀ p, p ∈ permissions db → Permission.name p ≠ "read")
           ∧ User.permissions user' = []))
       ∧ (db_ok db →
          ∃ read, read ∈ permissions db ∧ Permission.name read = "read"
                  ∧ User.permissions user' = [read])).
Proof.
  intros Hgate Hfound.
  assert (Hid : User.id user = user_id).
  { apply first_some in Hfound as [_ Hid]. apply Z.eqb_eq. exact Hid. }
  unfold Admin.update_user_role, bind, Depends, query, commit, ret.
  rewrite Hgate, Hfound.
  eexists. eexists.
  split; [reflexivity|].
  split.
  { rewrite first_by_id_update_user, Hfound. simpl. rewrite Hid, Z.eqb_refl.
    reflexivity. }
  split; [reflexivity|]. split; [reflexivity|].
  split; [|split].
  - intros ->. reflexivity.
  - intros ->. simpl.
    assert (Hbundle : ∀ p,
      p ∈ all (name_in ["read"; "write"; "manage_users"]) (permissions db)
      ↔ p ∈ permissions db ∧ Permission.name p ∈ ["read"; "write"; "manage_users"]).
    { intros p. rewrite elem_of_all, name_in_spec. reflexivity. }
    split; [exact Hbundle|].
    intros Hok n. split.
    + intros Hn. apply list_elem_of_fmap in Hn as (p & -> & Hp).
      apply Hbundle in Hp as [_ Hname]. exact Hname.
    + intros Hn.
      destruct (gate_means_seeded ["manage_roles"] now token db caller Hok Hgate n)
        as (p & Hp & Hname).
      { simpl. rewrite !elem_of_cons in Hn. rewrite !elem_of_cons.
        destruct Hn as [->|[->|[->|Hn]]]; auto.
        apply elem_of_nil in Hn. contradiction. }
      apply list_elem_of_fmap. exists p. split; [auto|].
      apply Hbundle. split; [exact Hp|]. rewrite Hname. exact Hn.
  - intros Hadmin Hhr. simpl.
    rewrite (bool_decide_eq_false_2 _ Hadmin), (bool_decide_eq_false_2 _ Hhr).
    destruct (first (λ p, String.eqb (Permission.name p) "read") (permissions db))
      as [read|] eqn:Hread.
    + apply first_some in Hread as [Hin Hname]. apply String.eqb_eq in Hname.
      split; [left|intros _]; exists read; auto.
    + rewrite first_none_iff in Hread. split.
      * right. split; [|reflexivity]. intros p Hp.
        apply String.eqb_neq. apply Hread, Hp.
      * intros Hok.
        destruct (gate_means_seeded ["manage_roles"] now token db caller Hok Hgate
                    "read") as (p & Hp & Hname).
        { simpl. rewrite !elem_of_cons. auto. }
        apply Hread in Hp. rewrite Hname in Hp. discriminate Hp.
Qed.

Lemma update_user_role_resets_permissions_witness :
  ∃ db' user',
    Admin.update_user_role (sec := Sample.security) 3 CANDIDATE "access:alice@example.com:admin" 200 Sample.db
    = (Return "User role updated to candidate", db')
    ∧ first (λ u, User.id u =? 3) (users db') = Some user'
    ∧ User.role user' = CANDIDATE
    ∧ User.permissions user' = [Permission.mk 1 "read" "Can read data"].
Proof.
  destruct (update_user_role_resets_permissions (sec := Sample.security)
              3 CANDIDATE "access:alice@example.com:admin" 200 Sample.db Sample.alice Sample.carol)
    as (db' & user' & Hout & Hrow & Hrole & _).
  - vm_compute. reflexivity.
  - vm_compute. reflexivity.
  - exists db', user'. split; [exact Hout|]. split; [exact Hrow|].
    split; [exact Hrole|].
    vm_compute in Hout. injection Hout as <-.
    vm_compute in Hrow. injection Hrow as <-. reflexivity.
Defined.

(** ** Worked scenarios *)

(** Signup with a body that names no role gives role user and the read
    permission; a second signup with the same e-mail is refused with 400. *)
Example scenario_signup_default_role :
  let body := SignupBody.mk "a@b.com" "A" None None "Abc123" in
  let first_signup :=
    signup_route (sec := Sample.security) (fb := Sample.firebase)
      (schema := Sample.schema) body 10 "t0k3n" empty_db in
  let second_signup :=
    signup_route (sec := Sample.security) (fb := Sample.firebase)
      (schema := Sample.schema) body 20 "t0k3n" (snd first_signup) in
  fst first_signup
  = Return (Token.mk "access:a@b.com:user" (Some "refresh:a@b.com") "bearer")
  ∧ map (λ u, (User.role u, map Permission.name (User.permissions u)))
        (users (snd first_signup)) = [(USER, ["read"])]
  ∧ map UserSession.user_id (user_sessions (snd first_signup)) = [1]
  ∧ fst second_signup
    = Raise (mkHTTPException HTTP_400_BAD_REQUEST "Email already registered")
  ∧ users (snd second_signup) = users (snd first_signup).
Proof. vm_compute. repeat split. Qed.

(** A password without a digit does not reach the handler. *)
Example scenario_signup_weak_password :
  signup_route (sec := Sample.security) (fb := Sample.firebase)
    (schema := Sample.schema)
    (SignupBody.mk "a@b.com" "A" None (Some "admin") "Abcdef") 10 "t0k3n" empty_db
  = (Raise (mkHTTPException HTTP_422_UNPROCESSABLE_ENTITY "value_error"), empty_db).
Proof. vm_compute. reflexivity. Qed.

(** The password is measured in characters, not bytes: five characters in
    eight bytes are too short, and the digits and capitals of other scripts
    count. *)
Example scenario_password_characters :
  code_points "é€" = [233; 8364]%N
  ∧ validate_password (schema := Sample.schema) "Aé1éé" = false
  ∧ validate_password (schema := Sample.schema) "пароль٣Ж" = true
  ∧ validate_password (schema := Sample.schema) "пароль٣ж" = false.
Proof. vm_compute. repeat split. Qed.

(** The address is stored as the e-mail check returns it, and a body whose
    address it refuses does not reach the handler. *)
Example scenario_signup_address :
  parse_UserCreate (schema := Sample.schema)
    (SignupBody.mk "Dave@EXAMPLE.COM" "Dave" None (Some "hr") "Secret1")
  = Some (UserCreate.mk "Dave@example.com" "Dave" None HR "Secret1")
  ∧ signup_route (sec := Sample.security) (fb := Sample.firebase)
      (schema := Sample.schema)
      (SignupBody.mk "dave.example.com" "Dave" None None "Secret1") 10 "t0k3n" empty_db
    = (Raise (mkHTTPException HTTP_422_UNPROCESSABLE_ENTITY "value_error"), empty_db).
Proof. vm_compute. repeat split. Qed.

(** Login, refresh, logout, refresh again: the last refresh is refused. *)
Example scenario_login_refresh_logout :
  let logged_in :=
    Auth.login (sec := Sample.security) None (Some "curl")
      "carol@example.com" "Carol3" 300 Sample.db in
  let logged_out :=
    Auth.logout (sec := Sample.security) "access:carol@example.com:hr" 500
      (snd logged_in) in
  fst logged_in
  = Return (Token.mk "access:carol@example.com:hr"
              (Some "refresh:carol@example.com") "bearer")
  ∧ fst (Auth.refresh_token (sec := Sample.security)
           "refresh:carol@example.com" 400 (snd logged_in))
    = Return (Token.mk "access:carol@example.com:hr" None "bearer")
  ∧ fst logged_out = Return "Successfully logged out"
  ∧ fst (Auth.refresh_token (sec := Sample.security)
           "refresh:carol@example.com" 600 (snd logged_out))
    = Raise (mkHTTPException HTTP_401_UNAUTHORIZED "Invalid or expired refresh token").
Proof. vm_compute. repeat split. Qed.

(** An administrator deactivates a logged-in user: the user's access token
    is answered with 403 from then on, the refresh token still works. *)
Example scenario_deactivate_then_refresh :
  let logged_in :=
    Auth.login (sec := Sample.security) None None
      "carol@example.com" "Carol3" 300 Sample.db in
  let deactivated :=
    Admin.toggle_user_status (sec := Sample.security) 3 false
      "access:alice@example.com:admin" 400 (snd logged_in) in
  fst deactivated = Return "User deactivated successfully"
  ∧ Dependencies.get_current_user (sec := Sample.security)
      500 "access:carol@example.com:hr" (snd deactivated)
    = Raise (mkHTTPException HTTP_403_FORBIDDEN "User account is disabled")
  ∧ fst (Auth.refresh_token (sec := Sample.security)
           "refresh:carol@example.com" 500 (snd deactivated))
    = Return (Token.mk "access:carol@example.com:hr" None "bearer").
Proof. vm_compute. repeat split. Qed.

(** A session past its expiry is not found, though its row is still stored. *)
Example scenario_expired_session :
  Auth.find_valid "refresh:bob@example.com" (CInt 2) 5000 Sample.db = None
  ∧ Auth.find_valid "refresh:bob@example.com" (CInt 2) 4999 Sample.db
    = Some (UserSession.mk 2 2 "refresh:bob@example.com" 5000 120 None None).
Proof. vm_compute. repeat split. Qed.

(** * Further properties of the handlers *)

(** ** The role gate and the resolved user *)

(** The gate built by [require_role] lets a resolved user through exactly
    when the user's role is one of the allowed roles; otherwise it raises
    403. With no allowed role it lets nobody through. *)
Theorem require_role_membership {sec : Security}
    (allowed_roles : list UserRole) (now : Z) (token : string) (db : DB)
    (current_user : User.t) :
  Dependencies.get_current_active_user now token db = Return current_user →
  (Dependencies.require_role allowed_roles now token db = Return current_user
   ↔ User.role current_user ∈ allowed_roles)
  ∧ (User.role current_user ∉ allowed_roles →
     ∃ e, Dependencies.require_role allowed_roles now token db = Raise e
          ∧ status_code e = HTTP_403_FORBIDDEN).
Proof.
  intros Hresolved. unfold Dependencies.require_role. rewrite Hresolved.
  destruct (bool_decide_reflect (User.role current_user ∈ allowed_roles)) as [Hin|Hout];
    simpl.
  - split; [split; auto|]. intros Hno. contradiction.
  - split; [split; [discriminate|contradiction]|].
    intros _. eexists. split; reflexivity.
Qed.

Lemma require_role_membership_witness :
  Dependencies.require_role (sec := Sample.security) [ADMIN; HR]
    200 "access:carol@example.com:hr" Sample.db = Return Sample.carol
  ∧ ∃ e, Dependencies.require_role (sec := Sample.security) [ADMIN]
           200 "access:carol@example.com:hr" Sample.db = Raise e
         ∧ status_code e = HTTP_403_FORBIDDEN.
Proof.
  split.
  - apply (require_role_membership (sec := Sample.security) [ADMIN; HR]
             200 "access:carol@example.com:hr" Sample.db Sample.carol).
    + vm_compute. reflexivity.
    + simpl. rewrite !elem_of_cons. auto.
  - apply (require_role_membership (sec := Sample.security) [ADMIN]
             200 "access:carol@example.com:hr" Sample.db Sample.carol).
    + vm_compute. reflexivity.
    + simpl. rewrite elem_of_cons, elem_of_nil. intros [H|[]]. discriminate H.
Defined.

(** Whatever user [get_current_user] returns is a stored, active user whose
    e-mail is the string in the subject claim of a decoded access token. *)
Theorem get_current_user_is_the_subject {sec : Security}
    (now : Z) (token : string) (db : DB) (user : User.t) :
  Dependencies.get_current_user now token db = Return user →
  ∃ payload,
    decode_token now token = Some payload
    ∧ dict_get payload "type" = CStr "access"
    ∧ dict_get payload "sub" = CStr (User.email user)
    ∧ user ∈ users db
    ∧ User.is_active user = true.
Proof.
  unfold Dependencies.get_current_user.
  destruct (decode_token now token) as [payload|]; [|discriminate].
  destruct (bool_decide_reflect (dict_get payload "type" = CStr "access")) as [Hty|];
    [|discriminate].
  simpl. intros Hret. exists payload. split; [reflexivity|]. split; [exact Hty|].
  destruct (dict_get payload "sub") as [|s|z]; [discriminate| |].
  - destruct (first _ (users db)) as [found|] eqn:Hfound; [|discriminate].
    destruct (User.is_active found) eqn:Hactive; [|discriminate].
    simpl in Hret. injection Hret as <-.
    apply first_some in Hfound as [Hin Hmatch]. simpl in Hmatch.
    apply String.eqb_eq in Hmatch. rewrite Hmatch. auto.
  - destruct (first _ (users db)) as [found|] eqn:Hfound; [|discriminate].
    apply first_some in Hfound as [_ Hmatch]. discriminate Hmatch.
Qed.

Lemma get_current_user_is_the_subject_witness :
  ∃ payload,
    decode_token (Security := Sample.security) 200 "access:alice@example.com:admin"
    = Some payload
    ∧ dict_get payload "sub" = CStr "alice@example.com".
Proof.
  destruct (get_current_user_is_the_subject (sec := Sample.security)
              200 "access:alice@example.com:admin" Sample.db Sample.alice)
    as (payload & Hdec & _ & Hsub & _).
  - vm_compute. reflexivity.
  - exists payload. split; [exact Hdec|exact Hsub].
Defined.

(** ** Seeding the permission catalog *)

Section SeedingMore.
Context {sec : Security} {fb : Firebase}.

Lemma seed_permission_present_id (db : DB) (perm_data : string * string) :
  (∃ p, p ∈ permissions db ∧ Permission.name p = fst perm_data) →
  Auth.seed_permission db perm_data = db.
Proof.
  intros (p & Hp & Hname). unfold Auth.seed_permission.
  destruct (first_is_some (λ q, String.eqb (Permission.name q) (fst perm_data))
              (permissions db) p Hp) as (q & ->); [|reflexivity].
  rewrite Hname. apply String.eqb_refl.
Qed.

Lemma seeding_fixed (defaults : list (string * string)) (db : DB) :
  (∀ n, n ∈ map fst defaults → ∃ p, p ∈ permissions db ∧ Permission.name p = n) →
  fold_left Auth.seed_permission defaults db = db.
Proof.
  induction defaults as [|d defaults IH]; intros Hall; [reflexivity|]. simpl.
  rewrite seed_permission_present_id by (apply Hall; left).
  apply IH. intros n Hn. apply Hall. right. exact Hn.
Qed.

Lemma seed_permission_names (db : DB) (perm_data : string * string) :
  NoDup (map Permission.name (permissions db)) →
  NoDup (map Permission.name (permissions (Auth.seed_permission db perm_data))).
Proof.
  intros Hnd. unfold Auth.seed_permission.
  destruct (first _ (permissions db)) eqn:Hfirst; [exact Hnd|].
  simpl. rewrite map_app. simpl. apply NoDup_app. split; [exact Hnd|].
  split; [|apply NoDup_singleton].
  intros n Hn Hnew. apply list_elem_of_singleton in Hnew as ->.
  apply list_elem_of_fmap in Hn as (p & Hname & Hp).
  rewrite first_none_iff in Hfirst. apply Hfirst in Hp.
  rewrite <- Hname, String.eqb_refl in Hp. discriminate Hp.
Qed.

Lemma seed_permission_prefix (db : DB) (perm_data : string * string) :
  ∃ added, permissions (Auth.seed_permission db perm_data)
           = (permissions db ++ added)%list.
Proof.
  unfold Auth.seed_permission. destruct (first _ (permissions db)).
  - exists []. rewrite app_nil_r. reflexivity.
  - eexists. reflexivity.
Qed.

Lemma seeding_names (defaults : list (string * string)) (db : DB) :
  NoDup (map Permission.name (permissions db)) →
  NoDup (map Permission.name
           (permissions (fold_left Auth.seed_permission defaults db))).
Proof.
  revert db. induction defaults as [|d defaults IH]; intros db Hnd; simpl.
  - exact Hnd.
  - apply IH, seed_permission_names, Hnd.
Qed.

Lemma seeding_prefix (defaults : list (string * string)) (db : DB) :
  ∃ added, permissions (fold_left Auth.seed_permission defaults db)
           = (permissions db ++ added)%list.
Proof.
  revert db. induction defaults as [|d defaults IH]; intros db; simpl.
  - exists []. rewrite app_nil_r. reflexivity.
  - destruct (IH (Auth.seed_permission db d)) as (added' & ->).
    destruct (seed_permission_prefix db d) as (added & ->).
    exists (added ++ added')%list. rewrite app_assoc. reflexivity.
Qed.

End SeedingMore.

(** [init_default_permissions] touches nothing but the catalog, keeps the
    catalog rows it finds in place and only appends; afterwards every default
    name is present, so running it again changes nothing; and it never puts a
    second row of one name into a catalog whose names were distinct. *)
Theorem init_default_permissions_is_an_upsert (db : DB) :
  NoDup (map Permission.name (permissions db)) →
  ∃ seeded added,
    Auth.init_default_permissions db = (Return tt, seeded)
    ∧ users seeded = users db
    ∧ user_sessions seeded = user_sessions db
    ∧ permissions seeded = (permissions db ++ added)%list
    ∧ (∀ n, n ∈ ["read"; "write"; "delete"; "manage_users"; "manage_roles"] →
            ∃ p, p ∈ permissions seeded ∧ Permission.name p = n)
    ∧ NoDup (map Permission.name (permissions seeded))
    ∧ Auth.init_default_permissions seeded = (Return tt, seeded).
Proof.
  intros Hnd. unfold Auth.init_default_permissions, commit.
  destruct (seeding_prefix Auth.default_permissions db) as (added & Hprefix).
  destruct (seeding_frame Auth.default_permissions db) as (Hu & Hs & _).
  exists (fold_left Auth.seed_permission Auth.default_permissions db), added.
  split; [reflexivity|]. split; [exact Hu|]. split; [exact Hs|].
  split; [exact Hprefix|].
  split; [intros n Hn; apply seeding_present, Hn|].
  split; [apply seeding_names, Hnd|].
  rewrite seeding_fixed; [reflexivity|].
  intros n Hn. apply seeding_present, Hn.
Qed.

Lemma init_default_permissions_is_an_upsert_witness :
  ∃ seeded,
    Auth.init_default_permissions
      (mkDB [] [Permission.mk 7 "write" "legacy"] [] 1 8 1) = (Return tt, seeded)
    ∧ map Permission.name (permissions seeded)
      = ["write"; "read"; "delete"; "manage_users"; "manage_roles"]
    ∧ Auth.init_default_permissions seeded = (Return tt, seeded).
Proof.
  destruct (init_default_permissions_is_an_upsert
              (mkDB [] [Permission.mk 7 "write" "legacy"] [] 1 8 1))
    as (seeded & added & Hrun & _ & _ & _ & _ & _ & Hagain).
  - simpl. apply NoDup_singleton.
  - exists seeded. split; [exact Hrun|]. split; [|exact Hagain].
    vm_compute in Hrun. injection Hrun as <-. reflexivity.
Defined.

(** ** Signup *)

(** What a signup with an unregistered e-mail stores and returns. *)
Lemma signup_fresh_shape {sec : Security} {fb : Firebase}
    (user_data : UserCreate.t) (now : Z) (verification_token : string) (db : DB) :
  first (λ u, String.eqb (User.email u) (UserCreate.email user_data)) (users db) = None →
  ∃ db' user,
    Auth.signup user_data now verification_token db
    = (Return (Token.mk (create_access_token now (access_claims user))
                 (Some (create_refresh_token now (refresh_claims user))) "bearer"),
       db')
    ∧ users db' = (users db ++ [user])%list
    ∧ user_sessions db'
      = (user_sessions db
         ++ [UserSession.mk (user_sessions_autoinc db) (User.id user)
               (create_refresh_token now (refresh_claims user))
               (now + days 7) now None None])%list
    ∧ permissions db'
      = permissions (fold_left Auth.seed_permission Auth.default_permissions db)
    ∧ User.id user = users_autoinc db
    ∧ User.email user = UserCreate.email user_data
    ∧ User.role user = UserCreate.role user_data
    ∧ User.is_active user = true
    ∧ User.is_email_verified user = false
    ∧ User.email_verification_token user = Some (hash_token verification_token)
    ∧ User.email_verification_expire user = Some (now + hours 24)
    ∧ User.permissions user
      = (if role_is (UserCreate.role user_data) "admin" then permissions db'
         else if role_is (UserCreate.role user_data) "hr"
         then all (name_in ["read"; "write"; "manage_users"]) (permissions db')
         else match first (λ p, String.eqb (Permission.name p) "read")
                      (permissions db') with
              | Some permission => [permission]
              | None => []
              end).
Proof.
  intros Hfresh.
  unfold Auth.signup, Auth.init_default_permissions, bind, commit, query, ret.
  set (seeded := fold_left Auth.seed_permission Auth.default_permissions db).
  destruct (seeding_frame Auth.default_permissions db) as (Hu & Hs & Hua & Hsa).
  fold seeded in Hu, Hs, Hua, Hsa.
  rewrite Hu, Hfresh.
  eexists. eexists. split; [reflexivity|].
  destruct (create_firebase_user _ _ _) as [uid|];
    [destruct (String.eqb uid "")|]; simpl; rewrite ?Hu, ?Hs, ?Hua, ?Hsa;
    repeat split.
Qed.

(** A signup with an e-mail that is already registered is refused with 400
    and adds no user and no session; only the permission catalog may have
    been seeded by then. *)
Theorem signup_conflict {sec : Security} {fb : Firebase}
    (user_data : UserCreate.t) (now : Z) (verification_token : string) (db : DB)
    (existing_user : User.t) :
  first (λ u, String.eqb (User.email u) (UserCreate.email user_data)) (users db)
  = Some existing_user →
  ∃ db',
    Auth.signup user_data now verification_token db
    = (Raise (mkHTTPException HTTP_400_BAD_REQUEST "Email already registered"), db')
    ∧ users db' = users db
    ∧ user_sessions db' = user_sessions db
    ∧ users_autoinc db' = users_autoinc db
    ∧ (∀ p, p ∈ permissions db → p ∈ permissions db').
Proof.
  intros Hexisting.
  unfold Auth.signup, Auth.init_default_permissions, bind, commit, query, raise.
  set (seeded := fold_left Auth.seed_permission Auth.default_permissions db).
  destruct (seeding_frame Auth.default_permissions db) as (Hu & Hs & Hua & _).
  fold seeded in Hu, Hs, Hua.
  rewrite Hu, Hexisting. exists seeded. split; [reflexivity|].
  split; [exact Hu|]. split; [exact Hs|]. split; [exact Hua|].
  intros p Hp. apply seeding_keeps, Hp.
Qed.

Lemma signup_conflict_witness :
  ∃ db',
    Auth.signup (sec := Sample.security) (fb := Sample.firebase)
      (UserCreate.mk "bob@example.com" "Robert" None ADMIN "Secret1") 300 "v" Sample.db
    = (Raise (mkHTTPException HTTP_400_BAD_REQUEST "Email already registered"), db')
    ∧ users db' = users Sample.db.
Proof.
  destruct (signup_conflict (sec := Sample.security) (fb := Sample.firebase)
              (UserCreate.mk "bob@example.com" "Robert" None ADMIN "Secret1")
              300 "v" Sample.db Sample.bob) as (db' & Hout & Husers & _).
  - vm_compute. reflexivity.
  - exists db'. split; [exact Hout|exact Husers].
Defined.

(** Because signup seeds the catalog first, the role's bundle is never short:
    a new hr user holds permissions named exactly read, write and
    manage_users, and a new user of any role but admin and hr holds one
    permission, named read. The account starts active and unverified. *)
Theorem signup_default_bundle {sec : Security} {fb : Firebase}
    (user_data : UserCreate.t) (now : Z) (verification_token : string) (db : DB) :
  first (λ u, String.eqb (User.email u) (UserCreate.email user_data)) (users db) = None →
  ∃ db' user tokens,
    Auth.signup user_data now verification_token db = (Return tokens, db')
    ∧ users db' = (users db ++ [user])%list
    ∧ User.role user = UserCreate.role user_data
    ∧ User.is_active user = true
    ∧ User.is_email_verified user = false
    ∧ (UserCreate.role user_data = HR →
       ∀ n, n ∈ map Permission.name (User.permissions user)
            ↔ n ∈ ["read"; "write"; "manage_users"])
    ∧ (UserCreate.role user_data = USER ∨ UserCreate.role user_data = CANDIDATE →
       ∃ read, User.permissions user = [read] ∧ Permission.name read = "read"
               ∧ read ∈ permissions db').
Proof.
  intros Hfresh.
  destruct (signup_fresh_shape user_data now verification_token db Hfresh)
    as (db' & user & Hout & Husers & _ & Hcat & _ & _ & Hrole & Hactive & Hverified
        & _ & _ & Hperms).
  exists db', user. eexists. split; [exact Hout|].
  split; [exact Husers|]. split; [exact Hrole|]. split; [exact Hactive|].
  split; [exact Hverified|].
  assert (Hseeded : ∀ n, n ∈ map fst Auth.default_permissions →
            ∃ p, p ∈ permissions db' ∧ Permission.name p = n).
  { intros n Hn. rewrite Hcat. apply seeding_present, Hn. }
  split.
  - intros Hhr n. rewrite Hperms, Hhr. simpl. split.
    + intros Hn. apply list_elem_of_fmap in Hn as (p & -> & Hp).
      apply elem_of_all in Hp as [_ Hp]. apply name_in_spec in Hp. exact Hp.
    + intros Hn. destruct (Hseeded n) as (p & Hp & Hname).
      { simpl. rewrite !elem_of_cons in Hn. rewrite !elem_of_cons.
        destruct Hn as [->|[->|[->|Hn]]]; auto.
        apply elem_of_nil in Hn. contradiction. }
      apply list_elem_of_fmap. exists p. split; [auto|].
      apply elem_of_all. split; [exact Hp|]. apply name_in_spec.
      rewrite Hname. exact Hn.
  - intros Hother.
    assert (Hbranch : role_is (UserCreate.role user_data) "admin" = false
                      ∧ role_is (UserCreate.role user_data) "hr" = false).
    { destruct Hother as [-> | ->]; split; reflexivity. }
    destruct Hbranch as [Hadmin Hhr]. rewrite Hadmin, Hhr in Hperms.
    destruct (first _ (permissions db')) as [read|] eqn:Hread.
    + apply first_some in Hread as [Hin Hname]. apply String.eqb_eq in Hname.
      exists read. auto.
    + exfalso. destruct (Hseeded "read") as (p & Hp & Hname).
      { simpl. rewrite !elem_of_cons. auto. }
      rewrite first_none_iff in Hread. apply Hread in Hp.
      rewrite Hname in Hp. discriminate Hp.
Qed.

Lemma signup_default_bundle_witness :
  ∃ db' user tokens,
    Auth.signup (sec := Sample.security) (fb := Sample.firebase)
      (UserCreate.mk "dave@example.com" "Dave" None HR "Secret1") 300 "v" empty_db
    = (Return tokens, db')
    ∧ users db' = [user]
    ∧ map Permission.name (User.permissions user) = ["read"; "write"; "manage_users"].
Proof.
  destruct (signup_default_bundle (sec := Sample.security) (fb := Sample.firebase)
              (UserCreate.mk "dave@example.com" "Dave" None HR "Secret1")
              300 "v" empty_db) as (db' & user & tokens & Hout & Husers & _).
  - reflexivity.
  - exists db', user, tokens. split; [exact Hout|]. split; [exact Husers|].
    vm_compute in Hout. injection Hout as <- <-.
    vm_compute in Husers. injection Husers as <-. reflexivity.
Defined.

(** ** Tokens that were just issued *)

Lemma first_map_stable {A : Type} (P : A → bool) (f : A → A) (rows : list A) :
  (∀ r, r ∈ rows → P (f r) = P r) →
  first P (map f rows) = f <$> first P rows.
Proof.
  unfold first. induction rows as [|r rows IH]; intros Hstable; [reflexivity|].
  simpl. rewrite (Hstable r) by left.
  destruct (P r); [reflexivity|]. apply IH. intros x Hx. apply Hstable. right. exact Hx.
Qed.

(** Under the primary key, rewriting one row without changing what a filter
    sees of it commutes with the query. *)
Lemma first_replace_stable (P : User.t → bool) (target u' : User.t) (db : DB) :
  users_primary_key db → target ∈ users db →
  P u' = P target →
  first P (map (λ r, if User.id r =? User.id target then u' else r) (users db))
  = (λ r, if User.id r =? User.id target then u' else r) <$> first P (users db).
Proof.
  intros Hpk Htarget HP. apply first_map_stable. intros r Hr.
  destruct (User.id r =? User.id target) eqn:Hid; [|reflexivity].
  apply Z.eqb_eq in Hid.
  rewrite (primary_key_unique db r target Hpk Hr Htarget Hid). exact HP.
Qed.

Lemma first_app_fresh {A : Type} (P : A → bool) (rows : list A) (x : A) :
  first P rows = None → P x = true → first P (rows ++ [x]) = Some x.
Proof.
  unfold first. intros Hnone Hx. induction rows as [|r rows IH]; simpl in *.
  - rewrite Hx. reflexivity.
  - destruct (P r); [discriminate|]. apply IH, Hnone.
Qed.

Lemma first_by_id_of_member (db : DB) (user : User.t) :
  users_primary_key db → user ∈ users db →
  first (λ u, User.id u =? User.id user) (users db) = Some user.
Proof.
  intros Hpk Hin.
  destruct (first_is_some (λ u, User.id u =? User.id user) (users db) user Hin)
    as (found & Hfound); [apply Z.eqb_refl|].
  rewrite Hfound. apply first_some in Hfound as [Hfin Hid]. apply Z.eqb_eq in Hid.
  rewrite (primary_key_unique db found user Hpk Hfin Hin Hid). reflexivity.
Qed.

(** The refresh endpoint answers with a new access token as soon as some
    stored session carries the token, belongs to the user named by the
    token's claim and has not expired. *)
Lemma refresh_succeeds {sec : Security}
    (refresh_token : string) (now : Z) (db : DB)
    (payload : gmap string Claim) (session : UserSession.t) (user : User.t) :
  decode_token now refresh_token = Some payload →
  dict_get payload "type" = CStr "refresh" →
  dict_get payload "user_id" = CInt (User.id user) →
  session ∈ user_sessions db →
  UserSession.refresh_token session = refresh_token →
  UserSession.user_id session = User.id user →
  now < UserSession.expires_at session →
  first (λ u, User.id u =? User.id user) (users db) = Some user →
  Auth.refresh_token refresh_token now db
  = (Return (Token.mk (create_access_token now (access_claims user)) None "bearer"), db).
Proof.
  intros Hdec Hty Huid Hin Htok Howner Hlive Huser.
  unfold Auth.refresh_token. rewrite Hdec.
  assert (Hnonempty : payload ≠ ∅).
  { intros ->. rewrite dict_get_empty in Hty. discriminate. }
  rewrite (bool_decide_eq_false_2 _ Hnonempty), (bool_decide_eq_true_2 _ Hty).
  simpl. unfold bind, query. rewrite Huid.
  destruct (first_is_some
              (λ s, String.eqb (UserSession.refresh_token s) refresh_token
                    && int_column_eq (UserSession.user_id s) (CInt (User.id user))
                    && (now <? UserSession.expires_at s))
              (user_sessions db) session Hin) as (found & Hfound).
  { simpl. rewrite Htok, String.eqb_refl, Howner, Z.eqb_refl. simpl.
    apply Z.ltb_lt. exact Hlive. }
  unfold Auth.find_valid. rewrite Hfound.
  apply first_some in Hfound as [_ Hmatch]. simpl in Hmatch.
  apply andb_true_iff in Hmatch as [Hmatch _].
  apply andb_true_iff in Hmatch as [_ Hid]. apply Z.eqb_eq in Hid.
  unfold session_user. rewrite Hid, Huser. reflexivity.
Qed.

(** The tokens returned by a signup work at once. If the access token
    decodes to an access payload whose subject is the signup e-mail, it
    resolves to the new account; if the refresh token decodes to a refresh
    payload naming the new account's id, it is honoured until seven days
    after the signup. *)
Theorem signup_tokens_work {sec : Security} {fb : Firebase}
    (user_data : UserCreate.t) (now : Z) (verification_token : string) (db db' : DB)
    (tokens : Token.t) :
  db_ok db →
  first (λ u, String.eqb (User.email u) (UserCreate.email user_data)) (users db) = None →
  Auth.signup user_data now verification_token db = (Return tokens, db') →
  ∃ user refresh_token,
    users db' = (users db ++ [user])%list
    ∧ User.email user = UserCreate.email user_data
    ∧ User.id user = users_autoinc db
    ∧ Token.refresh_token tokens = Some refresh_token
    ∧ (∀ later payload,
         decode_token later (Token.access_token tokens) = Some payload →
         dict_get payload "type" = CStr "access" →
         dict_get payload "sub" = CStr (UserCreate.email user_data) →
         Dependencies.get_current_user later (Token.access_token tokens) db'
         = Return user)
    ∧ (∀ later payload,
         decode_token later refresh_token = Some payload →
         dict_get payload "type" = CStr "refresh" →
         dict_get payload "user_id" = CInt (users_autoinc db) →
         later < now + days 7 →
         Auth.refresh_token refresh_token later db'
         = (Return (Token.mk (create_access_token later (access_claims user))
                      None "bearer"), db')).
Proof.
  intros Hok Hfresh Hsignup.
  destruct (signup_fresh_shape user_data now verification_token db Hfresh)
    as (db1 & user & Hout & Husers & Hsessions & _ & Hid & Hemail & _ & Hactive & _).
  rewrite Hout in Hsignup. injection Hsignup as <- <-.
  exists user, (create_refresh_token now (refresh_claims user)).
  split; [exact Husers|]. split; [exact Hemail|]. split; [exact Hid|].
  split; [reflexivity|]. split.
  - intros later payload Hdec Hty Hsub.
    cbn [Token.access_token] in Hdec |- *.
    unfold Dependencies.get_current_user. rewrite Hdec.
    rewrite (bool_decide_eq_true_2 _ Hty), Hsub. simpl. rewrite Husers.
    rewrite (first_app_fresh _ (users db) user Hfresh)
      by (rewrite Hemail; apply String.eqb_refl).
    rewrite Hactive. reflexivity.
  - intros later payload Hdec Hty Huid Hlive.
    apply (refresh_succeeds _ later db1 payload
             (UserSession.mk (user_sessions_autoinc db) (User.id user)
                (create_refresh_token now (refresh_claims user))
                (now + days 7) now None None) user);
      try reflexivity; try assumption.
    + rewrite Hid. exact Huid.
    + rewrite Hsessions. apply elem_of_app. right. left.
    + rewrite Husers. apply first_app_fresh; [|apply Z.eqb_refl].
      apply first_none_iff. intros u Hu. apply Z.eqb_neq.
      destruct Hok as (_ & Hbelow & _). apply Hbelow in Hu. lia.
Qed.

Lemma signup_tokens_work_witness :
  ∃ db' user,
    users db' = [user]
    ∧ Dependencies.get_current_user (sec := Sample.security)
        50 "access:alice@example.com:admin" db' = Return user
    ∧ Auth.refresh_token (sec := Sample.security) "refresh:alice@example.com" 50 db'
      = (Return (Token.mk "access:alice@example.com:admin" None "bearer"), db').
Proof.
  set (signed_up :=
         Auth.signup (sec := Sample.security) (fb := Sample.firebase)
           (UserCreate.mk "alice@example.com" "Alice" None ADMIN "Alice1")
           10 "v" empty_db).
  destruct (signup_tokens_work (sec := Sample.security) (fb := Sample.firebase)
              (UserCreate.mk "alice@example.com" "Alice" None ADMIN "Alice1")
              10 "v" empty_db (snd signed_up)
              (Token.mk "access:alice@example.com:admin"
                 (Some "refresh:alice@example.com") "bearer"))
    as (user & rt & Husers & _ & _ & Hrt & Haccess & Hrefresh).
  - apply empty_db_ok.
  - reflexivity.
  - vm_compute. reflexivity.
  - exists (snd signed_up), user. split; [exact Husers|].
    injection Hrt as <-. split.
    + apply (Haccess 50 (Sample.claims "access" "alice@example.com" 1));
        vm_compute; reflexivity.
    + vm_compute in Husers. injection Husers as <-.
      apply (Hrefresh 50 (Sample.claims "refresh" "alice@example.com" 1));
        vm_compute; reflexivity.
Defined.

(** ** Login *)

(** The three outcomes of a login. It returns tokens exactly when the e-mail
    names a user, the password verifies and the account is active; a correct
    password on a disabled account gives 403; every failure is a 401 or a 403
    and leaves the database untouched. The password is checked before the
    active flag, so a wrong password on a disabled account gives 401. *)
Theorem login_outcomes {sec : Security}
    (ip_address user_agent : option string) (username password : string)
    (now : Z) (db : DB) :
  ((∃ tokens, fst (Auth.login ip_address user_agent username password now db)
              = Return tokens)
   ↔ ∃ user, first (λ u, String.eqb (User.email u) username) (users db) = Some user
             ∧ verify_password password (User.hashed_password user) = true
             ∧ User.is_active user = true)
  ∧ (∀ user, first (λ u, String.eqb (User.email u) username) (users db) = Some user →
       verify_password password (User.hashed_password user) = true →
       User.is_active user = false →
       Auth.login ip_address user_agent username password now db
       = (Raise (mkHTTPException HTTP_403_FORBIDDEN "Account is disabled"), db))
  ∧ (∀ user, first (λ u, String.eqb (User.email u) username) (users db) = Some user →
       verify_password password (User.hashed_password user) = false →
       Auth.login ip_address user_agent username password now db
       = (Raise (mkHTTPException HTTP_401_UNAUTHORIZED "Incorrect email or password"),
          db))
  ∧ (∀ e, fst (Auth.login ip_address user_agent username password now db) = Raise e →
       snd (Auth.login ip_address user_agent username password now db) = db
       ∧ (status_code e = HTTP_401_UNAUTHORIZED ∨ status_code e = HTTP_403_FORBIDDEN)).
Proof.
  unfold Auth.login, bind, query, commit, ret, raise.
  destruct (first _ (users db)) as [user|] eqn:Hfound.
  - destruct (verify_password password (User.hashed_password user)) eqn:Hverify;
      destruct (User.is_active user) eqn:Hactive; simpl.
    + split; [split; [intros _; exists user; auto|intros _; eauto]|].
      split; [intros u [= <-] _ Hno; congruence|].
      split; [intros u [= <-] Hno; congruence|]. intros e He. discriminate He.
    + split; [split; [intros (t & Ht); discriminate Ht
                     |intros (u & [= <-] & _ & Hyes); congruence]|].
      split; [reflexivity|]. split; [intros u [= <-] Hno; congruence|].
      intros e [= <-]. auto.
    + split; [split; [intros (t & Ht); discriminate Ht
                     |intros (u & [= <-] & Hyes & _); congruence]|].
      split; [intros u [= <-] Hyes; congruence|]. split; [reflexivity|].
      intros e [= <-]. auto.
    + split; [split; [intros (t & Ht); discriminate Ht
                     |intros (u & [= <-] & Hyes & _); congruence]|].
      split; [intros u [= <-] Hyes; congruence|]. split; [reflexivity|].
      intros e [= <-]. auto.
  - simpl. split; [split; [intros (t & Ht); discriminate Ht
                          |intros (u & Hu & _); discriminate Hu]|].
    split; [intros u Hu; discriminate Hu|]. split; [intros u Hu; discriminate Hu|].
    intros e [= <-]. auto.
Qed.

Lemma login_outcomes_witness :
  Auth.login (sec := Sample.security) None None "bob@example.com" "Bobby2" 200 Sample.db
  = (Raise (mkHTTPException HTTP_403_FORBIDDEN "Account is disabled"), Sample.db)
  ∧ Auth.login (sec := Sample.security) None None "bob@example.com" "guess" 200 Sample.db
    = (Raise (mkHTTPException HTTP_401_UNAUTHORIZED "Incorrect email or password"),
       Sample.db).
Proof.
  split.
  - apply (proj1 (proj2 (login_outcomes (sec := Sample.security)
                           None None "bob@example.com" "Bobby2" 200 Sample.db))
             Sample.bob); vm_compute; reflexivity.
  - apply (proj1 (proj2 (proj2 (login_outcomes (sec := Sample.security)
                           None None "bob@example.com" "guess" 200 Sample.db)))
             Sample.bob); vm_compute; reflexivity.
Defined.

(** A successful login stamps [last_login] on the one account, appends one
    session that records the client and expires seven days later, and its
    tokens work at once: the access token, if it decodes to an access payload
    with the account's e-mail as subject, resolves to the account, and the
    refresh token, if it decodes to a refresh payload with the account's id,
    is honoured until the session expires. *)
Theorem login_tokens_work {sec : Security}
    (ip_address user_agent : option string) (username password : string)
    (now : Z) (db db' : DB) (tokens : Token.t) (user : User.t) :
  db_ok db →
  first (λ u, String.eqb (User.email u) username) (users db) = Some user →
  Auth.login ip_address user_agent username password now db = (Return tokens, db') →
  ∃ user' refresh_token,
    users db' = map (λ r, if User.id r =? User.id user then user' else r) (users db)
    ∧ User.last_login user' = Some now
    ∧ User.email user' = User.email user
    ∧ User.role user' = User.role user
    ∧ User.hashed_password user' = User.hashed_password user
    ∧ User.permissions user' = User.permissions user
    ∧ Token.refresh_token tokens = Some refresh_token
    ∧ user_sessions db'
      = (user_sessions db
         ++ [UserSession.mk (user_sessions_autoinc db) (User.id user) refresh_token
               (now + days 7) now ip_address user_agent])%list
    ∧ (∀ later payload,
         decode_token later (Token.access_token tokens) = Some payload →
         dict_get payload "type" = CStr "access" →
         dict_get payload "sub" = CStr (User.email user) →
         Dependencies.get_current_user later (Token.access_token tokens) db'
         = Return user')
    ∧ (∀ later payload,
         decode_token later refresh_token = Some payload →
         dict_get payload "type" = CStr "refresh" →
         dict_get payload "user_id" = CInt (User.id user) →
         later < now + days 7 →
         Auth.refresh_token refresh_token later db'
         = (Return (Token.mk (create_access_token later (access_claims user'))
                      None "bearer"), db')).
Proof.
  intros Hok Hfound Hlogin.
  pose proof Hok as (Hpk & _).
  pose proof (first_elem_of _ _ _ Hfound) as Hin.
  unfold Auth.login, bind, query, commit, ret, raise in Hlogin.
  rewrite Hfound in Hlogin.
  destruct (negb (verify_password password (User.hashed_password user)));
    [discriminate Hlogin|].
  destruct (User.is_active user) eqn:Hactive; [|discriminate Hlogin].
  simpl in Hlogin. injection Hlogin as <- <-.
  set (user' := User.set_updated_at now (User.set_last_login (Some now) user)).
  exists user', (create_refresh_token now (refresh_claims user')).
  repeat (split; [reflexivity|]).
  split.
  - intros later payload Hdec Hty Hsub.
    cbn [Token.access_token] in Hdec |- *.
    unfold Dependencies.get_current_user. rewrite Hdec.
    rewrite (bool_decide_eq_true_2 _ Hty), Hsub. simpl.
    rewrite (first_replace_stable _ user user' db Hpk Hin) by reflexivity.
    assert (Hname : User.email user = username).
    { apply first_some in Hfound as [_ Hname]. apply String.eqb_eq. exact Hname. }
    rewrite Hname, Hfound. simpl. rewrite Z.eqb_refl. simpl.
    rewrite Hactive. reflexivity.
  - intros later payload Hdec Hty Huid Hlive.
    apply (refresh_succeeds _ later _ payload
             (UserSession.mk (user_sessions_autoinc db) (User.id user)
                (create_refresh_token now (refresh_claims user'))
                (now + days 7) now ip_address user_agent) user');
      try reflexivity; try assumption.
    + simpl. apply elem_of_app. right. left.
    + simpl. rewrite (first_by_id_replace (User.id user) (User.id user) user')
        by reflexivity.
      rewrite (first_by_id_of_member db user Hpk Hin). simpl.
      rewrite Z.eqb_refl. reflexivity.
Qed.

Lemma sample_db_ok : db_ok Sample.db.
Proof.
  unfold db_ok, users_primary_key, catalog_seeded. simpl.
  split; [|split; [|split]].
  - repeat (apply NoDup_cons; split; [rewrite ?elem_of_cons, elem_of_nil; lia|]).
    apply NoDup_nil. exact I.
  - intros u Hu. rewrite !elem_of_cons, elem_of_nil in Hu.
    destruct Hu as [->|[->|[->|[]]]]; reflexivity.
  - intros u p Hu Hp. rewrite !elem_of_cons, elem_of_nil in Hu.
    unfold Sample.catalog. rewrite !elem_of_cons.
    destruct Hu as [->|[->|[->|[]]]]; simpl in Hp; unfold Sample.catalog in Hp;
      rewrite ?elem_of_cons, ?elem_of_nil in Hp; intuition auto.
  - right. intros n Hn. rewrite !elem_of_cons, elem_of_nil in Hn.
    unfold Sample.catalog.
    destruct Hn as [->|[->|[->|[->|[->|[]]]]]];
      [ exists (Permission.mk 1 "read" "Can read data")
      | exists (Permission.mk 2 "write" "Can write data")
      | exists (Permission.mk 3 "delete" "Can delete data")
      | exists (Permission.mk 4 "manage_users" "Can manage users")
      | exists (Permission.mk 5 "manage_roles" "Can manage roles") ];
      (split; [rewrite !elem_of_cons; auto 10|reflexivity]).
Qed.

Lemma login_tokens_work_witness :
  ∃ db' user',
    Auth.login (sec := Sample.security) None (Some "curl")
      "carol@example.com" "Carol3" 300 Sample.db
    = (Return (Token.mk "access:carol@example.com:hr"
                 (Some "refresh:carol@example.com") "bearer"), db')
    ∧ User.last_login user' = Some 300
    ∧ Dependencies.get_current_user (sec := Sample.security)
        400 "access:carol@example.com:hr" db' = Return user'
    ∧ Auth.refresh_token (sec := Sample.security) "refresh:carol@example.com" 400 db'
      = (Return (Token.mk "access:carol@example.com:hr" None "bearer"), db').
Proof.
  set (logged_in :=
         Auth.login (sec := Sample.security) None (Some "curl")
           "carol@example.com" "Carol3" 300 Sample.db).
  destruct (login_tokens_work (sec := Sample.security) None (Some "curl")
              "carol@example.com" "Carol3" 300 Sample.db (snd logged_in)
              (Token.mk "access:carol@example.com:hr"
                 (Some "refresh:carol@example.com") "bearer") Sample.carol)
    as (user' & rt & _ & Hlast & Hmail & Hrole & _ & _ & Hrt & _ & Haccess & Hrefresh).
  - apply sample_db_ok.
  - vm_compute. reflexivity.
  - vm_compute. reflexivity.
  - exists (snd logged_in), user'. split; [vm_compute; reflexivity|].
    split; [exact Hlast|]. injection Hrt as <-. split.
    + apply (Haccess 400 (Sample.claims "access" "carol@example.com" 3));
        vm_compute; reflexivity.
    + rewrite (Hrefresh 400 (Sample.claims "refresh" "carol@example.com" 3))
        by (vm_compute; reflexivity).
      unfold access_claims. rewrite Hmail, Hrole. reflexivity.
Defined.

(** ** Refresh *)

(** The refresh endpoint never writes. When it answers with a token, the
    presented token decoded to a refresh payload and a stored session carries
    that very token, belongs to the user named in the payload and expires
    strictly after now; the answer holds a new access token for that
    session's user and no refresh token. When every stored session with the
    presented token has expired, the answer is 401. *)
Theorem refresh_token_sound {sec : Security}
    (refresh_token : string) (now : Z) (db : DB) :
  snd (Auth.refresh_token refresh_token now db) = db
  ∧ (∀ tokens, fst (Auth.refresh_token refresh_token now db) = Return tokens →
       ∃ payload session user,
         decode_token now refresh_token = Some payload
         ∧ dict_get payload "type" = CStr "refresh"
         ∧ session ∈ user_sessions db
         ∧ UserSession.refresh_token session = refresh_token
         ∧ dict_get payload "user_id" = CInt (UserSession.user_id session)
         ∧ now < UserSession.expires_at session
         ∧ user ∈ users db
         ∧ User.id user = UserSession.user_id session
         ∧ tokens = Token.mk (create_access_token now (access_claims user)) None "bearer")
  ∧ ((∀ s, s ∈ user_sessions db → UserSession.refresh_token s = refresh_token →
           UserSession.expires_at s ≤ now) →
     ∃ e, Auth.refresh_token refresh_token now db = (Raise e, db)
          ∧ status_code e = HTTP_401_UNAUTHORIZED).
Proof.
  split; [apply refresh_token_reads_only|].
  unfold Auth.refresh_token.
  destruct (decode_token now refresh_token) as [payload|];
    [|split; [discriminate|intros _; eexists; split; reflexivity]].
  destruct (bool_decide_reflect (payload = ∅)) as [Hempty|Hnonempty]; simpl;
    [split; [discriminate|intros _; eexists; split; reflexivity]|].
  destruct (bool_decide_reflect (dict_get payload "type" = CStr "refresh"))
    as [Hty|Hty]; simpl;
    [|split; [discriminate|intros _; eexists; split; reflexivity]].
  unfold bind, query, ret, raise.
  destruct (Auth.find_valid refresh_token (dict_get payload "user_id") now db)
    as [session|] eqn:Hfound.
  - unfold Auth.find_valid in Hfound. apply first_some in Hfound as [Hin Hmatch].
    apply andb_true_iff in Hmatch as [Hmatch Hlive].
    apply andb_true_iff in Hmatch as [Htok Hid].
    apply String.eqb_eq in Htok. apply Z.ltb_lt in Hlive.
    split.
    + destruct (session_user session db) as [user|] eqn:Huser; [|discriminate].
      simpl. intros tokens [= <-]. exists payload, session, user.
      unfold session_user in Huser. apply first_some in Huser as [Huin Huid].
      apply Z.eqb_eq in Huid.
      destruct (dict_get payload "user_id") as [|s|z]; try discriminate Hid.
      simpl in Hid. apply Z.eqb_eq in Hid. subst z.
      repeat split; auto.
    + intros Hexpired. specialize (Hexpired session Hin Htok). lia.
  - split; [discriminate|]. intros _. eexists. split; reflexivity.
Qed.

Lemma refresh_token_sound_witness :
  ∃ e, Auth.refresh_token (sec := Sample.security) "refresh:bob@example.com" 5000 Sample.db
       = (Raise e, Sample.db)
       ∧ status_code e = HTTP_401_UNAUTHORIZED.
Proof.
  apply (refresh_token_sound (sec := Sample.security)
           "refresh:bob@example.com" 5000 Sample.db).
  intros s Hs Htok. unfold Sample.db, Sample.sessions in Hs. simpl in Hs.
  rewrite !elem_of_cons, elem_of_nil in Hs.
  destruct Hs as [->|[->|[]]]; simpl; lia.
Defined.

(** ** One-time tokens *)

Lemma elem_of_update_user (u' x : User.t) (db : DB) :
  x ∈ users (update_user u' db) →
  (x ∈ users db ∧ User.id x ≠ User.id u') ∨ x = u'.
Proof.
  unfold update_user. simpl. intros Hx.
  apply list_elem_of_fmap in Hx as (r & -> & Hr).
  destruct (User.id r =? User.id u') eqn:Hkey; [right; reflexivity|].
  left. split; [exact Hr|]. apply Z.eqb_neq. exact Hkey.
Qed.

Lemma updated_row_is_stored (u' target : User.t) (db : DB) :
  target ∈ users db → User.id target = User.id u' → u' ∈ users (update_user u' db).
Proof.
  intros Hin Hid. unfold update_user. simpl.
  apply list_elem_of_fmap. exists target. rewrite Hid, Z.eqb_refl. auto.
Qed.

(** A password reset consumes its token: when the stored digest of the token
    belongs to one account, a second reset with the same token is refused
    with 400, at any time and whatever the new password. A token that matches
    no unexpired digest is refused with 400 and nothing is written. *)
Theorem reset_token_single_use {sec : Security}
    (token new_password : string) (now : Z) (db : DB) :
  (first (λ u, Auth.token_matches (User.reset_password_token u)
                 (User.reset_password_expire u) (hash_token token) now)
         (users db) = None →
   Auth.reset_password token new_password now db
   = (Raise (mkHTTPException HTTP_400_BAD_REQUEST "Invalid or expired reset token"), db))
  ∧ (∀ user,
       first (λ u, Auth.token_matches (User.reset_password_token u)
                     (User.reset_password_expire u) (hash_token token) now)
             (users db) = Some user →
       (∀ r, r ∈ users db → User.reset_password_token r = Some (hash_token token) →
             User.id r = User.id user) →
       ∃ db',
         Auth.reset_password token new_password now db
         = (Return "Password reset successfully", db')
         ∧ ∀ again later,
             Auth.reset_password token again later db'
             = (Raise (mkHTTPException HTTP_400_BAD_REQUEST
                         "Invalid or expired reset token"), db')).
Proof.
  split.
  - intros Hnone. unfold Auth.reset_password, bind, query, raise.
    rewrite Hnone. reflexivity.
  - intros user Hfound Hone.
    unfold Auth.reset_password at 1. unfold bind, query, commit, ret.
    rewrite Hfound. eexists. split; [reflexivity|].
    intros again later. unfold Auth.reset_password, bind, query, raise.
    match goal with
    | |- context [first ?P (users ?d)] =>
        assert (Hgone : first P (users d) = None)
    end.
    { apply first_none_iff. intros x Hx.
      apply elem_of_update_user in Hx as [[Hx Hid]| ->].
      - unfold Auth.token_matches.
        destruct (bool_decide_reflect
                    (User.reset_password_token x = Some (hash_token token)))
          as [Hsame|]; [|reflexivity].
        exfalso. apply Hid. simpl. apply Hone; assumption.
      - reflexivity. }
    rewrite Hgone. reflexivity.
Qed.

Lemma reset_token_single_use_witness :
  ∃ db',
    Auth.reset_password (sec := Sample.security) "r3s3t" "NewPass1" 200 Sample.db
    = (Return "Password reset successfully", db')
    ∧ Auth.reset_password (sec := Sample.security) "r3s3t" "Another2" 201 db'
      = (Raise (mkHTTPException HTTP_400_BAD_REQUEST "Invalid or expired reset token"),
         db').
Proof.
  destruct (proj2 (reset_token_single_use (sec := Sample.security)
                     "r3s3t" "NewPass1" 200 Sample.db) Sample.bob)
    as (db' & Hout & Hagain).
  - vm_compute. reflexivity.
  - intros r Hr Htok. unfold Sample.db in Hr. simpl in Hr.
    rewrite !elem_of_cons, elem_of_nil in Hr.
    destruct Hr as [->|[->|[->|[]]]]; [discriminate Htok|reflexivity|discriminate Htok].
  - exists db'. split; [exact Hout|apply Hagain].
Defined.

(** E-mail verification: a token whose digest is stored and unexpired marks
    the first such account verified and clears the stored digest and its
    expiry. The update stamps [updated_at]; every other column of the row,
    every other row, the sessions, the catalog and the counters are as
    before. When the digest belongs to one account the token cannot be used
    again. A token that matches nothing is refused with 400 and nothing is
    written. *)
Theorem verify_email_consumes_token {sec : Security}
    (token : string) (now : Z) (db : DB) :
  (first (λ u, Auth.token_matches (User.email_verification_token u)
                 (User.email_verification_expire u) (hash_token token) now)
         (users db) = None →
   Auth.verify_email token now db
   = (Raise (mkHTTPException HTTP_400_BAD_REQUEST
               "Invalid or expired verification token"), db))
  ∧ (∀ user,
       first (λ u, Auth.token_matches (User.email_verification_token u)
                     (User.email_verification_expire u) (hash_token token) now)
             (users db) = Some user →
       ∃ db' user',
         Auth.verify_email token now db = (Return "Email verified successfully", db')
         ∧ users db'
           = map (λ r, if User.id r =? User.id user then user' else r) (users db)
         ∧ user_sessions db' = user_sessions db
         ∧ User.is_email_verified user' = true
         ∧ User.email_verification_token user' = None
         ∧ User.email_verification_expire user' = None
         ∧ User.id user' = User.id user
         ∧ User.email user' = User.email user
         ∧ User.hashed_password user' = User.hashed_password user
         ∧ User.role user' = User.role user
         ∧ User.is_active user' = User.is_active user
         ∧ User.permissions user' = User.permissions user
         ∧ User.name user' = User.name user
         ∧ User.phone user' = User.phone user
         ∧ User.firebase_uid user' = User.firebase_uid user
         ∧ User.created_at user' = User.created_at user
         ∧ User.last_login user' = User.last_login user
         ∧ User.reset_password_token user' = User.reset_password_token user
         ∧ User.reset_password_expire user' = User.reset_password_expire user
         ∧ User.updated_at user' = now
         ∧ permissions db' = permissions db
         ∧ users_autoinc db' = users_autoinc db
         ∧ permissions_autoinc db' = permissions_autoinc db
         ∧ user_sessions_autoinc db' = user_sessions_autoinc db
         ∧ ((∀ r, r ∈ users db →
                  User.email_verification_token r = Some (hash_token token) →
                  User.id r = User.id user) →
            ∀ later,
              Auth.verify_email token later db'
              = (Raise (mkHTTPException HTTP_400_BAD_REQUEST
                          "Invalid or expired verification token"), db'))).
Proof.
  split.
  - intros Hnone. unfold Auth.verify_email, bind, query, raise.
    rewrite Hnone. reflexivity.
  - intros user Hfound.
    unfold Auth.verify_email at 1. unfold bind, query, commit, ret.
    rewrite Hfound. eexists. eexists. split; [reflexivity|].
    split; [reflexivity|]. repeat (split; [reflexivity|]).
    intros Hone later. unfold Auth.verify_email, bind, query, raise.
    match goal with
    | |- context [first ?P (users ?d)] =>
        assert (Hgone : first P (users d) = None)
    end.
    { apply first_none_iff. intros x Hx.
      apply elem_of_update_user in Hx as [[Hx Hid]| ->].
      - unfold Auth.token_matches.
        destruct (bool_decide_reflect
                    (User.email_verification_token x = Some (hash_token token)))
          as [Hsame|]; [|reflexivity].
        exfalso. apply Hid. simpl. apply Hone; assumption.
      - reflexivity. }
    rewrite Hgone. reflexivity.
Qed.

Lemma verify_email_consumes_token_witness :
  ∃ signed_up db' user',
    Auth.signup (sec := Sample.security) (fb := Sample.firebase)
      (UserCreate.mk "dave@example.com" "Dave" None USER "Secret1") 10 "v" empty_db
    = (Return (Token.mk "access:dave@example.com:user"
                 (Some "refresh:dave@example.com") "bearer"), signed_up)
    ∧ Auth.verify_email (sec := Sample.security) "v" 20 signed_up
      = (Return "Email verified successfully", db')
    ∧ users db' = [user']
    ∧ User.is_email_verified user' = true.
Proof.
  set (signed_up :=
         snd (Auth.signup (sec := Sample.security) (fb := Sample.firebase)
                (UserCreate.mk "dave@example.com" "Dave" None USER "Secret1")
                10 "v" empty_db)).
  assert (Hstored : ∃ user, users signed_up = [user]).
  { eexists. vm_compute. reflexivity. }
  destruct Hstored as (user & Hstored).
  destruct (proj2 (verify_email_consumes_token (sec := Sample.security)
                     "v" 20 signed_up) user)
    as (db' & user' & Hout & Husers & _ & Hverified & _).
  - vm_compute in Hstored. injection Hstored as <-. vm_compute. reflexivity.
  - exists signed_up, db', user'. split; [vm_compute; reflexivity|].
    split; [exact Hout|]. split; [|exact Hverified].
    rewrite Husers, Hstored. simpl. rewrite Z.eqb_refl. reflexivity.
Defined.

Lemma first_app_skip {A : Type} (P : A → bool) (rows : list A) (x : A) :
  first P rows = None → first P (rows ++ [x]) = if P x then Some x else None.
Proof.
  unfold first. intros Hnone. induction rows as [|r rows IH]; simpl in *.
  - reflexivity.
  - destruct (P r); [discriminate|]. apply IH, Hnone.
Qed.

Lemma replace_fresh_key (key : Z) (u' : User.t) (rows : list User.t) :
  (∀ r, r ∈ rows → User.id r ≠ key) →
  map (λ r, if User.id r =? key then u' else r) rows = rows.
Proof.
  induction rows as [|r rows IH]; intros Hfresh; [reflexivity|]. simpl.
  rewrite (proj2 (Z.eqb_neq _ _) (Hfresh r ltac:(left))).
  rewrite IH; [reflexivity|]. intros x Hx. apply Hfresh. right. exact Hx.
Qed.

(** The verification token handed out at signup verifies the new account
    during the next 24 hours and is refused from then on, provided no stored
    account already carries the same digest. *)
Theorem signup_then_verify_email {sec : Security} {fb : Firebase}
    (user_data : UserCreate.t) (now : Z) (verification_token : string) (db db1 : DB)
    (tokens : Token.t) :
  db_ok db →
  first (λ u, String.eqb (User.email u) (UserCreate.email user_data)) (users db) = None →
  (∀ r, r ∈ users db →
        User.email_verification_token r ≠ Some (hash_token verification_token)) →
  Auth.signup user_data now verification_token db = (Return tokens, db1) →
  (∀ later, later < now + hours 24 →
     ∃ db2 verified,
       Auth.verify_email verification_token later db1
       = (Return "Email verified successfully", db2)
       ∧ users db2 = (users db ++ [verified])%list
       ∧ User.email verified = UserCreate.email user_data
       ∧ User.is_email_verified verified = true)
  ∧ (∀ later, now + hours 24 ≤ later →
       Auth.verify_email verification_token later db1
       = (Raise (mkHTTPException HTTP_400_BAD_REQUEST
                   "Invalid or expired verification token"), db1)).
Proof.
  intros Hok Hfresh Hdigest Hsignup.
  destruct (signup_fresh_shape user_data now verification_token db Hfresh)
    as (db' & user & Hout & Husers & _ & _ & Hid & Hemail & _ & _ & _
        & Htoken & Hexpire & _).
  rewrite Hout in Hsignup. injection Hsignup as <- <-.
  assert (Hold : ∀ later,
            first (λ u, Auth.token_matches (User.email_verification_token u)
                          (User.email_verification_expire u)
                          (hash_token verification_token) later) (users db) = None).
  { intros later. apply first_none_iff. intros r Hr. unfold Auth.token_matches.
    rewrite bool_decide_eq_false_2 by (apply Hdigest, Hr). reflexivity. }
  split.
  - intros later Hlive.
    unfold Auth.verify_email, bind, query, commit, ret.
    rewrite Husers, (first_app_skip _ _ _ (Hold later)).
    unfold Auth.token_matches at 1. rewrite Htoken, Hexpire.
    rewrite bool_decide_eq_true_2 by reflexivity.
    rewrite (proj2 (Z.ltb_lt _ _) Hlive). simpl.
    eexists.
    exists (User.set_updated_at later
              (User.set_email_verification_expire None
                 (User.set_email_verification_token None
                    (User.set_is_email_verified true user)))).
    split; [reflexivity|].
    split; [|split; [exact Hemail|reflexivity]].
    simpl. rewrite Husers, map_app. simpl. rewrite Z.eqb_refl.
    rewrite replace_fresh_key; [reflexivity|].
    intros r Hr. destruct Hok as (_ & Hbelow & _). apply Hbelow in Hr. lia.
  - intros later Hlate.
    unfold Auth.verify_email, bind, query, raise.
    rewrite Husers, (first_app_skip _ _ _ (Hold later)).
    unfold Auth.token_matches at 1. rewrite Htoken, Hexpire.
    rewrite (proj2 (Z.ltb_ge _ _) Hlate), andb_false_r. reflexivity.
Qed.

Lemma signup_then_verify_email_witness :
  ∃ db1 db2 verified,
    Auth.verify_email (sec := Sample.security) "v" (10 + hours 24 - 1) db1
    = (Return "Email verified successfully", db2)
    ∧ users db2 = [verified]
    ∧ User.is_email_verified verified = true
    ∧ Auth.verify_email (sec := Sample.security) "v" (10 + hours 24) db1
      = (Raise (mkHTTPException HTTP_400_BAD_REQUEST
                  "Invalid or expired verification token"), db1).
Proof.
  set (signed_up :=
         Auth.signup (sec := Sample.security) (fb := Sample.firebase)
           (UserCreate.mk "dave@example.com" "Dave" None USER "Secret1")
           10 "v" empty_db).
  destruct (signup_then_verify_email (sec := Sample.security) (fb := Sample.firebase)
              (UserCreate.mk "dave@example.com" "Dave" None USER "Secret1")
              10 "v" empty_db (snd signed_up)
              (Token.mk "access:dave@example.com:user"
                 (Some "refresh:dave@example.com") "bearer"))
    as (Hearly & Hlate).
  - apply empty_db_ok.
  - reflexivity.
  - intros r Hr. apply elem_of_nil in Hr. contradiction.
  - vm_compute. reflexivity.
  - destruct (Hearly (10 + hours 24 - 1)) as (db2 & verified & Hout & Husers & _ & Hv);
      [lia|].
    exists (snd signed_up), db2, verified.
    split; [exact Hout|]. split; [exact Husers|]. split; [exact Hv|].
    apply Hlate. lia.
Defined.

(** The forgot-password endpoint gives the same answer whether or not the
    e-mail is registered. For an unknown e-mail it writes nothing; for a
    known one it stores the digest of the reset token with an expiry one hour
    ahead and leaves the password as it is, and a reset with that token
    succeeds during that hour. *)
Theorem forgot_password_then_reset {sec : Security}
    (email : string) (now : Z) (reset_token : string) (db : DB) :
  fst (Auth.forgot_password email now reset_token db)
  = Return "If the email exists, a reset link has been sent"
  ∧ (first (λ u, String.eqb (User.email u) email) (users db) = None →
     snd (Auth.forgot_password email now reset_token db) = db)
  ∧ (∀ user, first (λ u, String.eqb (User.email u) email) (users db) = Some user →
       ∃ db' user',
         snd (Auth.forgot_password email now reset_token db) = db'
         ∧ users db'
           = map (λ r, if User.id r =? User.id user then user' else r) (users db)
         ∧ user_sessions db' = user_sessions db
         ∧ User.reset_password_token user' = Some (hash_token reset_token)
         ∧ User.reset_password_expire user' = Some (now + hours 1)
         ∧ User.hashed_password user' = User.hashed_password user
         ∧ (∀ later new_password, later < now + hours 1 →
              ∃ db'', Auth.reset_password reset_token new_password later db'
                      = (Return "Password reset successfully", db''))).
Proof.
  unfold Auth.forgot_password, bind, query, commit, ret.
  destruct (first _ (users db)) as [user|] eqn:Hfound; simpl.
  - split; [reflexivity|]. split; [discriminate|].
    intros u [= <-]. eexists. eexists. split; [reflexivity|].
    split; [reflexivity|]. repeat (split; [reflexivity|]).
    intros later new_password Hlive.
    unfold Auth.reset_password, bind, query, commit, ret.
    match goal with
    | |- context [first ?P (users ?d)] =>
        destruct (first_is_some P (users d)
                    (User.set_updated_at now
                       (User.set_reset_password_expire (Some (now + hours 1))
                          (User.set_reset_password_token
                             (Some (hash_token reset_token)) user))))
          as (found & Hagain)
    end.
    + apply (updated_row_is_stored _ user); [|reflexivity].
      apply (first_elem_of _ _ _ Hfound).
    + unfold Auth.token_matches. simpl.
      rewrite bool_decide_eq_true_2 by reflexivity.
      apply Z.ltb_lt. exact Hlive.
    + rewrite Hagain. eexists. reflexivity.
  - split; [reflexivity|]. split; [reflexivity|]. intros u Hu. discriminate Hu.
Qed.

Lemma forgot_password_then_reset_witness :
  ∃ db' db'',
    Auth.forgot_password (sec := Sample.security) "carol@example.com" 200 "t0k" Sample.db
    = (Return "If the email exists, a reset link has been sent", db')
    ∧ Auth.reset_password (sec := Sample.security) "t0k" "NewPass1" 3799 db'
      = (Return "Password reset successfully", db'')
    ∧ Auth.forgot_password (sec := Sample.security) "nobody@example.com" 200 "t0k"
        Sample.db
      = (Return "If the email exists, a reset link has been sent", Sample.db).
Proof.
  destruct (forgot_password_then_reset (sec := Sample.security)
              "carol@example.com" 200 "t0k" Sample.db) as (Hanswer & _ & Hknown).
  destruct (Hknown Sample.carol) as (db' & user' & Hdb & _ & _ & _ & _ & _ & Hreset).
  - vm_compute. reflexivity.
  - destruct (Hreset 3799 "NewPass1") as (db'' & Hout); [vm_compute; reflexivity|].
    exists db', db''. split; [|split; [exact Hout|]].
    + rewrite <- Hdb, <- Hanswer. apply surjective_pairing.
    + vm_compute. reflexivity.
Defined.

(** ** Password change *)

Lemma get_current_user_first {sec : Security}
    (now : Z) (token : string) (db : DB) (user : User.t) :
  Dependencies.get_current_user now token db = Return user →
  first (λ u, String.eqb (User.email u) (User.email user)) (users db) = Some user
  ∧ User.is_active user = true.
Proof.
  unfold Dependencies.get_current_user.
  destruct (decode_token now token) as [payload|]; [|discriminate].
  destruct (negb _); [discriminate|].
  destruct (dict_get payload "sub") as [|s|z]; [discriminate| |].
  - simpl. destruct (first _ (users db)) as [found|] eqn:Hfound; [|discriminate].
    destruct (User.is_active found) eqn:Hactive; [|discriminate].
    simpl. intros [= <-]. split; [|exact Hactive].
    pose proof (first_some _ _ _ Hfound) as [_ Hmail]. apply String.eqb_eq in Hmail.
    rewrite Hmail. exact Hfound.
  - simpl. destruct (first _ (users db)) as [found|] eqn:Hfound; [|discriminate].
    apply first_some in Hfound as [_ Hmatch]. discriminate Hmatch.
Qed.

(** A password change with a wrong current password is refused with 400 and
    writes nothing. After a successful change, a login with the account's
    e-mail succeeds exactly for the passwords that verify against the hash of
    the new password. *)
Theorem change_password_then_login {sec : Security}
    (current_password new_password token : string) (now : Z) (db : DB)
    (current_user : User.t) :
  db_ok db →
  Dependencies.get_current_active_user now token db = Return current_user →
  (verify_password current_password (User.hashed_password current_user) = false →
   Users.change_password current_password new_password token now db
   = (Raise (mkHTTPException HTTP_400_BAD_REQUEST "Current password is incorrect"), db))
  ∧ (verify_password current_password (User.hashed_password current_user) = true →
     ∃ db',
       Users.change_password current_password new_password token now db
       = (Return "Password changed successfully", db')
       ∧ ∀ ip_address user_agent password later,
           (∃ tokens,
              fst (Auth.login ip_address user_agent (User.email current_user)
                     password later db') = Return tokens)
           ↔ verify_password password (get_password_hash new_password) = true).
Proof.
  intros Hok Hresolved.
  pose proof Hok as (Hpk & _).
  destruct (get_current_user_first now token db current_user Hresolved)
    as [Hfirst Hactive].
  pose proof (first_elem_of _ _ _ Hfirst) as Hin.
  unfold Users.change_password, bind, Depends, commit, ret, raise.
  rewrite Hresolved. split.
  - intros ->. reflexivity.
  - intros ->. simpl. eexists. split; [reflexivity|].
    intros ip_address user_agent password later.
    unfold Auth.login, bind, query, commit, ret, raise. simpl.
    rewrite (first_replace_stable _ current_user _ db Hpk Hin) by reflexivity.
    rewrite Hfirst. simpl. rewrite Z.eqb_refl. simpl.
    destruct (verify_password password (get_password_hash new_password)); simpl.
    + rewrite Hactive. simpl. split; [reflexivity|]. intros _. eexists. reflexivity.
    + split; [intros (t & Ht); discriminate Ht|discriminate].
Qed.

Lemma change_password_then_login_witness :
  ∃ db',
    Users.change_password (sec := Sample.security) "Alice1" "NewPass9"
      "access:alice@example.com:admin" 200 Sample.db
    = (Return "Password changed successfully", db')
    ∧ (∃ tokens, fst (Auth.login (sec := Sample.security) None None
                        "alice@example.com" "NewPass9" 300 db') = Return tokens)
    ∧ ¬ (∃ tokens, fst (Auth.login (sec := Sample.security) None None
                          "alice@example.com" "Alice1" 300 db') = Return tokens).
Proof.
  destruct (proj2 (change_password_then_login (sec := Sample.security)
                     "Alice1" "NewPass9" "access:alice@example.com:admin" 200
                     Sample.db Sample.alice sample_db_ok
                     ltac:(vm_compute; reflexivity)))
    as (db' & Hout & Hlogin).
  - vm_compute. reflexivity.
  - exists db'. split; [exact Hout|]. split.
    + apply (Hlogin None None "NewPass9" 300). vm_compute. reflexivity.
    + intros Hold. apply (Hlogin None None "Alice1" 300) in Hold.
      vm_compute in Hold. discriminate Hold.
Defined.

(** ** Administration *)

(** Without a stored session of a user, no refresh token naming that user is
    honoured. *)
Lemma refresh_refused_for_owner {sec : Security} (uid : Z) (db : DB) :
  (∀ s, s ∈ user_sessions db → UserSession.user_id s ≠ uid) →
  ∀ refresh_token later payload,
    decode_token later refresh_token = Some payload →
    dict_get payload "user_id" = CInt uid →
    ∃ e, Auth.refresh_token refresh_token later db = (Raise e, db)
         ∧ status_code e = HTTP_401_UNAUTHORIZED.
Proof.
  intros Hnone refresh_token later payload Hdec Huid.
  unfold Auth.refresh_token. rewrite Hdec.
  destruct (_ || _); [eexists; split; reflexivity|].
  unfold bind, query. rewrite Huid.
  rewrite (find_valid_none_for_owner uid db Hnone). eexists; split; reflexivity.
Qed.

(** How the resolved user changes when one row is rewritten without touching
    its key, its e-mail or its active flag. *)
Lemma get_current_user_update {sec : Security}
    (u' target x : User.t) (db : DB) (later : Z) (token : string) :
  users_primary_key db → target ∈ users db →
  User.id u' = User.id target → User.email u' = User.email target →
  User.is_active u' = User.is_active target →
  Dependencies.get_current_user later token db = Return x →
  Dependencies.get_current_user later token (update_user u' db)
  = Return (if User.id x =? User.id target then u' else x).
Proof.
  intros Hpk Htarget Hid Hemail Hactive.
  unfold Dependencies.get_current_user, update_user. simpl. rewrite Hid.
  destruct (decode_token later token) as [payload|]; [|discriminate].
  destruct (negb _); [discriminate|].
  destruct (dict_get payload "sub") as [|s|z]; [discriminate| |].
  - rewrite (first_replace_stable _ target u' db Hpk Htarget)
      by (simpl; rewrite Hemail; reflexivity).
    destruct (first _ (users db)) as [found|] eqn:Hfound; [|discriminate]. simpl.
    destruct (User.is_active found) eqn:Hfa; [|discriminate]. simpl.
    intros [= <-].
    destruct (User.id found =? User.id target) eqn:Hkey; [|rewrite Hfa; reflexivity].
    apply Z.eqb_eq in Hkey.
    rewrite (primary_key_unique db found target Hpk
               (first_elem_of _ _ _ Hfound) Htarget Hkey) in Hfa.
    rewrite Hactive, Hfa. reflexivity.
  - rewrite (first_replace_stable _ target u' db Hpk Htarget) by reflexivity.
    destruct (first _ (users db)) as [found|] eqn:Hfound; [|discriminate].
    apply first_some in Hfound as [_ Hmatch]. discriminate Hmatch.
Qed.

(** Deleting another user through the admin route: an unknown id gives 404
    and writes nothing; otherwise the rows with that id and their sessions go,
    every other user and session and the catalog stay, and from then on no
    access token resolves to the deleted id and no refresh token naming it is
    honoured. *)
Theorem delete_user_cascades {sec : Security}
    (user_id : Z) (token : string) (now : Z) (db : DB) (caller : User.t) :
  Dependencies.require_permission ["delete"] now token db = Return caller →
  User.id caller ≠ user_id →
  (first (λ u, User.id u =? user_id) (users db) = None →
   Admin.delete_user user_id token now db
   = (Raise (mkHTTPException HTTP_404_NOT_FOUND "User not found"), db))
  ∧ (∀ target, first (λ u, User.id u =? user_id) (users db) = Some target →
       ∃ db',
         Admin.delete_user user_id token now db
         = (Return "User deleted successfully", db')
         ∧ (∀ u, u ∈ users db' ↔ u ∈ users db ∧ User.id u ≠ user_id)
         ∧ (∀ s, s ∈ user_sessions db'
                 ↔ s ∈ user_sessions db ∧ UserSession.user_id s ≠ user_id)
         ∧ permissions db' = permissions db
         ∧ caller ∈ users db'
         ∧ (∀ later access_token u,
              Dependencies.get_current_user later access_token db' = Return u →
              User.id u ≠ user_id)
         ∧ (∀ refresh_token later payload,
              decode_token later refresh_token = Some payload →
              dict_get payload "user_id" = CInt user_id →
              ∃ e, Auth.refresh_token refresh_token later db' = (Raise e, db')
                   ∧ status_code e = HTTP_401_UNAUTHORIZED)).
Proof.
  intros Hgate Hother.
  unfold Admin.delete_user, bind, Depends, query, commit, ret, raise.
  rewrite Hgate. rewrite (proj2 (Z.eqb_neq _ _) Hother). split.
  - intros ->. reflexivity.
  - intros target Hfound. rewrite Hfound.
    assert (Hid : User.id target = user_id).
    { apply first_some in Hfound as [_ Hid]. apply Z.eqb_eq. exact Hid. }
    destruct (delete_user_row_spec target db) as [Husers Hsessions].
    rewrite Hid in Husers, Hsessions.
    exists (delete_user_row target db). split; [reflexivity|].
    split; [exact Husers|]. split; [exact Hsessions|]. split; [reflexivity|].
    split; [|split].
    + apply Husers. split; [|exact Hother].
      apply require_permission_resolves in Hgate.
      apply (get_current_user_sound now token db caller Hgate).
    + intros later access_token u Hu.
      apply get_current_user_sound in Hu as [Hu _]. apply Husers in Hu. tauto.
    + apply refresh_refused_for_owner. intros s Hs. apply Hsessions in Hs. tauto.
Qed.

Lemma delete_user_cascades_witness :
  ∃ db',
    Admin.delete_user (sec := Sample.security) 2 "access:alice@example.com:admin"
      200 Sample.db
    = (Return "User deleted successfully", db')
    ∧ ∃ e, Auth.refresh_token (sec := Sample.security) "refresh:bob@example.com" 300 db'
           = (Raise e, db')
           ∧ status_code e = HTTP_401_UNAUTHORIZED.
Proof.
  destruct (proj2 (delete_user_cascades (sec := Sample.security)
                     2 "access:alice@example.com:admin" 200 Sample.db Sample.alice
                     ltac:(vm_compute; reflexivity) ltac:(simpl; lia)) Sample.bob)
    as (db' & Hout & _ & _ & _ & _ & _ & Hrefresh).
  - vm_compute. reflexivity.
  - exists db'. split; [exact Hout|].
    apply (Hrefresh "refresh:bob@example.com" 300
             (Sample.claims "refresh" "bob@example.com" 2)); vm_compute; reflexivity.
Defined.

Lemma replace_twice (key : Z) (u1 u2 : User.t) (rows : list User.t) :
  User.id u1 = key →
  map (λ r, if User.id r =? key then u2 else r)
      (map (λ r, if User.id r =? key then u1 else r) rows)
  = map (λ r, if User.id r =? key then u2 else r) rows.
Proof.
  intros Hid. rewrite map_map. apply map_ext. intros r.
  destruct (User.id r =? key) eqn:Hkey; [|rewrite Hkey; reflexivity].
  rewrite Hid, Z.eqb_refl. reflexivity.
Qed.

Lemma firebase_uid_taken_spec (uid : option string) (rows : list User.t) :
  firebase_uid_taken uid rows = true
  ↔ ∃ v r, uid = Some v ∧ r ∈ rows ∧ User.firebase_uid r = Some v.
Proof.
  unfold firebase_uid_taken. destruct uid as [v|].
  - rewrite existsb_exists. split.
    + intros (r & Hr & Heq). apply bool_decide_eq_true in Heq.
      exists v, r. split; [reflexivity|]. split; [apply list_elem_of_In, Hr|exact Heq].
    + intros (v' & r & [= <-] & Hr & Heq). exists r.
      split; [apply list_elem_of_In, Hr|apply bool_decide_eq_true, Heq].
  - split; [discriminate|]. intros (v & r & Hnone & _). discriminate Hnone.
Qed.

(** The index check of an insert, in a table whose keys lie below the counter. *)
Lemma taken_on_insert (uid : option string) (db : DB) :
  db_ok db →
  firebase_uid_taken uid (users db) = true
  ↔ held_by_another uid (users_autoinc db) db.
Proof.
  intros (_ & Hbelow & _). rewrite firebase_uid_taken_spec. split.
  - intros (v & r & Huid & Hr & Heq). exists v, r.
    repeat split; try assumption. specialize (Hbelow r Hr). lia.
  - intros (v & r & Huid & Hr & _ & Heq). exists v, r. auto.
Qed.

(** The index check of an update of the row with key [self]. *)
Lemma taken_on_update (uid : option string) (self : Z) (db : DB) :
  firebase_uid_taken uid (all (λ r, negb (User.id r =? self)) (users db)) = true
  ↔ held_by_another uid self db.
Proof.
  rewrite firebase_uid_taken_spec. split.
  - intros (v & r & Huid & Hr & Heq). apply elem_of_all in Hr as [Hr Hne].
    apply negb_true_iff, Z.eqb_neq in Hne. exists v, r. auto.
  - intros (v & r & Huid & Hr & Hne & Heq). exists v, r.
    split; [exact Huid|]. split; [|exact Heq].
    apply elem_of_all. split; [exact Hr|]. apply negb_true_iff, Z.eqb_neq, Hne.
Qed.

(** A federated login for a known e-mail: the account keeps what it has,
    receives the token's uid if it has none, and a session is stored. *)
Lemma firebase_login_known {sec : Security} {fb : Firebase} {eng : Engine}
    (id_token : string) (now : Z) (db : DB)
    (decoded_token : FirebaseToken.t) (email : string) (existing : User.t) :
  verify_firebase_token id_token = inr decoded_token →
  FirebaseToken.email decoded_token = Some email →
  email ≠ "" →
  first (λ u, String.eqb (User.email u) email) (users db) = Some existing →
  Auth.truthy (User.firebase_uid existing) = true
  ∨ ¬ held_by_another (FirebaseToken.uid decoded_token) (User.id existing) db →
  ∃ tokens db' user,
    Auth.firebase_login id_token now db = (Return tokens, db')
    ∧ users db'
      = map (λ r, if User.id r =? User.id existing then user else r) (users db)
    ∧ user_sessions db'
      = (user_sessions db
         ++ [UserSession.mk (user_sessions_autoinc db) (User.id user)
               (create_refresh_token now (refresh_claims user))
               (now + days 7) now None None])%list
    ∧ User.id user = User.id existing
    ∧ User.email user = email
    ∧ User.last_login user = Some now
    ∧ User.role user = User.role existing
    ∧ User.permissions user = User.permissions existing
    ∧ User.hashed_password user = User.hashed_password existing
    ∧ User.is_active user = User.is_active existing
    ∧ User.is_email_verified user = User.is_email_verified existing
    ∧ User.firebase_uid user
      = (if Auth.truthy (User.firebase_uid existing)
         then User.firebase_uid existing
         else FirebaseToken.uid decoded_token).
Proof.
  intros Hverified Hemail Hnonempty Hfound Hcase.
  assert (Htruthy : Auth.truthy (Some email) = true).
  { simpl. apply negb_true_iff, String.eqb_neq. exact Hnonempty. }
  pose proof (first_some _ _ _ Hfound) as [_ Hmail]. apply String.eqb_eq in Hmail.
  unfold Auth.firebase_login, bind, query, commit, ret, raise.
  rewrite Hverified, Hemail, Htruthy. simpl. rewrite Hfound.
  destruct (Auth.truthy (User.firebase_uid existing)) eqn:Huid; simpl.
  - eexists. eexists.
    exists (User.set_updated_at now (User.set_last_login (Some now) existing)).
    split; [reflexivity|]. repeat split. exact Hmail.
  - assert (Htaken : firebase_uid_taken (FirebaseToken.uid decoded_token)
                       (all (λ r, negb (User.id r =? User.id existing)) (users db))
                     = false).
    { apply not_true_is_false. intros Htaken.
      destruct Hcase as [Hset|Hfree]; [discriminate Hset|].
      apply Hfree, taken_on_update, Htaken. }
    rewrite Htaken. simpl. eexists. eexists.
    exists (User.set_updated_at now
              (User.set_last_login (Some now)
                 (User.set_updated_at now
                    (User.set_firebase_uid (FirebaseToken.uid decoded_token)
                       existing)))).
    split; [reflexivity|].
    split; [simpl; apply replace_twice; reflexivity|].
    repeat split. exact Hmail.
Qed.

(** Switching an account off: the status route rewrites the active flag and
    [updated_at] of the target; every other column of the row, every other
    row, the sessions, the catalog and the counters are as before. The route
    has no guard against the caller's own id. Once the flag is false no
    access token resolves to that account and no password login with its
    e-mail returns tokens. The federated login does not read the flag: a
    verified Firebase token with the account's e-mail still logs in, as long
    as the account has a uid or the token's uid is not held by another
    account. *)
Theorem deactivation_locks_out {sec : Security} {fb : Firebase} {eng : Engine}
    (user_id : Z) (is_active : bool) (token : string) (now : Z) (db : DB)
    (caller target : User.t) :
  Dependencies.require_role [ADMIN] now token db = Return caller →
  first (λ u, User.id u =? user_id) (users db) = Some target →
  ∃ db' target',
    Admin.toggle_user_status user_id is_active token now db
    = (Return (if is_active then "User activated successfully"
               else "User deactivated successfully"), db')
    ∧ users db' = map (λ r, if User.id r =? user_id then target' else r) (users db)
    ∧ user_sessions db' = user_sessions db
    ∧ User.is_active target' = is_active
    ∧ User.id target' = user_id
    ∧ User.email target' = User.email target
    ∧ User.role target' = User.role target
    ∧ User.hashed_password target' = User.hashed_password target
    ∧ User.permissions target' = User.permissions target
    ∧ User.name target' = User.name target
    ∧ User.phone target' = User.phone target
    ∧ User.is_email_verified target' = User.is_email_verified target
    ∧ User.firebase_uid target' = User.firebase_uid target
    ∧ User.created_at target' = User.created_at target
    ∧ User.last_login target' = User.last_login target
    ∧ User.email_verification_token target' = User.email_verification_token target
    ∧ User.email_verification_expire target' = User.email_verification_expire target
    ∧ User.reset_password_token target' = User.reset_password_token target
    ∧ User.reset_password_expire target' = User.reset_password_expire target
    ∧ User.updated_at target' = now
    ∧ permissions db' = permissions db
    ∧ users_autoinc db' = users_autoinc db
    ∧ permissions_autoinc db' = permissions_autoinc db
    ∧ user_sessions_autoinc db' = user_sessions_autoinc db
    ∧ (is_active = false →
       (∀ later access_token u,
          Dependencies.get_current_user later access_token db' = Return u →
          User.id u ≠ user_id)
       ∧ (∀ ip_address user_agent username password later tokens u,
            fst (Auth.login ip_address user_agent username password later db')
            = Return tokens →
            first (λ r, String.eqb (User.email r) username) (users db') = Some u →
            User.id u ≠ user_id)
       ∧ (∀ id_token later decoded_token,
            users_primary_key db →
            first (λ u, String.eqb (User.email u) (User.email target)) (users db)
            = Some target →
            verify_firebase_token id_token = inr decoded_token →
            FirebaseToken.email decoded_token = Some (User.email target) →
            User.email target ≠ "" →
            Auth.truthy (User.firebase_uid target) = true
            ∨ ¬ held_by_another (FirebaseToken.uid decoded_token) user_id db' →
            ∃ tokens db'' user,
              Auth.firebase_login id_token later db' = (Return tokens, db'')
              ∧ user ∈ users db''
              ∧ User.id user = user_id
              ∧ User.is_active user = false)).
Proof.
  intros Hgate Hfound.
  assert (Hid : User.id target = user_id).
  { apply first_some in Hfound as [_ Hid]. apply Z.eqb_eq. exact Hid. }
  unfold Admin.toggle_user_status, bind, Depends, query, commit, ret, raise.
  rewrite Hgate, Hfound.
  set (target' := User.set_updated_at now (User.set_is_active is_active target)).
  exists (update_user target' db), target'.
  split; [reflexivity|].
  split; [unfold update_user; simpl; rewrite Hid; reflexivity|].
  split; [reflexivity|]. split; [reflexivity|]. split; [exact Hid|].
  repeat (split; [reflexivity|]).
  intros ->.
  assert (Hoff : ∀ u, u ∈ users (update_user target' db) → User.id u = user_id →
                      User.is_active u = false).
  { intros u Hu Hu_id. apply elem_of_update_user in Hu as [[_ Hne]| ->];
      [|reflexivity].
    exfalso. apply Hne. simpl. congruence. }
  split; [|split].
  - intros later access_token u Hu Hu_id.
    apply get_current_user_sound in Hu as [Hin Hon].
    rewrite (Hoff u Hin Hu_id) in Hon. discriminate Hon.
  - intros ip_address user_agent username password later tokens u Hlogin Hu Hu_id.
    unfold Auth.login, bind, query, commit, ret, raise in Hlogin.
    rewrite Hu in Hlogin.
    rewrite (Hoff u (first_elem_of _ _ _ Hu) Hu_id) in Hlogin.
    destruct (negb (verify_password _ _)); discriminate Hlogin.
  - intros id_token later decoded_token Hkey Hmail Hverified Hemail Hnonempty Hcase.
    assert (Hstored : first (λ u, String.eqb (User.email u) (User.email target))
                        (users (update_user target' db)) = Some target').
    { unfold update_user. simpl.
      change (User.id target') with (User.id target).
      rewrite (first_replace_stable
                 (λ u, String.eqb (User.email u) (User.email target))
                 target target' db Hkey (first_elem_of _ _ _ Hfound) eq_refl).
      rewrite Hmail. simpl. rewrite Z.eqb_refl. reflexivity. }
    destruct (firebase_login_known id_token later (update_user target' db)
                decoded_token (User.email target) target'
                Hverified Hemail Hnonempty Hstored)
      as (tokens & db'' & user & Hout & Husers & _ & Huser_id & _ & _ & _ & _ & _
          & Hactive & _).
    { destruct Hcase as [Hset|Hfree]; [left; exact Hset|right].
      change (User.id target') with (User.id target). rewrite Hid. exact Hfree. }
    exists tokens, db'', user. split; [exact Hout|].
    split; [|split; [rewrite Huser_id; exact Hid|exact Hactive]].
    rewrite Husers. apply list_elem_of_fmap. exists target'.
    rewrite Z.eqb_refl. split; [reflexivity|].
    apply (updated_row_is_stored target' target);
      [exact (first_elem_of _ _ _ Hfound)|reflexivity].
Qed.

Lemma deactivation_locks_out_witness :
  ∃ db' tokens db'',
    Admin.toggle_user_status (sec := Sample.security) 1 false
      "access:alice@example.com:admin" 200 Sample.db
    = (Return "User deactivated successfully", db')
    ∧ Dependencies.get_current_user (sec := Sample.security)
        201 "access:alice@example.com:admin" db'
      = Raise (mkHTTPException HTTP_403_FORBIDDEN "User account is disabled")
    ∧ fst (Auth.login (sec := Sample.security) None None
             "alice@example.com" "Alice1" 202 db')
      = Raise (mkHTTPException HTTP_403_FORBIDDEN "Account is disabled")
    ∧ Auth.firebase_login (sec := Sample.security) (fb := Sample.federation)
        (eng := Sample.engine) "id-token-0" 203 db'
      = (Return tokens, db'').
Proof.
  destruct (deactivation_locks_out (sec := Sample.security) (fb := Sample.federation)
              (eng := Sample.engine) 1 false
              "access:alice@example.com:admin" 200 Sample.db Sample.alice Sample.alice)
    as (db' & target' & Hout & Hrest).
  - vm_compute. reflexivity.
  - vm_compute. reflexivity.
  - do 23 (destruct Hrest as (_ & Hrest)).
    destruct (Hrest eq_refl) as (_ & _ & Hfederated).
    destruct (Hfederated "id-token-0" 203
                (FirebaseToken.mk (Some "alice@example.com") (Some "uid-1")
                   (Some "Alice")))
      as (tokens & db'' & user & Hlogin & _).
    + exact (proj1 sample_db_ok).
    + vm_compute. reflexivity.
    + vm_compute. reflexivity.
    + reflexivity.
    + discriminate.
    + right. intros (v & r & _ & Hr & Hne & Hheld).
      vm_compute in Hout. injection Hout as <-.
      apply list_elem_of_In in Hr. simpl in Hr.
      destruct Hr as [<-|[<-|[<-|[]]]]; discriminate Hheld.
    + exists db', tokens, db''. split; [exact Hout|].
      split; [|split; [|exact Hlogin]];
        vm_compute in Hout; injection Hout as <-; vm_compute; reflexivity.
Defined.

(** Direct permission assignment: the target receives exactly the catalog
    rows whose names were asked for (unknown names are dropped without an
    error, the empty list clears the set) and keeps its role. The gate asks
    for manage_users only, whoever the target is; so a caller who names
    their own id obtains every catalog permission they ask for, and each token
    that resolved to them passes the gate of those permissions afterwards. *)
Theorem update_user_permissions_assigns {sec : Security}
    (user_id : Z) (permission_names : list string) (token : string) (now : Z)
    (db : DB) (caller target : User.t) :
  Dependencies.require_permission ["manage_users"] now token db = Return caller →
  first (λ u, User.id u =? user_id) (users db) = Some target →
  ∃ db' target',
    Admin.update_user_permissions user_id permission_names token now db
    = (Return "User permissions updated", db')
    ∧ users db' = map (λ r, if User.id r =? user_id then target' else r) (users db)
    ∧ permissions db' = permissions db
    ∧ user_sessions db' = user_sessions db
    ∧ User.role target' = User.role target
    ∧ (∀ p, p ∈ User.permissions target'
            ↔ p ∈ permissions db ∧ Permission.name p ∈ permission_names)
    ∧ (db_ok db → user_id = User.id caller →
       ∀ n later access_token,
         n ∈ permission_names →
         (∃ p, p ∈ permissions db ∧ Permission.name p = n) →
         Dependencies.get_current_user later access_token db = Return caller →
         Dependencies.require_permission [n] later access_token db' = Return target').
Proof.
  intros Hgate Hfound.
  assert (Hid : User.id target = user_id).
  { apply first_some in Hfound as [_ Hid]. apply Z.eqb_eq. exact Hid. }
  unfold Admin.update_user_permissions, bind, Depends, query, commit, ret, raise.
  rewrite Hgate, Hfound.
  set (target' := User.set_updated_at now (User.set_permissions _ target)).
  exists (update_user target' db), target'.
  split; [reflexivity|].
  split; [unfold update_user; simpl; rewrite Hid; reflexivity|].
  repeat (split; [reflexivity|]).
  assert (Hbundle : ∀ p, p ∈ User.permissions target'
                         ↔ p ∈ permissions db ∧ Permission.name p ∈ permission_names).
  { intros p. simpl. rewrite elem_of_all, name_in_spec. reflexivity. }
  split; [exact Hbundle|].
  intros Hok Hself n later access_token Hn (p & Hp & Hname) Hresolved.
  pose proof Hok as (Hpk & _).
  pose proof (get_current_user_sound later access_token db caller Hresolved)
    as [Hcaller _].
  assert (Htarget : target = caller).
  { apply (primary_key_unique db target caller Hpk
             (first_elem_of _ _ _ Hfound) Hcaller). congruence. }
  subst target.
  unfold Dependencies.require_permission, Dependencies.get_current_active_user.
  rewrite (get_current_user_update target' caller caller db later access_token
             Hpk Hcaller) by (try reflexivity; exact Hresolved).
  rewrite Z.eqb_refl. cbv zeta.
  assert (Hhas : existsb
            (λ perm, bool_decide
                       (perm ∈ map Permission.name (User.permissions target')))
            [n] = true).
  { apply has_permission_spec. exists n. split; [left|].
    apply list_elem_of_fmap. exists p. split; [auto|].
    apply Hbundle. split; [exact Hp|]. rewrite Hname. exact Hn. }
  rewrite Hhas. reflexivity.
Qed.

Lemma update_user_permissions_assigns_witness :
  ∃ db' carol',
    Admin.update_user_permissions (sec := Sample.security) 3
      ["manage_roles"; "delete"; "no_such_permission"]
      "access:carol@example.com:hr" 200 Sample.db
    = (Return "User permissions updated", db')
    ∧ Dependencies.require_permission (sec := Sample.security) ["manage_roles"]
        200 "access:carol@example.com:hr" Sample.db
      = Raise (mkHTTPException HTTP_403_FORBIDDEN
                 "You don't have permission to perform this action")
    ∧ Dependencies.require_permission (sec := Sample.security) ["manage_roles"]
        201 "access:carol@example.com:hr" db' = Return carol'
    ∧ map Permission.name (User.permissions carol') = ["delete"; "manage_roles"].
Proof.
  destruct (update_user_permissions_assigns (sec := Sample.security) 3
              ["manage_roles"; "delete"; "no_such_permission"]
              "access:carol@example.com:hr" 200 Sample.db Sample.carol Sample.carol)
    as (db' & carol' & Hout & Husers & _ & _ & _ & _ & Hself).
  - vm_compute. reflexivity.
  - vm_compute. reflexivity.
  - exists db', carol'. split; [exact Hout|]. split; [vm_compute; reflexivity|].
    split.
    + apply (Hself sample_db_ok eq_refl "manage_roles" 201).
      * rewrite !elem_of_cons. auto.
      * exists (Permission.mk 5 "manage_roles" "Can manage roles"). split; [|reflexivity].
        unfold Sample.db, Sample.catalog. simpl. rewrite !elem_of_cons. auto 10.
      * vm_compute. reflexivity.
    + vm_compute in Hout. injection Hout as <-.
      apply (f_equal (λ rows : list User.t, rows !! 2%nat)) in Husers.
      vm_compute in Husers. injection Husers as <-. reflexivity.
Defined.

(** ** Failed requests *)

Lemma get_current_user_error_status {sec : Security}
    (now : Z) (token : string) (db : DB) (e : HTTPException) :
  Dependencies.get_current_user now token db = Raise e →
  status_code e = HTTP_401_UNAUTHORIZED ∨ status_code e = HTTP_403_FORBIDDEN.
Proof.
  unfold Dependencies.get_current_user.
  destruct (decode_token now token) as [payload|]; [|intros [= <-]; auto].
  destruct (negb _); [intros [= <-]; auto|].
  destruct (dict_get payload "sub"); [intros [= <-]; auto| |];
    (destruct (first _ (users db)) as [found|]; [|intros [= <-]; auto];
     destruct (negb (User.is_active found)); [intros [= <-]; auto|discriminate]).
Qed.

Lemma require_permission_error_status {sec : Security}
    (required : list string) (now : Z) (token : string) (db : DB) (e : HTTPException) :
  Dependencies.require_permission required now token db = Raise e →
  status_code e = HTTP_401_UNAUTHORIZED ∨ status_code e = HTTP_403_FORBIDDEN.
Proof.
  unfold Dependencies.require_permission, Dependencies.get_current_active_user.
  destruct (Dependencies.get_current_user now token db) as [u|e'] eqn:Hresolved.
  - cbv zeta. destruct (negb _); [intros [= <-]; auto|discriminate].
  - intros [= <-]. apply (get_current_user_error_status now token db e' Hresolved).
Qed.

Lemma require_role_error_status {sec : Security}
    (allowed : list UserRole) (now : Z) (token : string) (db : DB) (e : HTTPException) :
  Dependencies.require_role allowed now token db = Raise e →
  status_code e = HTTP_401_UNAUTHORIZED ∨ status_code e = HTTP_403_FORBIDDEN.
Proof.
  unfold Dependencies.require_role, Dependencies.get_current_active_user.
  destruct (Dependencies.get_current_user now token db) as [u|e'] eqn:Hresolved.
  - destruct (negb _); [intros [= <-]; auto|discriminate].
  - intros [= <-]. apply (get_current_user_error_status now token db e' Hresolved).
Qed.

Ltac answer_status :=
  rewrite !elem_of_cons;
  first [ solve [auto 10]
        | match goal with
          | H : Dependencies.get_current_user _ _ _ = Raise _ |- _ =>
              destruct (get_current_user_error_status _ _ _ _ H) as [-> | ->]; auto 10
          | H : Dependencies.require_permission _ _ _ _ = Raise _ |- _ =>
              destruct (require_permission_error_status _ _ _ _ _ H) as [-> | ->];
              auto 10
          | H : Dependencies.require_role _ _ _ _ = Raise _ |- _ =>
              destruct (require_role_error_status _ _ _ _ _ H) as [-> | ->]; auto 10
          end ].

(** A request that is answered with an error has written nothing, with one
    exception: a refused signup has seeded the permission catalog. Even then
    no user and no session was added or changed. The errors the handlers
    raise carry one of five status codes. *)
Theorem failed_requests_write_nothing {sec : Security} {fb : Firebase}
    {eng : Engine}
    (now : Z) (req : Request) (db : DB) (e : HTTPException) :
  failure now req db = Some e →
  status_code e ∈ [400; 401; 403; 404; 500]
  ∧ ((∀ user_data verification_token, req ≠ PostSignup user_data verification_token) →
     serve now req db = db)
  ∧ users (serve now req db) = users db
  ∧ user_sessions (serve now req db) = user_sessions db.
Proof.
  destruct req; unfold failure, serve, error_of.
  - unfold Auth.signup, Auth.init_default_permissions, bind, commit, query, ret, raise.
    set (seeded := fold_left Auth.seed_permission Auth.default_permissions db).
    destruct (seeding_frame Auth.default_permissions db) as (Hu & Hs & _).
    fold seeded in Hu, Hs.
    destruct (first _ (users seeded)); simpl; [|discriminate].
    intros [= <-]. split; [answer_status|]. split; [|split; assumption].
    intros Hnot. exfalso. apply (Hnot user_data verification_token). reflexivity.
  - unfold Auth.login, bind, commit, query, ret, raise.
    destruct (first _ (users db)) as [user|]; simpl.
    + destruct (negb (verify_password _ _)); simpl;
        [intros [= <-]; split; [answer_status|auto]|].
      destruct (negb (User.is_active user)); simpl; [|discriminate].
      intros [= <-]; split; [answer_status|auto].
    + intros [= <-]; split; [answer_status|auto].
  - unfold Auth.firebase_login, bind, commit, query, ret, raise.
    destruct (verify_firebase_token id_token) as [message|decoded]; simpl;
      [intros [= <-]; split; [answer_status|auto]|].
    destruct (negb (Auth.truthy _)); simpl;
      [intros [= <-]; split; [answer_status|auto]|].
    destruct (first _ (users db)) as [user|]; simpl.
    + destruct (negb (Auth.truthy (User.firebase_uid user))); simpl;
        [|discriminate].
      destruct (firebase_uid_taken _ _); simpl; [|discriminate].
      intros [= <-]; split; [answer_status|auto].
    + destruct (firebase_uid_taken _ _); simpl; [|discriminate].
      intros [= <-]; split; [answer_status|auto].
  - unfold Auth.verify_email, bind, commit, query, ret, raise.
    destruct (first _ (users db)); simpl; [discriminate|].
    intros [= <-]; split; [answer_status|auto].
  - unfold Auth.forgot_password, bind, commit, query, ret, raise.
    destruct (first _ (users db)); simpl; discriminate.
  - unfold Auth.reset_password, bind, commit, query, ret, raise.
    destruct (first _ (users db)); simpl; [discriminate|].
    intros [= <-]; split; [answer_status|auto].
  - rewrite refresh_token_reads_only. unfold Auth.refresh_token.
    destruct (decode_token now refresh_token) as [payload|];
      [|intros [= <-]; split; [answer_status|auto]].
    destruct (_ || _); [intros [= <-]; split; [answer_status|auto]|].
    unfold bind, query, ret, raise.
    destruct (Auth.find_valid _ _ _ db) as [session|]; simpl;
      [|intros [= <-]; split; [answer_status|auto]].
    destruct (session_user session db); simpl; [discriminate|].
    intros [= <-]; split; [answer_status|auto].
  - unfold Auth.logout, bind, Depends, commit, ret.
    destruct (Dependencies.get_current_user now token db) as [user|e'] eqn:Hdep;
      simpl; [discriminate|].
    intros [= <-]; split; [answer_status|auto].
  - unfold Users.update_profile, Dependencies.get_current_active_user,
      bind, Depends, commit, ret.
    destruct (Dependencies.get_current_user now token db) as [user|e'] eqn:Hdep;
      simpl; [discriminate|].
    intros [= <-]; split; [answer_status|auto].
  - unfold Users.change_password, Dependencies.get_current_active_user,
      bind, Depends, commit, ret, raise.
    destruct (Dependencies.get_current_user now token db) as [user|e'] eqn:Hdep;
      simpl; [|intros [= <-]; split; [answer_status|auto]].
    destruct (negb (verify_password _ _)); simpl; [|discriminate].
    intros [= <-]; split; [answer_status|auto].
  - unfold Users.delete_account, Dependencies.get_current_active_user,
      bind, Depends, commit, ret.
    destruct (Dependencies.get_current_user now token db) as [user|e'] eqn:Hdep;
      simpl; [discriminate|].
    intros [= <-]; split; [answer_status|auto].
  - unfold Admin.update_user_role, bind, Depends, query, commit, ret, raise.
    destruct (Dependencies.require_permission _ now token db) as [caller|e'] eqn:Hdep;
      simpl; [|intros [= <-]; split; [answer_status|auto]].
    destruct (first _ (users db)); simpl; [discriminate|].
    intros [= <-]; split; [answer_status|auto].
  - unfold Admin.update_user_permissions, bind, Depends, query, commit, ret, raise.
    destruct (Dependencies.require_permission _ now token db) as [caller|e'] eqn:Hdep;
      simpl; [|intros [= <-]; split; [answer_status|auto]].
    destruct (first _ (users db)); simpl; [discriminate|].
    intros [= <-]; split; [answer_status|auto].
  - unfold Admin.toggle_user_status, bind, Depends, query, commit, ret, raise.
    destruct (Dependencies.require_role _ now token db) as [caller|e'] eqn:Hdep;
      simpl; [|intros [= <-]; split; [answer_status|auto]].
    destruct (first _ (users db)); simpl; [discriminate|].
    intros [= <-]; split; [answer_status|auto].
  - unfold Admin.delete_user, bind, Depends, query, commit, ret, raise.
    destruct (Dependencies.require_permission _ now token db) as [caller|e'] eqn:Hdep;
      simpl; [|intros [= <-]; split; [answer_status|auto]].
    destruct (User.id caller =? user_id); simpl;
      [intros [= <-]; split; [answer_status|auto]|].
    destruct (first _ (users db)); simpl; [discriminate|].
    intros [= <-]; split; [answer_status|auto].
Qed.

Lemma failed_requests_write_nothing_witness :
  serve (sec := Sample.security) (fb := Sample.firebase) (eng := Sample.engine) 200
    (PutUserRole "access:carol@example.com:hr" 2 ADMIN) Sample.db = Sample.db
  ∧ failure (sec := Sample.security) (fb := Sample.firebase) (eng := Sample.engine) 200
      (PutUserRole "access:carol@example.com:hr" 2 ADMIN) Sample.db
    = Some (mkHTTPException HTTP_403_FORBIDDEN
              "You don't have permission to perform this action").
Proof.
  split; [|vm_compute; reflexivity].
  apply (failed_requests_write_nothing (sec := Sample.security) (fb := Sample.firebase)
           200 (PutUserRole "access:carol@example.com:hr" 2 ADMIN) Sample.db
           (mkHTTPException HTTP_403_FORBIDDEN
              "You don't have permission to perform this action")).
  - vm_compute. reflexivity.
  - intros user_data verification_token. discriminate.
Defined.

(** ** Requests as sequences of writes *)

Section Writes.
Context {sec : Security} {fb : Firebase} {eng : Engine}.

Lemma descends_refl (u : User.t) : descends u u.
Proof. repeat split; auto. Qed.

Lemma descends_trans (u v w : User.t) : descends u v → descends v w → descends u w.
Proof.
  intros (Hid & Hmail & Hcreated & Hver) (Hid' & Hmail' & Hcreated' & Hver').
  repeat split; try congruence. auto.
Qed.

(** Writing back a row fetched from the table. *)
Lemma write_fetched (admin : bool) (P : User.t → bool) (db : DB) (r u' : User.t) :
  first P (users db) = Some r → descends r u' →
  (admin = false → keeps_privileges r u') →
  rtc (write admin) db (update_user u' db).
Proof.
  intros Hfound Hdesc Hkeep. apply rtc_once.
  apply (write_update db r u' (first_elem_of _ _ _ Hfound) Hdesc Hkeep).
Qed.

Lemma write_resolved (admin : bool) (now : Z) (token : string) (db : DB)
    (r u' : User.t) :
  Dependencies.get_current_user now token db = Return r → descends r u' →
  (admin = false → keeps_privileges r u') →
  rtc (write admin) db (update_user u' db).
Proof.
  intros Hresolved Hdesc Hkeep. apply rtc_once.
  apply (write_update db r u'); [|exact Hdesc|exact Hkeep].
  apply (get_current_user_sound now token db r Hresolved).
Qed.

(** The session every login path stores for a user that is in the table. *)
Lemma write_new_session (admin : bool) (db : DB) (user : User.t)
    (refresh_token : string) (now : Z) (ip_address user_agent : option string) :
  user ∈ users db →
  write admin db
    (add_session (Auth.new_session user refresh_token now ip_address user_agent) db).
Proof.
  intros Hin. apply (write_add_session db _ user Hin); reflexivity.
Qed.

Lemma signup_writes (admin : bool) (user_data : UserCreate.t) (now : Z)
    (verification_token : string) (db : DB) :
  rtc (write admin) db (snd (Auth.signup user_data now verification_token db)).
Proof.
  unfold Auth.signup, Auth.init_default_permissions, bind, commit, query, ret, raise.
  set (seeded := fold_left Auth.seed_permission Auth.default_permissions db).
  assert (Hseed : write admin db seeded) by apply write_seed.
  destruct (first _ (users seeded)); simpl; [apply rtc_once, Hseed|].
  eapply rtc_r; [|apply write_new_session; simpl; apply elem_of_app; right; left].
  eapply rtc_r; [apply rtc_once, Hseed|].
  apply write_add_user.
  destruct (create_firebase_user _ _ _) as [uid|];
    [destruct (String.eqb uid "")|]; reflexivity.
Qed.

Lemma login_writes (admin : bool) (ip_address user_agent : option string)
    (username password : string) (now : Z) (db : DB) :
  rtc (write admin) db
    (snd (Auth.login ip_address user_agent username password now db)).
Proof.
  unfold Auth.login, bind, commit, query, ret, raise.
  destruct (first _ (users db)) as [user|] eqn:Hfound; [|apply rtc_refl].
  destruct (negb (verify_password _ _)); [apply rtc_refl|].
  destruct (negb (User.is_active user)); [apply rtc_refl|]. simpl.
  eapply rtc_r;
    [|apply write_new_session; apply (updated_row_is_stored _ user);
      [apply (first_elem_of _ _ _ Hfound)|reflexivity]].
  apply (write_fetched admin _ db user _ Hfound);
    [repeat split; auto|intros _; repeat split].
Qed.

Lemma firebase_login_writes (admin : bool) (id_token : string) (now : Z) (db : DB) :
  rtc (write admin) db (snd (Auth.firebase_login id_token now db)).
Proof.
  unfold Auth.firebase_login, bind, commit, query, ret, raise.
  destruct (verify_firebase_token id_token) as [message|decoded]; [apply rtc_refl|].
  destruct (negb (Auth.truthy _)); [apply rtc_refl|].
  destruct (first _ (users db)) as [user|] eqn:Hfound.
  - pose proof (first_elem_of _ _ _ Hfound) as Hin.
    destruct (negb (Auth.truthy (User.firebase_uid user))); simpl.
    + destruct (firebase_uid_taken _ _); simpl; [apply rtc_refl|].
      set (merged := User.set_updated_at now
                       (User.set_firebase_uid (FirebaseToken.uid decoded) user)).
      assert (Hmerged : merged ∈ users (update_user merged db))
        by (apply (updated_row_is_stored _ user); [exact Hin|reflexivity]).
      eapply rtc_r;
        [|apply write_new_session; apply (updated_row_is_stored _ merged);
          [exact Hmerged|reflexivity]].
      eapply rtc_r;
        [|apply (write_update _ merged);
          [exact Hmerged|repeat split; auto|intros _; repeat split]].
      apply rtc_once, (write_update db user);
        [exact Hin|repeat split; auto|intros _; repeat split].
    + eapply rtc_r;
        [|apply write_new_session; apply (updated_row_is_stored _ user);
          [exact Hin|reflexivity]].
      apply rtc_once, (write_update db user);
        [exact Hin|repeat split; auto|intros _; repeat split].
  - simpl. destruct (firebase_uid_taken _ _); simpl; [apply rtc_refl|].
    set (created := User.mk (users_autoinc db) _ _ _ _ _ _ _ _ _ _ _ _ _ _ _ _).
    set (row := λ id, User.mk id (default "" (FirebaseToken.email decoded))
                        (default "" (FirebaseToken.name decoded)) None "" USER
                        true true (FirebaseToken.uid decoded) now now None
                        None None None None []).
    assert (Hin : created ∈ users (add_user row db))
      by (simpl; apply elem_of_app; right; left).
    eapply rtc_r;
      [|apply write_new_session; apply (updated_row_is_stored _ created);
        [exact Hin|reflexivity]].
    eapply rtc_r;
      [|apply (write_update _ created);
        [exact Hin|repeat split; auto|intros _; repeat split]].
    apply rtc_once, write_add_user. reflexivity.
Qed.

Lemma token_handlers_write (admin : bool)
    (token new_password email reset_token : string) (now : Z) (db : DB) :
  rtc (write admin) db (snd (Auth.verify_email token now db))
  ∧ rtc (write admin) db (snd (Auth.reset_password token new_password now db))
  ∧ rtc (write admin) db (snd (Auth.forgot_password email now reset_token db)).
Proof.
  unfold Auth.verify_email, Auth.reset_password, Auth.forgot_password,
    bind, commit, query, ret, raise.
  split; [|split];
    (destruct (first _ (users db)) as [user|] eqn:Hfound; [|apply rtc_refl]; simpl;
     apply (write_fetched admin _ db user _ Hfound);
       [repeat split; auto|intros _; repeat split]).
Qed.

Lemma users_router_writes (admin : bool) (token : string) (now : Z) (db : DB)
    (name phone : option string) (current_password new_password : string) :
  rtc (write admin) db (snd (Auth.logout token now db))
  ∧ rtc (write admin) db (snd (Users.update_profile name phone token now db))
  ∧ rtc (write admin) db
      (snd (Users.change_password current_password new_password token now db))
  ∧ rtc (write admin) db (snd (Users.delete_account token now db)).
Proof.
  unfold Auth.logout, Users.update_profile, Users.change_password,
    Users.delete_account, Dependencies.get_current_active_user,
    bind, Depends, commit, ret, raise.
  destruct (Dependencies.get_current_user now token db) as [user|e] eqn:Hresolved;
    [|repeat split; apply rtc_refl].
  split; [apply rtc_once, write_delete_sessions|]. split; [|split].
  - simpl. apply (write_resolved admin now token db user _ Hresolved);
      [|intros _]; destruct name, phone; repeat split; auto.
  - destruct (negb (verify_password _ _)); [apply rtc_refl|]. simpl.
    apply (write_resolved admin now token db user _ Hresolved);
      [repeat split; auto|intros _; repeat split].
  - simpl. apply rtc_once, write_delete_user.
Qed.

Lemma admin_router_writes (token : string) (now : Z) (db : DB)
    (user_id : Z) (role : UserRole) (permission_names : list string)
    (is_active : bool) :
  rtc (write true) db (snd (Admin.update_user_role user_id role token now db))
  ∧ rtc (write true) db
      (snd (Admin.update_user_permissions user_id permission_names token now db))
  ∧ rtc (write true) db
      (snd (Admin.toggle_user_status user_id is_active token now db))
  ∧ ∀ admin, rtc (write admin) db (snd (Admin.delete_user user_id token now db)).
Proof.
  unfold Admin.update_user_role, Admin.update_user_permissions,
    Admin.toggle_user_status, Admin.delete_user,
    bind, Depends, query, commit, ret, raise.
  split; [|split; [|split]].
  - destruct (Dependencies.require_permission _ now token db); [|apply rtc_refl].
    simpl. destruct (first _ (users db)) as [user|] eqn:Hfound; [|apply rtc_refl].
    simpl. apply (write_fetched true _ db user _ Hfound);
      [repeat split; auto|discriminate].
  - destruct (Dependencies.require_permission _ now token db); [|apply rtc_refl].
    simpl. destruct (first _ (users db)) as [user|] eqn:Hfound; [|apply rtc_refl].
    simpl. apply (write_fetched true _ db user _ Hfound);
      [repeat split; auto|discriminate].
  - destruct (Dependencies.require_role _ now token db); [|apply rtc_refl].
    simpl. destruct (first _ (users db)) as [user|] eqn:Hfound; [|apply rtc_refl].
    simpl. apply (write_fetched true _ db user _ Hfound);
      [repeat split; auto|discriminate].
  - intros admin.
    destruct (Dependencies.require_permission _ now token db) as [caller|];
      [|apply rtc_refl].
    simpl. destruct (User.id caller =? user_id); [apply rtc_refl|].
    destruct (first _ (users db)) as [user|] eqn:Hfound; [|apply rtc_refl].
    simpl. apply rtc_once, write_delete_user.
Qed.

(** Every request is served by a sequence of the six writes. *)
Lemma serve_writes (now : Z) (req : Request) (db : DB) :
  rtc (write (is_admin_request req)) db (serve now req db).
Proof.
  destruct req; simpl.
  - apply signup_writes.
  - apply login_writes.
  - apply firebase_login_writes.
  - apply (token_handlers_write false token "" "" "" now db).
  - apply (token_handlers_write false "" "" email reset_token now db).
  - apply (token_handlers_write false token new_password "" "" now db).
  - rewrite refresh_token_reads_only. apply rtc_refl.
  - apply (users_router_writes false token now db None None "" "").
  - apply (users_router_writes false token now db name phone "" "").
  - apply (users_router_writes false token now db None None
             current_password new_password).
  - apply (users_router_writes false token now db None None "" "").
  - apply (admin_router_writes token now db user_id role [] true).
  - apply (admin_router_writes token now db user_id USER permission_names true).
  - apply (admin_router_writes token now db user_id USER [] is_active).
  - apply (admin_router_writes token now db user_id USER [] true).
Qed.

Lemma write_weaken (admin : bool) (db db' : DB) :
  write admin db db' → write true db db'.
Proof.
  intros Hwrite. destruct Hwrite as
    [db|db r u' Hr Hdesc Hkeep|db row Hid|db row owner Howner Hid Huid
    |db uid|db target].
  - apply write_seed.
  - apply (write_update db r u' Hr Hdesc). discriminate.
  - apply (write_add_user db row Hid).
  - apply (write_add_session db row owner Howner Hid Huid).
  - apply write_delete_sessions.
  - apply write_delete_user.
Qed.

Lemma serve_all_writes (history : list (Z * Request)) (db : DB) :
  rtc (write true) db (serve_all history db).
Proof.
  unfold serve_all. revert db.
  induction history as [|step history IH]; intros db; simpl.
  - apply rtc_refl.
  - eapply rtc_trans; [|apply IH].
    apply (rtc_subrel (write (is_admin_request (snd step))) (write true));
      [intros x y; apply write_weaken|apply serve_writes].
Qed.

Lemma serve_all_quiet_writes (history : list (Z * Request)) (db : DB) :
  Forall (λ step, is_admin_request (snd step) = false) history →
  rtc (write false) db (serve_all history db).
Proof.
  unfold serve_all. revert db.
  induction history as [|step history IH]; intros db Hquiet; simpl.
  - apply rtc_refl.
  - apply Forall_cons in Hquiet as [Hstep Hquiet].
    eapply rtc_trans; [|apply IH, Hquiet].
    rewrite <- Hstep. apply serve_writes.
Qed.

End Writes.

(** ** Invariants of the reachable states *)

Lemma evolves_refl (db : DB) : evolves db db.
Proof.
  split; [lia|]. split; [lia|]. split.
  - intros u Hu. left. exists u. split; [exact Hu|apply descends_refl].
  - intros s Hs. left. exact Hs.
Qed.

Lemma evolves_trans (db1 db2 db3 : DB) :
  evolves db1 db2 → evolves db2 db3 → evolves db1 db3.
Proof.
  intros (Hu12 & Hs12 & Husers12 & Hsess12) (Hu23 & Hs23 & Husers23 & Hsess23).
  split; [lia|]. split; [lia|]. split.
  - intros u3 Hin. destruct (Husers23 u3 Hin) as [(u2 & Hin2 & Hd23)|Hfresh].
    + destruct (Husers12 u2 Hin2) as [(u1 & Hin1 & Hd12)|Hfresh].
      * left. exists u1. split; [exact Hin1|apply (descends_trans u1 u2 u3); assumption].
      * right. destruct Hd23 as (Hid & _). lia.
    + right. lia.
  - intros s Hin. destruct (Hsess23 s Hin) as [Hin2|Hfresh]; [|right; lia].
    destruct (Hsess12 s Hin2) as [Hin1|Hfresh]; [left; exact Hin1|right; lia].
Qed.

Lemma write_evolves (admin : bool) (db db' : DB) : write admin db db' → evolves db db'.
Proof.
  intros Hwrite. destruct Hwrite as
    [db|db r u' Hr Hdesc _|db row Hid|db row owner Howner Hid Huid
    |db uid|db target].
  - destruct (seeding_frame Auth.default_permissions db) as (Hu & Hs & Hua & Hsa).
    unfold evolves. rewrite Hu, Hs, Hua, Hsa. apply evolves_refl.
  - split; [simpl; lia|]. split; [simpl; lia|]. split.
    + intros x Hx. left. apply elem_of_update_user in Hx as [[Hx _]| ->].
      * exists x. split; [exact Hx|apply descends_refl].
      * exists r. split; [exact Hr|exact Hdesc].
    + intros s Hs. left. exact Hs.
  - split; [simpl; lia|]. split; [simpl; lia|]. split.
    + intros x Hx. simpl in Hx. apply elem_of_app in Hx as [Hx|Hx].
      * left. exists x. split; [exact Hx|apply descends_refl].
      * right. apply list_elem_of_singleton in Hx as ->. lia.
    + intros s Hs. left. exact Hs.
  - split; [simpl; lia|]. split; [simpl; lia|]. split.
    + intros x Hx. left. exists x. split; [exact Hx|apply descends_refl].
    + intros s Hs. simpl in Hs. apply elem_of_app in Hs as [Hs|Hs].
      * left. exact Hs.
      * right. apply list_elem_of_singleton in Hs as ->. lia.
  - split; [simpl; lia|]. split; [simpl; lia|]. split.
    + intros x Hx. left. exists x. split; [exact Hx|apply descends_refl].
    + intros s Hs. left. apply delete_sessions_of_spec in Hs as [Hs _]. exact Hs.
  - destruct (delete_user_row_spec target db) as [Husers Hsessions].
    split; [simpl; lia|]. split; [simpl; lia|]. split.
    + intros x Hx. left. apply Husers in Hx as [Hx _].
      exists x. split; [exact Hx|apply descends_refl].
    + intros s Hs. left. apply Hsessions in Hs as [Hs _]. exact Hs.
Qed.

Lemma writes_evolve (admin : bool) (db db' : DB) :
  rtc (write admin) db db' → evolves db db'.
Proof.
  induction 1 as [db|db db1 db2 Hstep _ IH]; [apply evolves_refl|].
  apply (evolves_trans db db1 db2); [apply (write_evolves admin), Hstep|exact IH].
Qed.

Lemma session_ids_after_filter (P : UserSession.t → bool) (rows : list UserSession.t) :
  NoDup (map UserSession.id rows) → NoDup (map UserSession.id (List.filter P rows)).
Proof.
  induction rows as [|r rows IH]; [intros; constructor|].
  simpl. intros Hnd. apply NoDup_cons in Hnd as [Hr Hnd].
  destruct (P r); [|apply IH, Hnd].
  simpl. apply NoDup_cons. split; [|apply IH, Hnd].
  intros Hin. apply Hr. apply list_elem_of_fmap in Hin as (x & Hx & Hin).
  apply list_elem_of_In, filter_In in Hin as [Hin _].
  apply list_elem_of_fmap. exists x. split; [exact Hx|].
  apply list_elem_of_In. exact Hin.
Qed.

Lemma owner_after_update (u' owner : User.t) (db : DB) :
  owner ∈ users db →
  ∃ u, u ∈ users (update_user u' db) ∧ User.id u = User.id owner.
Proof.
  intros Hin. unfold update_user. simpl.
  exists (if User.id owner =? User.id u' then u' else owner). split.
  - apply list_elem_of_fmap. exists owner. auto.
  - destruct (User.id owner =? User.id u') eqn:Hkey; [|reflexivity].
    apply Z.eqb_eq in Hkey. congruence.
Qed.

Lemma write_sessions_ok (admin : bool) (db db' : DB) :
  write admin db db' → sessions_ok db → sessions_ok db'.
Proof.
  intros Hwrite (Hnd & Hrows). destruct Hwrite as
    [db|db r u' Hr Hdesc _|db row Hid|db row owner Howner Hid Huid
    |db uid|db target].
  - destruct (seeding_frame Auth.default_permissions db) as (Hu & Hs & Hua & Hsa).
    unfold sessions_ok. rewrite Hu, Hs, Hsa. split; assumption.
  - split; [exact Hnd|]. intros s Hs.
    destruct (Hrows s Hs) as (Hbelow & owner & Howner & Hoid).
    split; [exact Hbelow|].
    destruct (owner_after_update u' owner db Howner) as (u & Hu & Huid).
    exists u. split; [exact Hu|congruence].
  - split; [exact Hnd|]. intros s Hs.
    destruct (Hrows s Hs) as (Hbelow & owner & Howner & Hoid).
    split; [exact Hbelow|].
    exists owner. split; [simpl; apply elem_of_app; left; exact Howner|exact Hoid].
  - split.
    + simpl. rewrite map_app. simpl. apply NoDup_app. split; [exact Hnd|].
      split; [|apply NoDup_singleton].
      intros k Hk Hnew. apply list_elem_of_singleton in Hnew.
      apply list_elem_of_fmap in Hk as (s & -> & Hs).
      destruct (Hrows s Hs) as (Hbelow & _). lia.
    + intros s Hs. simpl in Hs. apply elem_of_app in Hs as [Hs|Hs].
      * destruct (Hrows s Hs) as (Hbelow & Hown).
        split; [simpl; lia|exact Hown].
      * apply list_elem_of_singleton in Hs as ->.
        split; [simpl; lia|].
        exists owner. split; [exact Howner|congruence].
  - split; [apply session_ids_after_filter, Hnd|]. intros s Hs.
    apply delete_sessions_of_spec in Hs as [Hs _]. apply (Hrows s Hs).
  - destruct (delete_user_row_spec target db) as [Husers Hsessions].
    split; [apply session_ids_after_filter, Hnd|]. intros s Hs.
    apply Hsessions in Hs as [Hs Hne].
    destruct (Hrows s Hs) as (Hbelow & owner & Howner & Hoid).
    split; [exact Hbelow|].
    exists owner. split; [|exact Hoid]. apply Husers. split; [exact Howner|congruence].
Qed.

Lemma writes_sessions_ok (admin : bool) (db db' : DB) :
  rtc (write admin) db db' → sessions_ok db → sessions_ok db'.
Proof.
  induction 1 as [db|db db1 db2 Hstep _ IH]; [auto|].
  intros Hok. apply IH, (write_sessions_ok admin db db1 Hstep Hok).
Qed.

Lemma serve_all_keeps_db_ok {sec : Security} {fb : Firebase} {eng : Engine}
    (history : list (Z * Request)) (db : DB) :
  db_ok db → db_ok (serve_all history db).
Proof.
  unfold serve_all. revert db.
  induction history as [|step history IH]; intros db Hok; simpl.
  - exact Hok.
  - apply IH, serve_keeps_db_ok, Hok.
Qed.

Lemma empty_sessions_ok : sessions_ok empty_db.
Proof.
  split; [constructor|]. intros s Hs. apply elem_of_nil in Hs. contradiction.
Qed.

(** However many requests are served, the users table keeps its primary key
    below the counter, users hold catalog permissions only, and the catalog
    is either empty or holds every default name. *)
Theorem api_keeps_users_well_formed {sec : Security} {fb : Firebase}
    {eng : Engine}
    (history : list (Z * Request)) (db : DB) :
  db_ok db →
  NoDup (map User.id (users (serve_all history db)))
  ∧ (∀ u, u ∈ users (serve_all history db) →
          User.id u < users_autoinc (serve_all history db))
  ∧ (∀ u p, u ∈ users (serve_all history db) → p ∈ User.permissions u →
            p ∈ permissions (serve_all history db))
  ∧ (permissions (serve_all history db) = []
     ∨ ∀ n, n ∈ ["read"; "write"; "delete"; "manage_users"; "manage_roles"] →
            ∃ p, p ∈ permissions (serve_all history db) ∧ Permission.name p = n).
Proof.
  intros Hok. exact (serve_all_keeps_db_ok history db Hok).
Qed.

Lemma api_keeps_users_well_formed_witness :
  NoDup (map User.id
           (users (serve_all (sec := Sample.security) (fb := Sample.firebase) (eng := Sample.engine)
                     [ (10, PostSignup (UserCreate.mk "dave@example.com" "Dave" None
                                          ADMIN "Secret1") "v");
                       (20, DeleteMe "access:dave@example.com:admin");
                       (30, PostSignup (UserCreate.mk "erin@example.com" "Erin" None
                                          USER "Secret2") "w") ]
                     empty_db))).
Proof.
  apply (api_keeps_users_well_formed (sec := Sample.security) (fb := Sample.firebase)
           _ empty_db empty_db_ok).
Defined.

(** However many requests are served, session rows keep distinct keys below
    the counter and belong to a stored user; hence the refresh endpoint never finds a session
    without its user, and every error it raises is a 401. *)
Theorem api_keeps_sessions_well_formed {sec : Security} {fb : Firebase}
    {eng : Engine}
    (history : list (Z * Request)) (db : DB) :
  sessions_ok db →
  NoDup (map UserSession.id (user_sessions (serve_all history db)))
  ∧ (∀ s, s ∈ user_sessions (serve_all history db) →
       UserSession.id s < user_sessions_autoinc (serve_all history db)
       ∧ ∃ u, u ∈ users (serve_all history db) ∧ User.id u = UserSession.user_id s)
  ∧ (∀ refresh_token now e,
       fst (Auth.refresh_token refresh_token now (serve_all history db)) = Raise e →
       status_code e = HTTP_401_UNAUTHORIZED).
Proof.
  intros Hok.
  pose proof (writes_sessions_ok true db _ (serve_all_writes history db) Hok)
    as Hfinal.
  destruct Hfinal as (Hnd & Hrows). split; [exact Hnd|]. split; [exact Hrows|].
  intros refresh_token now e. unfold Auth.refresh_token.
  destruct (decode_token now refresh_token) as [payload|]; [|intros [= <-]; reflexivity].
  destruct (_ || _); [intros [= <-]; reflexivity|].
  unfold bind, query, ret, raise.
  destruct (Auth.find_valid _ _ _ _) as [session|] eqn:Hfound;
    [|intros [= <-]; reflexivity].
  unfold Auth.find_valid in Hfound. apply first_some in Hfound as [Hin _].
  destruct (Hrows session Hin) as (_ & owner & Howner & Hoid).
  destruct (first_is_some (λ u, User.id u =? UserSession.user_id session)
              (users (serve_all history db)) owner Howner) as (u & Hu);
    [apply Z.eqb_eq, Hoid|].
  unfold session_user. rewrite Hu. discriminate.
Qed.

Lemma api_keeps_sessions_well_formed_witness :
  ∃ s, user_sessions
         (serve_all (sec := Sample.security) (fb := Sample.firebase) (eng := Sample.engine)
            [ (10, PostSignup (UserCreate.mk "carol@example.com" "Carol" None
                                 HR "Carol3") "v");
              (20, PostLogin None None "carol@example.com" "Carol3") ]
            empty_db) !! 1%nat = Some s
       ∧ UserSession.created_at s = 20
       ∧ UserSession.id s < 3.
Proof.
  set (history := [ (10, PostSignup (UserCreate.mk "carol@example.com" "Carol" None
                                       HR "Carol3") "v");
                    (20, PostLogin None None "carol@example.com" "Carol3") ]).
  destruct (api_keeps_sessions_well_formed
              (sec := Sample.security) (fb := Sample.firebase)
              (eng := Sample.engine)
              history empty_db empty_sessions_ok) as (_ & Hrows & _).
  assert (Hat : ∃ s, user_sessions
                       (serve_all (sec := Sample.security) (fb := Sample.firebase) (eng := Sample.engine)
                          history empty_db) !! 1%nat = Some s
                     ∧ UserSession.created_at s = 20).
  { eexists. split; vm_compute; reflexivity. }
  destruct Hat as (s & Hat & Hcreated). exists s.
  split; [exact Hat|]. split; [exact Hcreated|].
  destruct (Hrows s) as [Hbelow _];
    [apply list_elem_of_lookup; exists 1%nat; exact Hat|].
  vm_compute in Hbelow |- *. exact Hbelow.
Defined.

(** An account keeps its identity for good: whatever requests are served, a
    row that carries the key of an earlier row has the same e-mail and
    creation time, and is verified if the earlier row was. In particular a
    key is never given to another account and a verified e-mail is never
    unverified again. *)
Theorem accounts_keep_identity {sec : Security} {fb : Firebase} {eng : Engine}
    (history : list (Z * Request)) (db : DB) (u u' : User.t) :
  db_ok db →
  u ∈ users db →
  u' ∈ users (serve_all history db) →
  User.id u' = User.id u →
  User.email u' = User.email u
  ∧ User.created_at u' = User.created_at u
  ∧ (User.is_email_verified u = true → User.is_email_verified u' = true).
Proof.
  intros (Hpk & Hbelow & _) Hu Hu' Hid.
  destruct (writes_evolve true db _ (serve_all_writes history db))
    as (_ & _ & Husers & _).
  destruct (Husers u' Hu') as [(u0 & Hu0 & Hid0 & Hmail & Hcreated & Hver)|Hfresh].
  - assert (u0 = u) as ->.
    { apply (primary_key_unique db u0 u Hpk Hu0 Hu). congruence. }
    auto.
  - apply Hbelow in Hu. lia.
Qed.

Lemma accounts_keep_identity_witness :
  ∃ u', users (serve_all (sec := Sample.security) (fb := Sample.firebase) (eng := Sample.engine)
                 [ (300, PostLogin None None "alice@example.com" "Alice1");
                   (310, PutMe "access:alice@example.com:admin" (Some "Alicia") None);
                   (320, DeleteUser "access:alice@example.com:admin" 2) ]
                 Sample.db) !! 0%nat = Some u'
        ∧ User.name u' = "Alicia"
        ∧ User.email u' = "alice@example.com"
        ∧ User.is_email_verified u' = true.
Proof.
  set (history := [ (300, PostLogin None None "alice@example.com" "Alice1");
                    (310, PutMe "access:alice@example.com:admin" (Some "Alicia") None);
                    (320, DeleteUser "access:alice@example.com:admin" 2) ]).
  assert (Hat : ∃ u', users (serve_all (sec := Sample.security)
                               (fb := Sample.firebase) (eng := Sample.engine) history Sample.db) !! 0%nat
                      = Some u'
                      ∧ User.name u' = "Alicia" ∧ User.id u' = 1).
  { eexists. split; [|split]; vm_compute; reflexivity. }
  destruct Hat as (u' & Hat & Hname & Hid). exists u'.
  split; [exact Hat|]. split; [exact Hname|].
  destruct (accounts_keep_identity (sec := Sample.security) (fb := Sample.firebase)
              (eng := Sample.engine)
              history Sample.db Sample.alice u' sample_db_ok) as (Hmail & _ & Hver).
  - unfold Sample.db. simpl. left.
  - apply list_elem_of_lookup. exists 0%nat. exact Hat.
  - exact Hid.
  - split; [exact Hmail|]. apply Hver. reflexivity.
Defined.

Lemma session_key_unique (rows : list UserSession.t) (s s' : UserSession.t) :
  NoDup (map UserSession.id rows) → s ∈ rows → s' ∈ rows →
  UserSession.id s' = UserSession.id s → s' = s.
Proof.
  induction rows as [|x rows IH]; intros Hnd Hs Hs' Hid.
  - apply elem_of_nil in Hs. contradiction.
  - simpl in Hnd. apply NoDup_cons in Hnd as [Hx Hnd].
    apply elem_of_cons in Hs as [->|Hs]; apply elem_of_cons in Hs' as [->|Hs'].
    + reflexivity.
    + exfalso. apply Hx. rewrite <- Hid. apply list_elem_of_fmap. eauto.
    + exfalso. apply Hx. rewrite Hid. apply list_elem_of_fmap. eauto.
    + apply IH; assumption.
Qed.

(** Sessions are never modified: whatever requests are served, a session row
    that carries the key of an earlier session row is that row, field by
    field. *)
Theorem sessions_are_immutable {sec : Security} {fb : Firebase} {eng : Engine}
    (history : list (Z * Request)) (db : DB) (s s' : UserSession.t) :
  sessions_ok db →
  s ∈ user_sessions db →
  s' ∈ user_sessions (serve_all history db) →
  UserSession.id s' = UserSession.id s →
  s' = s.
Proof.
  intros (Hnd & Hrows) Hs Hs' Hid.
  destruct (writes_evolve true db _ (serve_all_writes history db))
    as (_ & _ & _ & Hsessions).
  destruct (Hsessions s' Hs') as [Hold|Hfresh].
  - apply (session_key_unique (user_sessions db)); assumption.
  - destruct (Hrows s Hs) as (Hbelow & _). lia.
Qed.

Lemma sessions_are_immutable_witness :
  ∃ s', user_sessions
          (serve_all (sec := Sample.security) (fb := Sample.firebase) (eng := Sample.engine)
             [ (20, PostLogin None None "carol@example.com" "Carol3");
               (30, PostRefresh "refresh:carol@example.com") ]
             (serve (sec := Sample.security) (fb := Sample.firebase) (eng := Sample.engine) 10
                (PostSignup (UserCreate.mk "carol@example.com" "Carol" None
                               HR "Carol3") "v") empty_db)) !! 0%nat = Some s'
        ∧ s' = UserSession.mk 1 1 "refresh:carol@example.com" (10 + days 7) 10 None None.
Proof.
  set (db := serve (sec := Sample.security) (fb := Sample.firebase) (eng := Sample.engine) 10
               (PostSignup (UserCreate.mk "carol@example.com" "Carol" None
                              HR "Carol3") "v") empty_db).
  set (history := [ (20, PostLogin None None "carol@example.com" "Carol3");
                    (30, PostRefresh "refresh:carol@example.com") ]).
  assert (Hat : ∃ s', user_sessions
                        (serve_all (sec := Sample.security) (fb := Sample.firebase) (eng := Sample.engine)
                           history db) !! 0%nat = Some s'
                      ∧ UserSession.id s' = 1).
  { eexists. split; vm_compute; reflexivity. }
  destruct Hat as (s' & Hat & Hid). exists s'. split; [exact Hat|].
  apply (sessions_are_immutable (sec := Sample.security) (fb := Sample.firebase)
              (eng := Sample.engine)
           history db).
  - apply (writes_sessions_ok false empty_db db); [|apply empty_sessions_ok].
    apply (serve_writes (sec := Sample.security) (fb := Sample.firebase)
              (eng := Sample.engine) 10
             (PostSignup (UserCreate.mk "carol@example.com" "Carol" None
                            HR "Carol3") "v")).
  - apply list_elem_of_lookup. exists 0%nat. vm_compute. reflexivity.
  - apply list_elem_of_lookup. exists 0%nat. exact Hat.
  - exact Hid.
Defined.

(** ** Dashboard counts *)

Lemma count_split (P Q R : User.t → bool) (rows : list User.t) :
  (∀ u, u ∈ rows → P u = true →
        (Q u = true ∧ R u = false) ∨ (Q u = false ∧ R u = true)) →
  (∀ u, u ∈ rows → P u = false → Q u = false ∧ R u = false) →
  (length (List.filter P rows)
   = length (List.filter Q rows) + length (List.filter R rows))%nat.
Proof.
  induction rows as [|r rows IH]; intros Hyes Hno; [reflexivity|]. simpl.
  assert (Hrest : (length (List.filter P rows)
                   = length (List.filter Q rows) + length (List.filter R rows))%nat).
  { apply IH; intros u Hu; [apply Hyes|apply Hno]; right; exact Hu. }
  destruct (P r) eqn:HP.
  - destruct (Hyes r ltac:(left) HP) as [[-> ->]|[-> ->]]; simpl; lia.
  - destruct (Hno r ltac:(left) HP) as [-> ->]. exact Hrest.
Qed.

Lemma filter_length_le {A : Type} (P : A → bool) (rows : list A) :
  (length (List.filter P rows) ≤ length rows)%nat.
Proof.
  induction rows as [|r rows IH]; simpl; [lia|]. destruct (P r); simpl; lia.
Qed.

(** The dashboard is for administrators only and reads without writing. Its
    per-role dictionary has one entry for each of the four roles, these four
    counts add up to the total, and no other count exceeds the total. *)
Theorem dashboard_counts_add_up {sec : Security}
    (token : string) (now : Z) (db : DB) :
  snd (Admin.get_dashboard_stats token now db) = db
  ∧ (∀ stats, fst (Admin.get_dashboard_stats token now db) = Return stats →
       (∃ caller, Dependencies.get_current_user now token db = Return caller
                  ∧ User.role caller = ADMIN)
       ∧ Admin.total_users stats = Z.of_nat (length (users db))
       ∧ dom (Admin.users_by_role stats)
         = ({["user"; "admin"; "hr"; "candidate"]} : gset string)
       ∧ ∃ n_user n_admin n_hr n_candidate,
           Admin.users_by_role stats !! "user" = Some n_user
           ∧ Admin.users_by_role stats !! "admin" = Some n_admin
           ∧ Admin.users_by_role stats !! "hr" = Some n_hr
           ∧ Admin.users_by_role stats !! "candidate" = Some n_candidate
           ∧ n_user + n_admin + n_hr + n_candidate = Admin.total_users stats
           ∧ 0 ≤ Admin.verified_users stats ≤ Admin.total_users stats
           ∧ 0 ≤ Admin.active_users stats ≤ Admin.total_users stats
           ∧ 0 ≤ Admin.recent_registrations stats ≤ Admin.total_users stats).
Proof.
  unfold Admin.get_dashboard_stats, bind, Depends, query, ret.
  destruct (Dependencies.require_role [ADMIN] now token db) as [caller|e] eqn:Hgate;
    [|split; [reflexivity|discriminate]].
  simpl. split; [reflexivity|]. intros stats [= <-]. simpl.
  split.
  { exists caller. split; [apply (require_role_resolves _ _ _ _ _ Hgate)|].
    unfold Dependencies.require_role, Dependencies.get_current_active_user in Hgate.
    destruct (Dependencies.get_current_user now token db) as [u|]; [|discriminate].
    destruct (bool_decide_reflect (User.role u ∈ [ADMIN])) as [Hin|];
      [|discriminate].
    simpl in Hgate. injection Hgate as <-.
    apply list_elem_of_singleton in Hin. exact Hin. }
  split.
  { unfold Admin.count, all. simpl. f_equal.
    induction (users db) as [|r rows IH]; simpl; [reflexivity|]. f_equal. exact IH. }
  split.
  { rewrite !dom_insert_L, dom_empty_L. set_solver. }
  eexists. eexists. eexists. eexists.
  split; [reflexivity|]. split; [reflexivity|]. split; [reflexivity|].
  split; [reflexivity|].
  unfold Admin.count, all.
  split.
  - assert (Hlow : (length (List.filter (λ u, role_is (User.role u) "user"
                                              || role_is (User.role u) "admin")
                              (users db))
                    = length (List.filter (λ u, role_is (User.role u) "user") (users db))
                      + length (List.filter (λ u, role_is (User.role u) "admin")
                                  (users db)))%nat).
    { apply count_split; intros u _; destruct (User.role u); simpl; intros H;
        first [discriminate H | auto]. }
    assert (Hhigh : (length (List.filter (λ u, role_is (User.role u) "hr"
                                               || role_is (User.role u) "candidate")
                               (users db))
                     = length (List.filter (λ u, role_is (User.role u) "hr") (users db))
                       + length (List.filter (λ u, role_is (User.role u) "candidate")
                                   (users db)))%nat).
    { apply count_split; intros u _; destruct (User.role u); simpl; intros H;
        first [discriminate H | auto]. }
    assert (Hall : (length (List.filter (λ _ : User.t, true) (users db))
                    = length (List.filter (λ u, role_is (User.role u) "user"
                                                || role_is (User.role u) "admin")
                                (users db))
                      + length (List.filter (λ u, role_is (User.role u) "hr"
                                                  || role_is (User.role u) "candidate")
                                  (users db)))%nat).
    { apply count_split; intros u _; destruct (User.role u); simpl; intros H;
        first [discriminate H | auto]. }
    simpl role_value. lia.
  - assert (Htotal : length (List.filter (λ _ : User.t, true) (users db))
                     = length (users db)).
    { induction (users db) as [|r rows IH]; simpl; [reflexivity|]. f_equal. exact IH. }
    rewrite Htotal.
    pose proof (filter_length_le (λ u, Bool.eqb (User.is_email_verified u) true)
                  (users db)).
    pose proof (filter_length_le (λ u, Bool.eqb (User.is_active u) true) (users db)).
    pose proof (filter_length_le (λ u, now - days 7 <=? User.created_at u) (users db)).
    lia.
Qed.

Lemma dashboard_counts_add_up_witness :
  ∃ stats,
    Admin.get_dashboard_stats (sec := Sample.security)
      "access:alice@example.com:admin" 200 Sample.db = (Return stats, Sample.db)
    ∧ Admin.total_users stats = 3
    ∧ Admin.users_by_role stats !! "candidate" = Some 1
    ∧ Admin.active_users stats = 2.
Proof.
  destruct (dashboard_counts_add_up (sec := Sample.security)
              "access:alice@example.com:admin" 200 Sample.db) as [Hsame Hstats].
  assert (Hout : ∃ stats,
            fst (Admin.get_dashboard_stats (sec := Sample.security)
                   "access:alice@example.com:admin" 200 Sample.db) = Return stats
            ∧ Admin.users_by_role stats !! "candidate" = Some 1
            ∧ Admin.active_users stats = 2).
  { eexists. split; [|split]; vm_compute; reflexivity. }
  destruct Hout as (stats & Hout & Hcandidate & Hactive). exists stats.
  destruct (Hstats stats Hout) as (_ & Htotal & _).
  split; [rewrite <- Hsame at 2; rewrite <- Hout; apply surjective_pairing|].
  split; [rewrite Htotal; reflexivity|]. split; assumption.
Defined.

(** ** Federated login *)

(** A verified Firebase token with an e-mail logs in without a password and
    without a look at the active flag, unless storing its uid would break the
    unique index on [users.firebase_uid]. For an unknown e-mail the handler
    creates a verified account with role user, an empty password hash and no
    permission at all; when another account holds the token's uid, the
    insert fails instead, the answer is 401 and nothing is stored. For a
    known e-mail it keeps role, permissions, password hash and active flag,
    and never replaces a uid that is set; an account without uid receives the
    token's uid, or the answer is 401 and nothing is stored when another
    account holds that uid. Every login that succeeds stamps [last_login] and
    stores one session. *)
Theorem firebase_login_find_or_create {sec : Security} {fb : Firebase}
    {eng : Engine}
    (id_token : string) (now : Z) (db : DB)
    (decoded_token : FirebaseToken.t) (email : string) :
  db_ok db →
  verify_firebase_token id_token = inr decoded_token →
  FirebaseToken.email decoded_token = Some email →
  email ≠ "" →
  (first (λ u, String.eqb (User.email u) email) (users db) = None →
   (held_by_another (FirebaseToken.uid decoded_token) (users_autoinc db) db →
    ∃ e, Auth.firebase_login id_token now db = (Raise e, db)
         ∧ status_code e = HTTP_401_UNAUTHORIZED)
   ∧ (¬ held_by_another (FirebaseToken.uid decoded_token) (users_autoinc db) db →
      ∃ tokens db' user,
        Auth.firebase_login id_token now db = (Return tokens, db')
        ∧ users db' = (users db ++ [user])%list
        ∧ user_sessions db'
          = (user_sessions db
             ++ [UserSession.mk (user_sessions_autoinc db) (User.id user)
                   (create_refresh_token now (refresh_claims user))
                   (now + days 7) now None None])%list
        ∧ User.id user = users_autoinc db
        ∧ User.email user = email
        ∧ User.last_login user = Some now
        ∧ User.role user = USER
        ∧ User.is_active user = true
        ∧ User.is_email_verified user = true
        ∧ User.hashed_password user = ""
        ∧ User.permissions user = []
        ∧ User.firebase_uid user = FirebaseToken.uid decoded_token))
  ∧ (∀ existing,
       first (λ u, String.eqb (User.email u) email) (users db) = Some existing →
       (Auth.truthy (User.firebase_uid existing) = false →
        held_by_another (FirebaseToken.uid decoded_token) (User.id existing) db →
        ∃ e, Auth.firebase_login id_token now db = (Raise e, db)
             ∧ status_code e = HTTP_401_UNAUTHORIZED)
       ∧ (Auth.truthy (User.firebase_uid existing) = true
          ∨ ¬ held_by_another (FirebaseToken.uid decoded_token) (User.id existing) db →
          ∃ tokens db' user,
            Auth.firebase_login id_token now db = (Return tokens, db')
            ∧ users db'
              = map (λ r, if User.id r =? User.id existing then user else r) (users db)
            ∧ user_sessions db'
              = (user_sessions db
                 ++ [UserSession.mk (user_sessions_autoinc db) (User.id user)
                       (create_refresh_token now (refresh_claims user))
                       (now + days 7) now None None])%list
            ∧ User.id user = User.id existing
            ∧ User.email user = email
            ∧ User.last_login user = Some now
            ∧ User.role user = User.role existing
            ∧ User.permissions user = User.permissions existing
            ∧ User.hashed_password user = User.hashed_password existing
            ∧ User.is_active user = User.is_active existing
            ∧ User.is_email_verified user = User.is_email_verified existing
            ∧ User.firebase_uid user
              = (if Auth.truthy (User.firebase_uid existing)
                 then User.firebase_uid existing
                 else FirebaseToken.uid decoded_token))).
Proof.
  intros Hok Hverified Hemail Hnonempty.
  assert (Htruthy : Auth.truthy (Some email) = true).
  { simpl. apply negb_true_iff, String.eqb_neq. exact Hnonempty. }
  split.
  - intros Hfound. split.
    + intros Hheld. apply (taken_on_insert _ db Hok) in Hheld.
      unfold Auth.firebase_login, bind, query, commit, ret, raise.
      rewrite Hverified, Hemail, Htruthy. simpl. rewrite Hfound, Hheld. simpl.
      eexists. split; reflexivity.
    + intros Hfree.
      assert (Htaken : firebase_uid_taken (FirebaseToken.uid decoded_token) (users db)
                       = false).
      { apply not_true_is_false. intros Htaken. apply Hfree.
        apply (taken_on_insert _ db Hok), Htaken. }
      unfold Auth.firebase_login, bind, query, commit, ret, raise.
      rewrite Hverified, Hemail, Htruthy. simpl. rewrite Hfound, Htaken. simpl.
      eexists. eexists.
      exists (User.set_updated_at now
                (User.set_last_login (Some now)
                   (User.mk (users_autoinc db) email
                      (default "" (FirebaseToken.name decoded_token)) None "" USER
                      true true (FirebaseToken.uid decoded_token) now now None
                      None None None None []))).
      split; [reflexivity|]. split; [|repeat split].
      simpl. rewrite map_app. simpl. rewrite Z.eqb_refl.
      rewrite replace_fresh_key; [reflexivity|].
      intros r Hr. destruct Hok as (_ & Hbelow & _). apply Hbelow in Hr. lia.
  - intros existing Hfound.
    pose proof (first_some _ _ _ Hfound) as [_ Hmail]. apply String.eqb_eq in Hmail.
    split.
    + intros Huid Hheld. apply taken_on_update in Hheld.
      unfold Auth.firebase_login, bind, query, commit, ret, raise.
      rewrite Hverified, Hemail, Htruthy. simpl. rewrite Hfound, Huid. simpl.
      rewrite Hheld. simpl. eexists. split; reflexivity.
    + intros Hcase.
      exact (firebase_login_known id_token now db decoded_token email existing
               Hverified Hemail Hnonempty Hfound Hcase).
Qed.

Lemma firebase_login_find_or_create_witness :
  ∃ tokens db' user e,
    Auth.firebase_login (sec := Sample.security) (fb := Sample.federation)
      (eng := Sample.engine) "id-token-1" 200 Sample.db
    = (Return tokens, db')
    ∧ users db' = [Sample.alice; user; Sample.carol]
    ∧ User.is_active user = false
    ∧ User.firebase_uid user = Some "uid-7"
    ∧ Auth.firebase_login (sec := Sample.security) (fb := Sample.federation)
        (eng := Sample.engine) "id-token-2" 300 db'
      = (Raise e, db')
    ∧ status_code e = HTTP_401_UNAUTHORIZED.
Proof.
  destruct (firebase_login_find_or_create (sec := Sample.security)
              (fb := Sample.federation) (eng := Sample.engine)
              "id-token-1" 200 Sample.db
              (FirebaseToken.mk (Some "bob@example.com") (Some "uid-7") (Some "Bob"))
              "bob@example.com" sample_db_ok eq_refl eq_refl ltac:(discriminate))
    as (_ & Hknown).
  destruct (Hknown Sample.bob ltac:(vm_compute; reflexivity)) as (_ & Hlogin).
  destruct Hlogin as (tokens & db' & user & Hout & Husers & _ & _ & _ & _ & _ & _
                      & _ & Hactive & _ & Huid).
  { right. intros (v & r & _ & Hr & Hne & Hheld).
    apply list_elem_of_In in Hr. simpl in Hr.
    destruct Hr as [<-|[<-|[<-|[]]]]; discriminate Hheld. }
  assert (Hok' : db_ok db').
  { pose proof (firebase_login_keeps_db_ok (sec := Sample.security)
                  (fb := Sample.federation) (eng := Sample.engine)
                  "id-token-1" 200 Sample.db sample_db_ok) as Hkept.
    rewrite Hout in Hkept. exact Hkept. }
  vm_compute in Hout. injection Hout as <- <-.
  apply (f_equal (λ rows, rows !! 1%nat)) in Husers.
  vm_compute in Husers. injection Husers as <-.
  destruct (firebase_login_find_or_create (sec := Sample.security)
              (fb := Sample.federation) (eng := Sample.engine)
              "id-token-2" 300 _
              (FirebaseToken.mk (Some "dave@example.com") (Some "uid-7") (Some "Bob"))
              "dave@example.com" Hok' eq_refl eq_refl ltac:(discriminate))
    as (Hnew & _).
  destruct Hnew as (Hrefused & _); [vm_compute; reflexivity|].
  destruct Hrefused as (e & Hraise & Hstatus).
  { eexists "uid-7", _. split; [reflexivity|].
    split; [apply list_elem_of_lookup; exists 1%nat; reflexivity|].
    split; [vm_compute; discriminate|reflexivity]. }
  eexists _, _, _, e.
  split; [vm_compute; reflexivity|]. split; [reflexivity|].
  split; [reflexivity|]. split; [reflexivity|].
  split; [exact Hraise|exact Hstatus].
Defined.

(** Without Firebase credentials the federation is off: every federated
    login fails with 401 and writes nothing, and a signup still succeeds but
    stores no Firebase uid. *)
Theorem firebase_disabled {sec : Security} {fb : Firebase} {eng : Engine} :
  firebase_app = false →
  (∀ id_token now db,
     Auth.firebase_login id_token now db
     = (Raise (mkHTTPException HTTP_401_UNAUTHORIZED
                 "Firebase authentication failed: Firebase is not initialized"), db))
  ∧ (∀ user_data now verification_token db,
       first (λ u, String.eqb (User.email u) (UserCreate.email user_data)) (users db)
       = None →
       ∃ tokens db' user,
         Auth.signup user_data now verification_token db = (Return tokens, db')
         ∧ users db' = (users db ++ [user])%list
         ∧ User.email user = UserCreate.email user_data
         ∧ User.firebase_uid user = None).
Proof.
  intros Hoff. split.
  - intros id_token now db. unfold Auth.firebase_login, verify_firebase_token.
    rewrite Hoff. reflexivity.
  - intros user_data now verification_token db Hfresh.
    unfold Auth.signup, Auth.init_default_permissions, bind, commit, query, ret.
    set (seeded := fold_left Auth.seed_permission Auth.default_permissions db).
    destruct (seeding_frame Auth.default_permissions db) as (Hu & _).
    fold seeded in Hu. rewrite Hu, Hfresh.
    unfold create_firebase_user. rewrite Hoff. simpl.
    eexists. eexists. eexists. split; [reflexivity|].
    simpl. rewrite Hu. repeat split.
Qed.

Lemma firebase_disabled_witness :
  Auth.firebase_login (sec := Sample.security) (fb := Sample.firebase)
              (eng := Sample.engine)
    "google-id-token" 200 Sample.db
  = (Raise (mkHTTPException HTTP_401_UNAUTHORIZED
              "Firebase authentication failed: Firebase is not initialized"),
     Sample.db).
Proof.
  apply (firebase_disabled (sec := Sample.security) (fb := Sample.firebase)).
  reflexivity.
Defined.

(** ** Who can change privileges *)

Lemma keeps_privileges_refl (u : User.t) : keeps_privileges u u.
Proof. repeat split. Qed.

Lemma quiet_refl (db : DB) : quiet db db.
Proof.
  split; [lia|]. intros u Hu. left. exists u.
  split; [exact Hu|]. split; [reflexivity|apply keeps_privileges_refl].
Qed.

Lemma quiet_trans (db1 db2 db3 : DB) : quiet db1 db2 → quiet db2 db3 → quiet db1 db3.
Proof.
  intros (Hc12 & H12) (Hc23 & H23). split; [lia|].
  intros u3 Hu3. destruct (H23 u3 Hu3) as [(u2 & Hu2 & Hid23 & Hr & Hp & Ha)|Hfresh].
  - destruct (H12 u2 Hu2) as [(u1 & Hu1 & Hid12 & Hr' & Hp' & Ha')|Hfresh].
    + left. exists u1. split; [exact Hu1|]. split; [congruence|].
      repeat split; congruence.
    + right. lia.
  - right. lia.
Qed.

Lemma write_quiet (db db' : DB) : write false db db' → quiet db db'.
Proof.
  intros Hwrite. destruct Hwrite as
    [db|db r u' Hr Hdesc Hkeep|db row Hid|db row owner Howner Hid Huid
    |db uid|db target].
  - destruct (seeding_frame Auth.default_permissions db) as (Hu & _ & Hua & _).
    unfold quiet. rewrite Hu, Hua. apply quiet_refl.
  - split; [simpl; lia|]. intros x Hx. left.
    apply elem_of_update_user in Hx as [[Hx _]| ->].
    + exists x. split; [exact Hx|]. split; [reflexivity|apply keeps_privileges_refl].
    + exists r. split; [exact Hr|]. destruct Hdesc as (Hid & _).
      split; [exact Hid|apply Hkeep; reflexivity].
  - split; [simpl; lia|]. intros x Hx. simpl in Hx.
    apply elem_of_app in Hx as [Hx|Hx].
    + left. exists x. split; [exact Hx|].
      split; [reflexivity|apply keeps_privileges_refl].
    + right. apply list_elem_of_singleton in Hx as ->. lia.
  - exact (quiet_refl db).
  - exact (quiet_refl db).
  - destruct (delete_user_row_spec target db) as [Husers _].
    split; [simpl; lia|]. intros x Hx. left. apply Husers in Hx as [Hx _].
    exists x. split; [exact Hx|]. split; [reflexivity|apply keeps_privileges_refl].
Qed.

Lemma writes_quiet (db db' : DB) : rtc (write false) db db' → quiet db db'.
Proof.
  induction 1 as [db|db db1 db2 Hstep _ IH]; [apply quiet_refl|].
  apply (quiet_trans db db1 db2); [apply write_quiet, Hstep|exact IH].
Qed.

(** Role, permissions and active flag of an existing account change only
    through the role, permission and status routes of the admin router:
    whatever other requests are served (signup, the logins, verification,
    password reset and change, refresh, logout, profile update, account
    deletion), a row that carries the key of an earlier row has that row's
    role, permissions and active flag. *)
Theorem only_admin_routes_change_privileges {sec : Security} {fb : Firebase}
    {eng : Engine}
    (history : list (Z * Request)) (db : DB) (u u' : User.t) :
  db_ok db →
  Forall (λ step, is_admin_request (snd step) = false) history →
  u ∈ users db →
  u' ∈ users (serve_all history db) →
  User.id u' = User.id u →
  User.role u' = User.role u
  ∧ User.permissions u' = User.permissions u
  ∧ User.is_active u' = User.is_active u.
Proof.
  intros (Hpk & Hbelow & _) Hhistory Hu Hu' Hid.
  destruct (writes_quiet db _ (serve_all_quiet_writes history db Hhistory))
    as (_ & Husers).
  destruct (Husers u' Hu') as [(u0 & Hu0 & Hid0 & Hkeep)|Hfresh].
  - assert (u0 = u) as ->.
    { apply (primary_key_unique db u0 u Hpk Hu0 Hu). congruence. }
    exact Hkeep.
  - apply Hbelow in Hu. lia.
Qed.

Lemma only_admin_routes_change_privileges_witness :
  ∃ u', users (serve_all (sec := Sample.security) (fb := Sample.firebase) (eng := Sample.engine)
                 [ (300, PostLogin None None "carol@example.com" "Carol3");
                   (310, PutMe "access:carol@example.com:hr" (Some "Caroline") None);
                   (320, PutChangePassword "access:carol@example.com:hr"
                           "Carol3" "Carol4") ]
                 Sample.db) !! 2%nat = Some u'
        ∧ User.name u' = "Caroline"
        ∧ User.hashed_password u' = "hash:Carol4"
        ∧ User.role u' = HR
        ∧ User.permissions u' = User.permissions Sample.carol.
Proof.
  set (history := [ (300, PostLogin None None "carol@example.com" "Carol3");
                    (310, PutMe "access:carol@example.com:hr" (Some "Caroline") None);
                    (320, PutChangePassword "access:carol@example.com:hr"
                            "Carol3" "Carol4") ]).
  assert (Hat : ∃ u', users (serve_all (sec := Sample.security)
                               (fb := Sample.firebase) (eng := Sample.engine) history Sample.db) !! 2%nat
                      = Some u'
                      ∧ User.name u' = "Caroline"
                      ∧ User.hashed_password u' = "hash:Carol4"
                      ∧ User.id u' = 3).
  { eexists. split; [|split; [|split]]; vm_compute; reflexivity. }
  destruct Hat as (u' & Hat & Hname & Hhash & Hid). exists u'.
  split; [exact Hat|]. split; [exact Hname|]. split; [exact Hhash|].
  destruct (only_admin_routes_change_privileges
              (sec := Sample.security) (fb := Sample.firebase)
              (eng := Sample.engine)
              history Sample.db Sample.carol u' sample_db_ok) as (Hrole & Hperms & _).
  - repeat constructor.
  - unfold Sample.db. simpl. rewrite !elem_of_cons. auto.
  - apply list_elem_of_lookup. exists 2%nat. exact Hat.
  - exact Hid.
  - split; [exact Hrole|exact Hperms].
Defined.

(** ** Logout touches one user *)

Lemma first_filter_stable {A : Type} (P Q : A → bool) (rows : list A) :
  (∀ x, x ∈ rows → P x = true → Q x = true) →
  first P (List.filter Q rows) = first P rows.
Proof.
  unfold first. induction rows as [|r rows IH]; intros Himp; [reflexivity|]. simpl.
  assert (Hrest : find P (List.filter Q rows) = find P rows).
  { apply IH. intros x Hx. apply Himp. right. exact Hx. }
  destruct (Q r) eqn:HQ; simpl.
  - rewrite Hrest. reflexivity.
  - destruct (P r) eqn:HP; [|exact Hrest].
    rewrite (Himp r ltac:(left) HP) in HQ. discriminate HQ.
Qed.

(** Logout revokes the caller's sessions and nobody else's: a refresh token
    whose payload names another user is answered after the logout exactly as
    before. *)
Theorem logout_spares_other_users {sec : Security}
    (token : string) (now : Z) (db : DB) (current_user : User.t) :
  Dependencies.get_current_user now token db = Return current_user →
  ∃ db',
    Auth.logout token now db = (Return "Successfully logged out", db')
    ∧ ∀ refresh_token later payload,
        decode_token later refresh_token = Some payload →
        dict_get payload "user_id" ≠ CInt (User.id current_user) →
        Auth.refresh_token refresh_token later db'
        = (fst (Auth.refresh_token refresh_token later db), db').
Proof.
  intros Hresolved.
  exists (delete_sessions_of (User.id current_user) db). split.
  - unfold Auth.logout, bind, Depends, commit, ret. rewrite Hresolved. reflexivity.
  - intros refresh_token later payload Hdec Hother.
    unfold Auth.refresh_token. rewrite Hdec.
    destruct (_ || _); [reflexivity|].
    unfold bind, query, Auth.find_valid, delete_sessions_of, all. simpl.
    rewrite first_filter_stable.
    + destruct (first _ (user_sessions db)) as [session|]; [|reflexivity].
      unfold session_user. simpl.
      destruct (first _ (users db)); reflexivity.
    + intros s _ Hmatch.
      apply andb_true_iff in Hmatch as [Hmatch _].
      apply andb_true_iff in Hmatch as [_ Huid].
      destruct (dict_get payload "user_id") as [|x|z]; try discriminate Huid.
      simpl in Huid. apply Z.eqb_eq in Huid. subst z.
      apply negb_true_iff, Z.eqb_neq. intros Heq. apply Hother. congruence.
Qed.

Lemma logout_spares_other_users_witness :
  ∃ db',
    Auth.logout (sec := Sample.security) "access:alice@example.com:admin" 200 Sample.db
    = (Return "Successfully logged out", db')
    ∧ Auth.refresh_token (sec := Sample.security) "refresh:bob@example.com" 300 db'
      = (Return (Token.mk "access:bob@example.com:candidate" None "bearer"), db').
Proof.
  destruct (logout_spares_other_users (sec := Sample.security)
              "access:alice@example.com:admin" 200 Sample.db Sample.alice)
    as (db' & Hout & Hothers).
  - vm_compute. reflexivity.
  - exists db'. split; [exact Hout|].
    rewrite (Hothers "refresh:bob@example.com" 300
               (Sample.claims "refresh" "bob@example.com" 2));
      [reflexivity|vm_compute; reflexivity|vm_compute; discriminate].
Defined.
